(** * Competition assessment and content-length estimation

    A shallow embedding of the scoring core of [src/simple_seo_brief.py]:
    [estimate_content_length] and [calculate_competition_assessment],
    together with the fragment of Python's numeric semantics they rely on
    (unbounded [int], binary64 [float], true division, [round], [min],
    [sum], [int()], mixed comparisons and the stable [list.sort]).

    Console output ([print]) is not modelled.  The page fetcher
    [get_actual_word_count] talks to the network; it is a parameter of the
    model, a function from the URL to an optional word count.

    Around that core the development also embeds the cleaning of domain
    names and the request loop of [get_domain_metrics], the reading of the
    result page in [get_serp_results], the assessment step of [main], and
    the extraction of fenced JSON from the answers of the language model in
    [analyze_competitor_audience_and_goals] and
    [find_relevant_internal_links].  The HTTP endpoints are parameters of
    the model: functions from the request to a typed reply or an
    exception. *)

From Stdlib Require Import ZArith List String Bool Lia SpecFloat Sorted Permutation.
From stdpp Require Import gmap strings.
Import ListNotations.

Local Open Scope Z_scope.

(** ** Exceptions *)

Inductive exn := OverflowError | ZeroDivisionError | ValueError | TypeError.

Inductive result (A : Type) : Type :=
  | Ok (a : A)
  | Raise (e : exn).
Arguments Ok {A} a.
Arguments Raise {A} e.

#[global] Instance result_ret : MRet result := fun _ a => Ok a.
#[global] Instance result_bind : MBind result := fun _ _ k m =>
  match m with
  | Ok a => k a
  | Raise e => Raise e
  end.

(** ** Python numbers *)

Module PyNum.

(** Binary64: 53 bits of precision, infinities at exponent 1024. *)
Definition prec : Z := 53.
Definition emax : Z := 1024.

Definition fadd : spec_float -> spec_float -> spec_float := SFadd prec emax.
Definition fmul : spec_float -> spec_float -> spec_float := SFmul prec emax.
Definition fdiv : spec_float -> spec_float -> spec_float := SFdiv prec emax.

(** A Python number is an [int] or a [float]. *)
Inductive pynum :=
  | PInt (z : Z)
  | PFloat (f : spec_float).

(** The nearest double of an integer (ties to even). *)
Definition float_of_Z (z : Z) : spec_float := binary_normalize prec emax z 0 false.

(** Integers at or beyond this bound round to an infinity:
    it lies half-way between the largest double and [2^1024]. *)
Definition dbl_overflow : Z := 2 ^ 1024 - 2 ^ 970.

(** [float(z)] as the arithmetic operators apply it to an [int] operand. *)
Definition float_of_int (z : Z) : result spec_float :=
  if Z.abs z <? dbl_overflow then Ok (float_of_Z z) else Raise OverflowError.

Definition to_float (x : pynum) : result spec_float :=
  match x with
  | PInt z => float_of_int z
  | PFloat f => Ok f
  end.

Definition is_zero (f : spec_float) : bool :=
  match f with
  | S754_zero _ => true
  | _ => false
  end.

(** [a / b] on two [int]s: the correctly rounded quotient. *)
Definition int_truediv (a b : Z) : result spec_float :=
  if b =? 0 then Raise ZeroDivisionError
  else if a =? 0 then Ok (S754_zero (b <? 0))
  else if dbl_overflow * Z.abs b <=? Z.abs a then Raise OverflowError
  else Ok (fdiv (S754_finite (a <? 0) (Z.to_pos (Z.abs a)) 0)
                (S754_finite (b <? 0) (Z.to_pos (Z.abs b)) 0)).

(** [a / b] *)
Definition py_truediv (a b : pynum) : result pynum :=
  match a, b with
  | PInt x, PInt y => f ← int_truediv x y; Ok (PFloat f)
  | _, _ =>
      fa ← to_float a;
      fb ← to_float b;
      if is_zero fb then Raise ZeroDivisionError else Ok (PFloat (fdiv fa fb))
  end.

(** [a * b] *)
Definition py_mul (a b : pynum) : result pynum :=
  match a, b with
  | PInt x, PInt y => Ok (PInt (x * y))
  | _, _ => fa ← to_float a; fb ← to_float b; Ok (PFloat (fmul fa fb))
  end.

(** [a + b] *)
Definition py_add (a b : pynum) : result pynum :=
  match a, b with
  | PInt x, PInt y => Ok (PInt (x + y))
  | _, _ => fa ← to_float a; fb ← to_float b; Ok (PFloat (fadd fa fb))
  end.

(** Exact comparison of an integer with a finite double [±m·2^e]. *)
Definition cmp_int_finite (x : Z) (s : bool) (m : positive) (e : Z) : comparison :=
  Z.compare (x * 2 ^ Z.max 0 (- e)) (cond_Zopp s (Zpos m) * 2 ^ Z.max 0 e).

(** Three-way comparison of an [int] with a [float]; [None] is unordered.
    An [int] of at most 48 bits is converted to a double and the doubles are
    compared; a larger one is compared exactly. *)
Definition cmp_int_float (x : Z) (f : spec_float) : option comparison :=
  if Z.abs x <? 2 ^ 48 then SFcompare (float_of_Z x) f
  else match f with
       | S754_nan => None
       | S754_infinity s => Some (if s then Gt else Lt)
       | S754_zero _ => Some (Z.compare x 0)
       | S754_finite s m e => Some (cmp_int_finite x s m e)
       end.

Definition num_compare (a b : pynum) : option comparison :=
  match a, b with
  | PInt x, PInt y => Some (Z.compare x y)
  | PFloat f, PFloat g => SFcompare f g
  | PInt x, PFloat g => cmp_int_float x g
  | PFloat f, PInt y => option_map CompOpp (cmp_int_float y f)
  end.

(** [a < b] *)
Definition num_lt (a b : pynum) : bool :=
  match num_compare a b with
  | Some Lt => true
  | _ => false
  end.

(** [a <= b] *)
Definition num_le (a b : pynum) : bool :=
  match num_compare a b with
  | Some (Lt | Eq) => true
  | _ => false
  end.

(** [a > b] *)
Definition num_gt (a b : pynum) : bool := num_lt b a.

(** [min(a, b)]: the second argument replaces the first only when it is
    strictly smaller. *)
Definition py_min (a b : pynum) : pynum := if num_lt b a then b else a.

(** [n / d] rounded to the nearest integer, ties to even ([0 < d]). *)
Definition div_half_even (n d : Z) : Z :=
  let q := n / d in
  match Z.compare (2 * (n mod d)) d with
  | Lt => q
  | Gt => q + 1
  | Eq => if Z.even q then q else q + 1
  end.

(** [round(f, 1)] on a [float]: the decimal with one fractional digit
    nearest to the exact value of [f], converted back to the nearest double.
    Integral values, infinities and NaN round to themselves. *)
Definition float_round1 (f : spec_float) : spec_float :=
  match f with
  | S754_finite s m e =>
      if 0 <=? e then f
      else match div_half_even (10 * Zpos m) (2 ^ (- e)) with
           | Zpos tenths => fdiv (S754_finite s tenths 0) (S754_finite false 10 0)
           | _ => S754_zero s
           end
  | _ => f
  end.

(** [round(x, 1)]; an [int] is returned unchanged. *)
Definition py_round1 (x : pynum) : pynum :=
  match x with
  | PInt z => PInt z
  | PFloat f => PFloat (float_round1 f)
  end.

(** [int(f)]: truncation towards zero. *)
Definition int_of_float (f : spec_float) : result Z :=
  match f with
  | S754_zero _ => Ok 0
  | S754_finite s m e =>
      Ok (cond_Zopp s (if 0 <=? e then Zpos m * 2 ^ e else Zpos m / 2 ^ (- e)))
  | S754_infinity _ => Raise OverflowError
  | S754_nan => Raise ValueError
  end.

(** [sum(xs)]: left to right, starting from the [int] 0. *)
Definition py_sum (xs : list pynum) : result pynum :=
  foldl (fun acc x => a ← acc; py_add a x) (Ok (PInt 0)) xs.

(** The float literals [1.1] and [1.2]. *)
Definition lit_1_1 : spec_float := S754_finite false 4953959590107546 (-52).
Definition lit_1_2 : spec_float := S754_finite false 5404319552844595 (-52).

End PyNum.
Import PyNum.

(** ** Built-ins on lists *)

(** [sorted(xs, key=...)] / [list.sort(key=...)]: a stable sort that only
    asks whether one key is strictly below another.  An element is inserted
    in front of the first element of the sorted tail whose key is not
    strictly below its own. *)
Section Sort.
Context {A K : Type} (key : A -> K) (lt : K -> K -> bool).

Fixpoint insert_by (x : A) (l : list A) : list A :=
  match l with
  | [] => [x]
  | y :: l' => if lt (key y) (key x) then y :: insert_by x l' else x :: y :: l'
  end.

Fixpoint py_sort_by (l : list A) : list A :=
  match l with
  | [] => []
  | x :: l' => insert_by x (py_sort_by l')
  end.
(** [below a b]: the key of [b] is not strictly below the key of [a]. *)
Definition below (a b : A) : Prop := lt (key b) (key a) = false.
End Sort.

(** [min(xs)] and [max(xs)] of a non-empty list of [int]s. *)
Definition py_min_list (x : Z) (xs : list Z) : Z :=
  foldl (fun m y => if y <? m then y else m) x xs.

Definition py_max_list (x : Z) (xs : list Z) : Z :=
  foldl (fun m y => if m <? y then y else m) x xs.

(** ** Data model *)

(** One entry of [serp_results["results"]]; [None] is an absent key. *)
Record serp_result := {
  position : option Z;
  title : option string;
  url : option string;
  domain : option string
}.

(** The SERP dictionary; [results] is absent when the lookup failed. *)
Record serp := { results : option (list serp_result) }.

(** Authority metrics of one domain; [None] is an absent key. *)
Record domain_metrics := {
  pos_1 : option pynum;
  etv : option pynum;
  keywords : option pynum
}.

(** [d.get(k, 0)] *)
Definition get0 (v : option pynum) : pynum := default (PInt 0) v.

Record estimate := {
  est_position : Z;
  est_domain : string;
  est_actual_words : Z;
  est_title : string;
  est_fetched : bool
}.

Record content_length := {
  average : pynum;
  median : Z;
  min_words : Z;
  max_words : Z;
  recommended_min : Z;
  recommended_max : Z;
  detailed_estimates : list estimate
}.

Record competitor := {
  c_domain : string;
  c_position : Z;
  c_pos_1 : pynum;
  c_etv : pynum;
  c_keywords : pynum;
  strength_score : pynum;
  difficulty : string
}.

Record own_metrics := {
  your_pos_1 : pynum;
  your_etv : pynum;
  your_keywords : pynum
}.

Record assessment := {
  your_metrics : own_metrics;
  competitor_analysis : list competitor;
  overall_score : pynum;
  verdict : string;
  target_position : string;
  recommendations : list string;
  content_length_analysis : content_length
}.

(** ** estimate_content_length *)

Section ContentLength.
(** [get_actual_word_count]: the word count of the page, or [None] when
    the fetch or the parse failed (the function catches every exception). *)
Variable get_actual_word_count : string -> option Z.

(** [actual_words if actual_words and actual_words > 100 else 2000] *)
Definition word_count_of (actual_words : option Z) : Z :=
  match actual_words with
  | Some n => if negb (n =? 0) && (100 <? n) then n else 2000
  | None => 2000
  end.

(** [title[:60] + "..." if len(title) > 60 else title] *)
Definition short_title (t : string) : string :=
  if (60 <? String.length t)%nat then String.append (substring 0 60 t) "..." else t.

(** The entries the loop visits: [serp_results.get("results", [])[:4]]. *)
Definition analyzed (serp_results : serp) : list serp_result :=
  take 4 (default [] (results serp_results)).

Definition sample (r : serp_result) : Z :=
  word_count_of (get_actual_word_count (default "" (url r))).

Definition detail (r : serp_result) : estimate :=
  let actual_words := get_actual_word_count (default "" (url r)) in
  {| est_position := default 999 (position r);
     est_domain := default "" (domain r);
     est_actual_words := word_count_of actual_words;
     est_title := short_title (default "" (title r));
     est_fetched := bool_decide (is_Some actual_words) |}.

(** The statistics block that follows the loop. *)
Definition length_statistics (word_counts : list Z) (details : list estimate)
  : result content_length :=
  match word_counts with
  | w :: ws =>
      avg_words ← int_truediv (foldl Z.add 0 word_counts) (Z.of_nat (length word_counts));
      let sorted_counts := py_sort_by id Z.ltb word_counts in
      let median_words := nth (length sorted_counts / 2) sorted_counts 0 in
      let min_words := py_min_list w ws in
      let max_words := py_max_list w ws in
      recommended_min ← int_of_float (fmul avg_words lit_1_1);
      recommended_max ← int_of_float (fmul avg_words lit_1_2);
      Ok {| average := PFloat avg_words;
            median := median_words;
            min_words := min_words;
            max_words := max_words;
            recommended_min := recommended_min;
            recommended_max := recommended_max;
            detailed_estimates := details |}
  | [] =>
      Ok {| average := PInt 3000;
            median := 3000;
            min_words := 1500;
            max_words := 5000;
            recommended_min := 3000;
            recommended_max := 4000;
            detailed_estimates := [] |}
  end.

Definition word_counts_of (serp_results : serp) : list Z :=
  map sample (analyzed serp_results).

Definition estimate_content_length (serp_results : serp) : result content_length :=
  length_statistics (word_counts_of serp_results) (map detail (analyzed serp_results)).
End ContentLength.


(** ** calculate_competition_assessment *)

(** The three ratios of a competitor against your own domain.  The inner
    conditional of the first branch repeats the outer test, as in the source. *)
Definition pos_1_ratio (comp_pos_1 your_pos_1 : pynum) : result pynum :=
  if num_gt your_pos_1 (PInt 0) then
    if num_gt your_pos_1 (PInt 0) then py_truediv comp_pos_1 your_pos_1 else Ok comp_pos_1
  else
    if num_gt comp_pos_1 (PInt 0) then py_truediv comp_pos_1 (PInt 100) else Ok (PInt 0).

Definition etv_ratio (comp_etv your_etv : pynum) : result pynum :=
  if num_gt your_etv (PInt 0) then
    if num_gt your_etv (PInt 0) then py_truediv comp_etv your_etv
    else py_truediv comp_etv (PInt 1000)
  else
    if num_gt comp_etv (PInt 0) then py_truediv comp_etv (PInt 10000) else Ok (PInt 0).

Definition keywords_ratio (comp_keywords your_keywords : pynum) : result pynum :=
  if num_gt your_keywords (PInt 0) then
    if num_gt your_keywords (PInt 0) then py_truediv comp_keywords your_keywords
    else py_truediv comp_keywords (PInt 1000)
  else
    if num_gt comp_keywords (PInt 0) then py_truediv comp_keywords (PInt 5000) else Ok (PInt 0).

(** [min(100, pos_1_ratio * 50 + etv_ratio * 30 + keywords_ratio * 20)] *)
Definition weighted_score (r_pos_1 r_etv r_keywords : pynum) : result pynum :=
  a ← py_mul r_pos_1 (PInt 50);
  b ← py_mul r_etv (PInt 30);
  ab ← py_add a b;
  c ← py_mul r_keywords (PInt 20);
  abc ← py_add ab c;
  Ok (py_min (PInt 100) abc).

(** The local [strength_score] of one competitor, before it is rounded. *)
Definition raw_strength (you : own_metrics) (metrics : domain_metrics) : result pynum :=
  r1 ← pos_1_ratio (get0 (pos_1 metrics)) (your_pos_1 you);
  r2 ← etv_ratio (get0 (etv metrics)) (your_etv you);
  r3 ← keywords_ratio (get0 (keywords metrics)) (your_keywords you);
  weighted_score r1 r2 r3.

Definition difficulty_of (strength_score : pynum) : string :=
  if num_le strength_score (PInt 30) then "WEAK - Easy to outrank"
  else if num_le strength_score (PInt 60) then "MEDIUM - Moderate effort needed"
  else if num_le strength_score (PInt 85) then "STRONG - Significant effort required"
  else "DOMINANT - Very difficult to outrank".

(** One iteration of the loop over the SERP: the entry appended to
    [competitor_analysis], if any. *)
Definition analyze_result (you : own_metrics)
    (competitor_metrics_dict : gmap string domain_metrics) (r : serp_result)
  : result (option competitor) :=
  match domain r with
  | Some d =>
      if negb (String.eqb d "") then
        match competitor_metrics_dict !! d with
        | Some metrics =>
            s ← raw_strength you metrics;
            Ok (Some {| c_domain := d;
                        c_position := default 999 (position r);
                        c_pos_1 := get0 (pos_1 metrics);
                        c_etv := get0 (etv metrics);
                        c_keywords := get0 (keywords metrics);
                        strength_score := py_round1 s;
                        difficulty := difficulty_of s |})
        | None => Ok None
        end
      else Ok None
  | None => Ok None
  end.

(** The loop: entries are appended in SERP order. *)
Fixpoint analyze_results (you : own_metrics)
    (competitor_metrics_dict : gmap string domain_metrics) (rs : list serp_result)
  : result (list competitor) :=
  match rs with
  | [] => Ok []
  | r :: rs' =>
      oc ← analyze_result you competitor_metrics_dict r;
      cs ← analyze_results you competitor_metrics_dict rs';
      Ok (match oc with Some c => c :: cs | None => cs end)
  end.

(** [competitor_analysis.sort(key=lambda x: x["strength_score"])] *)
Definition sort_by_strength (cs : list competitor) : list competitor :=
  py_sort_by strength_score num_lt cs.

(** [competitor_analysis[:5] if len(competitor_analysis) >= 5 else competitor_analysis] *)
Definition top_5 (competitor_analysis : list competitor) : list competitor :=
  if (5 <=? length competitor_analysis)%nat then take 5 competitor_analysis
  else competitor_analysis.

(** The local [overall_score], before it is rounded for the return value:
    [sum(c["strength_score"] for c in top_5) / len(top_5) if top_5 else 0]. *)
Definition overall_score_of (competitor_analysis : list competitor) : result pynum :=
  match top_5 competitor_analysis with
  | [] => Ok (PInt 0)
  | t =>
      s ← py_sum (map strength_score t);
      py_truediv s (PInt (Z.of_nat (length t)))
  end.

Definition verdict_of (overall_score : pynum) : string * string :=
  if num_le overall_score (PInt 30) then
    ("LOW COMPETITION - Excellent opportunity", "1-3")
  else if num_le overall_score (PInt 60) then
    ("MEDIUM COMPETITION - Good opportunity with quality content", "3-5")
  else if num_le overall_score (PInt 85) then
    ("HIGH COMPETITION - Requires exceptional content and link building", "5-10")
  else
    ("VERY HIGH COMPETITION - Long-term strategy needed", "10-20 initially").

Definition strategy_of (overall_score : pynum) : list string :=
  if num_le overall_score (PInt 30) then
    ["Focus on content quality - competitors are weak";
     "Quick wins possible with on-page optimization";
     "Build topical authority in this niche"]
  else if num_le overall_score (PInt 60) then
    ["Create significantly better content than current top 10";
     "Build high-quality backlinks from relevant sites";
     "Focus on user experience and engagement metrics"]
  else if num_le overall_score (PInt 85) then
    ["Develop comprehensive pillar content";
     "Aggressive link building campaign required";
     "Build brand authority and E-E-A-T signals";
     "Consider targeting easier related keywords first"]
  else
    ["Long-term strategy needed (6-12+ months)";
     "Build domain authority through easier wins first";
     "Focus on long-tail variations initially";
     "Invest heavily in content quality and backlinks"].

(** The dynamically generated line naming up to three easy targets. *)
Definition easiest_line (competitor_analysis : list competitor) : list string :=
  match filter (fun c => num_le (strength_score c) (PInt 40) = true) competitor_analysis with
  | [] => []
  | easiest_targets =>
      [String.append "Target to outrank first: "
         (String.concat ", " (map c_domain (take 3 easiest_targets)))]
  end.

Definition read_own_metrics (your_domain_metrics : domain_metrics) : own_metrics :=
  {| your_pos_1 := get0 (pos_1 your_domain_metrics);
     your_etv := get0 (etv your_domain_metrics);
     your_keywords := get0 (keywords your_domain_metrics) |}.

Definition calculate_competition_assessment
    (get_actual_word_count : string -> option Z)
    (your_domain_metrics : domain_metrics)
    (competitor_metrics_dict : gmap string domain_metrics)
    (serp_results : serp) : result assessment :=
  content_length_analysis ← estimate_content_length get_actual_word_count serp_results;
  let you := read_own_metrics your_domain_metrics in
  unsorted ← analyze_results you competitor_metrics_dict (default [] (results serp_results));
  let competitor_analysis := sort_by_strength unsorted in
  overall_score ← overall_score_of competitor_analysis;
  Ok {| your_metrics := you;
        competitor_analysis := competitor_analysis;
        overall_score := py_round1 overall_score;
        verdict := fst (verdict_of overall_score);
        target_position := snd (verdict_of overall_score);
        recommendations := strategy_of overall_score ++ easiest_line competitor_analysis;
        content_length_analysis := content_length_analysis |}.

(** ** String methods and the cleaning of domains *)

(** [s.replace(old, new)] for a non-empty [old]: the occurrences of [old]
    are replaced from left to right, without overlap.  [skip] counts the
    characters of the current occurrence that are still to be passed over. *)
Fixpoint replace_from (old new : string) (skip : nat) (s : string) : string :=
  match s with
  | EmptyString => EmptyString
  | String c s' =>
      match skip with
      | S k => replace_from old new k s'
      | O =>
          if String.prefix old s
          then new +:+ replace_from old new (String.length old - 1) s'
          else String c (replace_from old new 0 s')
      end
  end.

Definition py_replace (old new s : string) : string := replace_from old new 0 s.

(** [s.split(sep)] for a non-empty [sep], as the first piece and the list
    of the pieces that follow it. *)
Fixpoint split_from (sep : string) (skip : nat) (s : string) : string * list string :=
  match s with
  | EmptyString => (EmptyString, [])
  | String c s' =>
      match skip with
      | S k => split_from sep k s'
      | O =>
          if String.prefix sep s then
            let '(piece, pieces) := split_from sep (String.length sep - 1) s' in
            (EmptyString, piece :: pieces)
          else
            let '(piece, pieces) := split_from sep 0 s' in
            (String c piece, pieces)
      end
  end.

Definition py_split (sep s : string) : list string :=
  let '(piece, pieces) := split_from sep 0 s in piece :: pieces.

(** The body of the cleaning loop of [get_domain_metrics]:
    [domain.replace('https://', '').replace('http://', '').replace('www.', '')]
    followed by [clean.split('/')[0]]. *)
Definition clean_domain (domain : string) : string :=
  let clean :=
    py_replace "www." "" (py_replace "http://" "" (py_replace "https://" "" domain)) in
  hd "" (py_split "/" clean).

(** The loop: a cleaned name is kept when it is not empty. *)
Fixpoint clean_domains (domains : list string) : list string :=
  match domains with
  | [] => []
  | domain :: domains' =>
      let clean := clean_domain domain in
      if String.eqb clean "" then clean_domains domains'
      else clean :: clean_domains domains'
  end.

(** ** get_domain_metrics *)

(** The part of a reply of the domain-rank endpoint that the function
    reads.  An absent key is [None]; a list that is absent or empty is [[]]
    (the function only tests such a list for truth before taking its first
    element). *)
Record organic_obj := {
  o_pos_1 : option pynum;
  o_count : option pynum;
  o_etv : option pynum
}.

Record metrics_obj := { m_organic : option organic_obj }.

Record metrics_item_obj := { mi_metrics : option metrics_obj }.

Record result_item_obj := {
  ri_target : option string;
  ri_items : list metrics_item_obj
}.

Record task_obj := {
  t_status_code : option Z;
  t_result : list result_item_obj
}.

Record response := { r_tasks : list task_obj }.

(** What one request comes to: [requests.post], [raise_for_status] or
    [response.json] raises a [RequestException]; something else is raised
    (also while a reply that has not the shape above is taken apart); or
    the reply is decoded. *)
Inductive reply (A : Type) : Type :=
  | RequestException
  | OtherException
  | Response (data : A).
Arguments RequestException {A}.
Arguments OtherException {A}.
Arguments Response {A} data.

(** [{}] *)
Definition empty_organic : organic_obj :=
  {| o_pos_1 := None; o_count := None; o_etv := None |}.

Definition empty_metrics : metrics_obj := {| m_organic := None |}.

(** The entry stored for a domain.  Of its nine keys the three that the
    assessment reads are kept; each is always present. *)
Definition stored_entry (organic : organic_obj) : domain_metrics :=
  {| pos_1 := Some (get0 (o_pos_1 organic));
     etv := Some (get0 (o_etv organic));
     keywords := Some (get0 (o_count organic)) |}.

(** [f"{x:,.0f}"]: an [int] is converted to a [float] first. *)
Definition format_fixed (x : pynum) : result unit := _ ← to_float x; Ok ().

(** The body of the request loop for one reply.  [None]: an exception
    leaves the loop and reaches the outer handler.  Of the console output
    only the formatting of [etv] is modelled, which can raise. *)
Definition record_reply (r : reply response) (collected : gmap string domain_metrics)
  : option (gmap string domain_metrics) :=
  match r with
  | RequestException => Some collected
  | OtherException => None
  | Response data =>
      match r_tasks data with
      | [] => Some collected
      | task_result :: _ =>
          if negb (bool_decide (t_status_code task_result = Some 20000)) then Some collected
          else
            match t_result task_result with
            | [] => Some collected
            | result_item :: _ =>
                match ri_items result_item with
                | [] => Some collected
                | metrics_item :: _ =>
                    match ri_target result_item with
                    | Some domain =>
                        if String.eqb domain "" then Some collected
                        else
                          let metrics := default empty_metrics (mi_metrics metrics_item) in
                          let organic := default empty_organic (m_organic metrics) in
                          let entry := stored_entry organic in
                          match format_fixed (get0 (etv entry)) with
                          | Ok _ => Some (<[domain := entry]> collected)
                          | Raise _ => None
                          end
                    | None => Some collected
                    end
                end
            end
      end
  end.

(** The loop over [enumerate(clean_domains)]: one request per target;
    [post idx target] is what request number [idx] comes to. *)
Fixpoint request_all (post : nat -> string -> reply response) (idx : nat) (targets : list string)
    (collected : gmap string domain_metrics) : option (gmap string domain_metrics) :=
  match targets with
  | [] => Some collected
  | clean_domain :: targets' =>
      match record_reply (post idx clean_domain) collected with
      | Some collected' => request_all post (S idx) targets' collected'
      | None => None
      end
  end.

(** [get_domain_metrics]: the collected metrics, or [{}] when an exception
    reached the outer handler. *)
Definition get_domain_metrics (post : nat -> string -> reply response) (domains : list string)
  : gmap string domain_metrics :=
  default ∅ (request_all post 0 (clean_domains domains) ∅).

(** ** get_serp_results and the assessment step of main *)

(** An item of the reply of the SERP endpoint, as far as it is read; an
    absent key is [None]. *)
Record serp_item := {
  i_type : option string;
  i_rank_group : option Z;
  i_title : option string;
  i_url : option string;
  i_domain : option string
}.

Record serp_result_obj := { sr_items : list serp_item }.

Record serp_task := { st_result : list serp_result_obj }.

Record serp_response := { s_tasks : list serp_task }.

(** The dictionary returned on success.  The entries of [results] are
    built with every key: where the item has no value the entry holds
    Python's [None], for which [None] stands here as well.  The model of
    the estimator and of the assessment reads [None] as an absent key;
    the two readings agree on entries whose values are all present. *)
Record serp_data := {
  sd_keyword : string;
  sd_total_results : nat;
  sd_results : list serp_result;
  sd_domain_metrics : gmap string domain_metrics;
  sd_your_domain : string;
  sd_your_domain_metrics : domain_metrics
}.

(** [{}] *)
Definition no_metrics : domain_metrics := {| pos_1 := None; etv := None; keywords := None |}.

Definition is_organic (item : serp_item) : bool :=
  bool_decide (i_type item = Some "organic").

Definition format_item (item : serp_item) : serp_result :=
  {| position := i_rank_group item;
     title := i_title item;
     url := i_url item;
     domain := i_domain item |}.

(** The first pass over the items: the formatted results and the set of
    their domains. *)
Fixpoint first_pass (serp_items : list serp_item) : list serp_result * gset string :=
  match serp_items with
  | [] => ([], ∅)
  | item :: serp_items' =>
      let '(formatted_results, competitor_domains) := first_pass serp_items' in
      if is_organic item then
        (format_item item :: formatted_results,
         match i_domain item with
         | Some d => if String.eqb d "" then competitor_domains
                     else {[ d ]} ∪ competitor_domains
         | None => competitor_domains
         end)
      else (formatted_results, competitor_domains)
  end.

Section SerpResults.
(** [list(competitor_domains)]: the order in which Python iterates over
    the set is not determined by the program. *)
Variable list_of_set : gset string -> list string.

(** The domains whose metrics are requested. *)
Definition all_domains_of (competitor_domains : gset string) (your_domain : string)
  : list string :=
  let all_domains := list_of_set competitor_domains in
  if bool_decide (your_domain ∈ all_domains) then all_domains
  else all_domains ++ [your_domain].

(** [get_serp_results]; [None] stands for the dictionary that only has the
    key [error].  [serp_reply] is what the request to the SERP endpoint
    comes to, [post] what the requests for domain metrics come to.  The
    second pass, which copies the metrics into the entries of [results],
    adds a key that nothing reads afterwards. *)
Definition get_serp_results (serp_reply : reply serp_response)
    (post : nat -> string -> reply response) (keyword your_domain : string)
  : option serp_data :=
  match serp_reply with
  | RequestException => None
  | OtherException => None
  | Response data =>
      match s_tasks data with
      | [] => None
      | task_result :: _ =>
          match st_result task_result with
          | [] => None
          | first_result :: _ =>
              let serp_items := sr_items first_result in
              let '(formatted_results, competitor_domains) :=
                first_pass (take 10 serp_items) in
              let all_domains := all_domains_of competitor_domains your_domain in
              let domain_metrics := get_domain_metrics post all_domains in
              Some {| sd_keyword := keyword;
                      sd_total_results := length formatted_results;
                      sd_results := formatted_results;
                      sd_domain_metrics := domain_metrics;
                      sd_your_domain := your_domain;
                      sd_your_domain_metrics :=
                        default no_metrics (domain_metrics !! your_domain) |}
          end
      end
  end.
End SerpResults.

(** Step 4 of [main]: the assessment is computed from the dictionary that
    [get_serp_results] returned. *)
Definition main_assessment (get_actual_word_count : string -> option Z)
    (serp_results : option serp_data) : result assessment :=
  let your_domain_metrics :=
    match serp_results with
    | Some d => sd_your_domain_metrics d
    | None => no_metrics
    end in
  let domain_metrics :=
    match serp_results with
    | Some d => sd_domain_metrics d
    | None => ∅
    end in
  calculate_competition_assessment get_actual_word_count your_domain_metrics domain_metrics
    {| results := sd_results <$> serp_results |}.

(** ** Extraction of fenced JSON

    [analyze_competitor_audience_and_goals] and
    [find_relevant_internal_links] take the JSON text out of the answer of
    the language model in the same way, before they hand it to
    [json.loads]. *)

(** [sub in s] for a non-empty [sub]. *)
Definition py_in (sub s : string) : bool :=
  match String.index 0 sub s with
  | Some _ => true
  | None => false
  end.

Section Fences.
(** [str.strip]; which characters count as white space is left open. *)
Variable strip : string -> string.

(** The text handed to [json.loads]; [None] stands for an [IndexError]. *)
Definition extract_json (response_text : string) : option string :=
  if py_in "```json" response_text then
    after ← py_split "```json" response_text !! 1%nat;
    inside ← py_split "```" after !! 0%nat;
    Some (strip inside)
  else if py_in "```" response_text then
    after ← py_split "```" response_text !! 1%nat;
    inside ← py_split "```" after !! 0%nat;
    Some (strip inside)
  else Some response_text.
End Fences.


(** ** Definitions used to state the properties *)

(** A double with a full 53-bit mantissa. *)
Definition normal53 (q : positive) : Prop := 2 ^ 52 <= Zpos q < 2 ^ 53.

(** The integer part of [v * 2^e], rounded down and rounded up. *)
Definition floor_at (v e : Z) : Z := if 0 <=? e then v * 2 ^ e else v / 2 ^ (- e).
Definition ceil_at (v e : Z) : Z := - floor_at (- v) e.

(** Floor and ceiling of the exact value of a number (0 where it has none). *)
Definition float_floor (f : spec_float) : Z :=
  match f with
  | S754_finite s m e => floor_at (cond_Zopp s (Zpos m)) e
  | _ => 0
  end.

Definition float_ceil (f : spec_float) : Z :=
  match f with
  | S754_finite s m e => ceil_at (cond_Zopp s (Zpos m)) e
  | _ => 0
  end.

Definition num_floor (x : pynum) : Z :=
  match x with
  | PInt z => z
  | PFloat f => float_floor f
  end.

Definition num_ceil (x : pynum) : Z :=
  match x with
  | PInt z => z
  | PFloat f => float_ceil f
  end.


(** The position of a double in the order of the comparison operators:
    class, then exponent, then mantissa. *)
Definition float_rank (f : spec_float) : Z * Z * Z :=
  match f with
  | S754_infinity true => (-2, 0, 0)
  | S754_finite true m e => (-1, - e, - Zpos m)
  | S754_zero _ | S754_nan => (0, 0, 0)
  | S754_finite false m e => (1, e, Zpos m)
  | S754_infinity false => (2, 0, 0)
  end.

(** Lexicographic order on triples. *)
Definition lex_lt (a b : Z * Z * Z) : Prop :=
  let '(a1, a2, a3) := a in
  let '(b1, b2, b3) := b in
  a1 < b1 \/ (a1 = b1 /\ (a2 < b2 \/ (a2 = b2 /\ a3 < b3))).

Definition not_nan (f : spec_float) : Prop := f <> S754_nan.

(** The double a stored score is compared as. *)
Definition score_float (x : pynum) : spec_float :=
  match x with
  | PInt z => float_of_Z z
  | PFloat f => f
  end.

(** The values a stored [strength_score] can take: the [int]s 0 and 100, or
    a [float] other than NaN. *)
Definition good_score (x : pynum) : Prop :=
  x = PInt 0 \/ x = PInt 100 \/ exists f, x = PFloat f /\ not_nan f.

(** [f] carries the sign [s], or is NaN. *)
Definition signed_or_nan (s : bool) (f : spec_float) : Prop :=
  match f with
  | S754_zero s' | S754_infinity s' | S754_finite s' _ _ => s' = s
  | S754_nan => True
  end.

Definition in_range (x : pynum) : Prop :=
  match x with
  | PInt z => Z.abs z < dbl_overflow
  | PFloat _ => True
  end.

Definition ratio_shape (r : pynum) : Prop := r = PInt 0 \/ exists f, r = PFloat f.

Definition raw_good (s : pynum) : Prop :=
  s = PInt 0 \/ s = PInt 100 \/
  exists f, s = PFloat f /\ num_lt (PFloat f) (PInt 100) = true.

Definition nonneg_or_nan (f : spec_float) : Prop :=
  match f with
  | S754_nan | S754_zero _ => True
  | S754_infinity s | S754_finite s _ _ => s = false
  end.

Definition positive_float (f : spec_float) : Prop :=
  (exists m e, f = S754_finite false m e) \/ f = S754_infinity false.

Definition num_nonneg (x : pynum) : Prop :=
  match x with
  | PInt z => 0 <= z
  | PFloat f => nonneg_or_nan f
  end.

Definition in_unit_range (s : pynum) : Prop :=
  num_le (PInt 0) s = true /\ num_le s (PInt 100) = true.

Definition metrics_in_range (m : domain_metrics) : Prop :=
  in_range (get0 (pos_1 m)) /\ in_range (get0 (etv m)) /\ in_range (get0 (keywords m)).

Definition metrics_nonneg (m : domain_metrics) : Prop :=
  num_nonneg (get0 (pos_1 m)) /\ num_nonneg (get0 (etv m)) /\ num_nonneg (get0 (keywords m)).

Definition own_in_range (you : own_metrics) : Prop :=
  in_range (your_pos_1 you) /\ in_range (your_etv you) /\ in_range (your_keywords you).

(** The fetcher returns the length of a list of words. *)
Definition fetch_bounded (get_actual_word_count : string -> option Z) : Prop :=
  forall u n, get_actual_word_count u = Some n -> 0 <= n < 2 ^ 63.

(** The mean of a list of [int]s under Python's true division. *)
Definition mean_of_ints (xs : list Z) : result spec_float :=
  int_truediv (fold_right Z.add 0 xs) (Z.of_nat (length xs)).

(** Four pages in the order of the SERP: 1800 and 2200 words, a failed
    fetch, 3000 words. *)
Definition example_fetch (u : string) : option Z :=
  if String.eqb u "https://a.example/" then Some 1800
  else if String.eqb u "https://b.example/" then Some 2200
  else if String.eqb u "https://d.example/" then Some 3000
  else None.

Definition example_entry (n : Z) (u d : string) : serp_result :=
  {| position := Some n; title := Some d; url := Some u; domain := Some d |}.

Definition example_results : list serp_result :=
  [example_entry 1 "https://a.example/" "a.example";
   example_entry 2 "https://b.example/" "b.example";
   example_entry 3 "https://c.example/" "c.example";
   example_entry 4 "https://d.example/" "d.example"].

Definition example_serp : serp := {| results := Some example_results |}.

(** Every domain of the authority data has metrics a double can hold. *)
Definition dict_in_range (competitor_metrics_dict : gmap string domain_metrics) : Prop :=
  forall d m, competitor_metrics_dict !! d = Some m -> metrics_in_range m.

(** The domain and metrics of a SERP entry that has matching authority
    metrics: its domain is present, non-empty and a key of the data. *)
Definition matched (competitor_metrics_dict : gmap string domain_metrics) (r : serp_result)
  : option (string * domain_metrics) :=
  match domain r with
  | Some d =>
      if String.eqb d "" then None
      else match competitor_metrics_dict !! d with
           | Some m => Some (d, m)
           | None => None
           end
  | None => None
  end.

(** Neither score is strictly below the other. *)
Definition same_score (k : pynum) (c : competitor) : bool :=
  negb (num_lt (strength_score c) k) && negb (num_lt k (strength_score c)).

(** The arithmetic mean of a list of numbers, as Python computes it. *)
Definition mean_score (xs : list pynum) : result pynum :=
  s ← py_sum xs; py_truediv s (PInt (Z.of_nat (length xs))).

(** A running sum of at most [k] stored scores. *)
Definition partial_sum (k : Z) (acc : pynum) : Prop :=
  match acc with
  | PInt z => 0 <= z <= 100 * k
  | PFloat _ => True
  end.

Definition int_metrics (p e k : Z) : domain_metrics :=
  {| pos_1 := Some (PInt p); etv := Some (PInt e); keywords := Some (PInt k) |}.

(** Authority data for three of the four domains of [example_serp]. *)
Definition example_dict : gmap string domain_metrics :=
  <["a.example" := int_metrics 50 20000 3000]>
    (<["b.example" := int_metrics 0 0 0]>
       (<["d.example" := int_metrics 10 2500 400]> ∅)).

Definition example_own : domain_metrics := int_metrics 20 5000 1000.

(** A number other than NaN. *)
Definition comparable (s : pynum) : Prop :=
  match s with
  | PInt _ => True
  | PFloat f => not_nan f
  end.

Definition own_nonneg (you : own_metrics) : Prop :=
  num_nonneg (your_pos_1 you) /\ num_nonneg (your_etv you) /\ num_nonneg (your_keywords you).

(** The doubles 0.5, 2.0, 97.0 and the double nearest to 0.6. *)
Definition f_0_5 : spec_float := S754_finite false 4503599627370496 (-53).
Definition f_2_0 : spec_float := S754_finite false 4503599627370496 (-51).
Definition f_0_6 : spec_float := S754_finite false 5404319552844595 (-53).
Definition f_97 : spec_float := S754_finite false 6825768185233408 (-46).

(** The scenario of C7: you have no authority at all, and a single
    competitor at position 1 is in the authority data. *)
Definition zero_metrics : domain_metrics := int_metrics 0 0 0.

Definition scenario_dict : gmap string domain_metrics :=
  <["competitor.example" := int_metrics 50 20000 3000]> ∅.

Definition scenario_serp : serp :=
  {| results := Some [example_entry 1 "https://competitor.example/" "competitor.example"] |}.

Definition scenario_competitor : competitor :=
  {| c_domain := "competitor.example";
     c_position := 1;
     c_pos_1 := PInt 50;
     c_etv := PInt 20000;
     c_keywords := PInt 3000;
     strength_score := PFloat f_97;
     difficulty := "DOMINANT - Very difficult to outrank" |}.

(** Two competitors whose unrounded scores are 0.06 and 0. *)
Definition rounding_dict : gmap string domain_metrics :=
  <["a.example" := int_metrics 0 20 0]> (<["b.example" := int_metrics 0 0 0]> ∅).

Definition rounding_serp : serp :=
  {| results := Some [example_entry 1 "https://a.example/" "a.example";
                      example_entry 2 "https://b.example/" "b.example"] |}.

(** [c["strength_score"] <= 40] *)
Definition easy_target (c : competitor) : Prop :=
  num_le (strength_score c) (PInt 40) = true.

(** The line naming the listed targets, if there are any. *)
Definition target_line (targets : list competitor) : list string :=
  match targets with
  | [] => []
  | _ => [String.append "Target to outrank first: "
            (String.concat ", " (map c_domain targets))]
  end.

(** A domain without rankings: each metric is the [int] 0 or absent. *)
Definition no_rankings (m : domain_metrics) : Prop :=
  get0 (pos_1 m) = PInt 0 /\ get0 (etv m) = PInt 0 /\ get0 (keywords m) = PInt 0.

(** Zero as an [int] or as a [float]. *)
Definition zero_score (s : pynum) : Prop := s = PInt 0 \/ s = PFloat (S754_zero false).

(** The double 2000.0. *)
Definition f_2000 : spec_float := S754_finite false 8796093022208000 (-42).

(** A SERP of two entries, and one whose first title has 72 characters. *)
Definition short_serp : serp := {| results := Some (take 2 example_results) |}.


(** A bare host name: not empty, without [/] and [:], and without an
    occurrence of [www.]. *)
Definition host_like (h : string) : Prop :=
  h <> "" /\ String.index 0 "/" h = None /\ String.index 0 ":" h = None /\
  String.index 0 "www." h = None.

(** What follows the host in a URL: nothing, or a path. *)
Definition path_like (t : string) : Prop := t = "" \/ exists x, t = "/" +:+ x.

(** The key and the entry that a reply adds to the collected metrics. *)
Definition stores (r : reply response) (domain : string) (entry : domain_metrics) : Prop :=
  exists data task_result result_item metrics_item,
    r = Response data /\
    head (r_tasks data) = Some task_result /\
    t_status_code task_result = Some 20000 /\
    head (t_result task_result) = Some result_item /\
    head (ri_items result_item) = Some metrics_item /\
    ri_target result_item = Some domain /\ domain <> "" /\
    entry = stored_entry (default empty_organic
                            (m_organic (default empty_metrics (mi_metrics metrics_item)))).

(** The endpoint names in [target] the domain it was asked about. *)
Definition echoes (post : nat -> string -> reply response) : Prop :=
  forall idx clean d entry, stores (post idx clean) d entry -> d = clean.

(** A domain as a result page gives it: a host, or a URL of one. *)
Definition url_like (d : string) : Prop :=
  exists scheme www h t,
    d = scheme +:+ www +:+ h +:+ t /\
    (scheme = "" \/ scheme = "http://" \/ scheme = "https://") /\
    (www = "" \/ www = "www.") /\ host_like h /\ path_like t.

(** A reply with full metrics for the target it names. *)
Definition metrics_reply (target : string) (p e k : Z) : reply response :=
  Response
    {| r_tasks :=
         [ {| t_status_code := Some 20000;
              t_result :=
                [ {| ri_target := Some target;
                     ri_items :=
                       [ {| mi_metrics :=
                              Some {| m_organic :=
                                        Some {| o_pos_1 := Some (PInt p);
                                                o_count := Some (PInt k);
                                                o_etv := Some (PInt e) |} |} |} ] |} ] |} ] |}.

(** An endpoint that knows two domains and fails on every other request. *)
Definition example_post (idx : nat) (target : string) : reply response :=
  if String.eqb target "a.example" then metrics_reply target 50 20000 3000
  else if String.eqb target "io.net" then metrics_reply target 20 5000 1000
  else RequestException.

(** An entry whose four values are present. *)
Definition complete (r : serp_result) : Prop :=
  is_Some (position r) /\ is_Some (title r) /\ is_Some (url r) /\ is_Some (domain r).

(** The recommendations for weak competitors. *)
Definition weak_recommendations : list string :=
  ["Focus on content quality - competitors are weak";
   "Quick wins possible with on-page optimization";
   "Build topical authority in this niche"].

(** The profile returned when there is nothing to analyse. *)
Definition default_profile : content_length :=
  {| average := PInt 3000; median := 3000; min_words := 1500; max_words := 5000;
     recommended_min := 3000; recommended_max := 4000; detailed_estimates := [] |}.

Definition organic_item (n : Z) (u d : string) : serp_item :=
  {| i_type := Some "organic"; i_rank_group := Some n; i_title := Some d;
     i_url := Some u; i_domain := Some d |}.

(** A reply with an advertisement and two organic results. *)
Definition example_serp_reply : reply serp_response :=
  Response
    {| s_tasks :=
         [ {| st_result :=
                [ {| sr_items :=
                       [ {| i_type := Some "paid"; i_rank_group := Some 1;
                            i_title := Some "ad"; i_url := Some "https://ad.example/";
                            i_domain := Some "ad.example" |};
                         organic_item 1 "https://www.a.example/" "www.a.example";
                         organic_item 2 "https://www.b.example/" "www.b.example" ] |} ] |} ] |}.

(** No occurrence of [sep] begins within [pre] when [sep] follows it. *)
Definition first_after (sep pre : string) : Prop :=
  String.index 0 sep (pre +:+ sep) = Some (String.length pre).

(** A metric of everyday size: a count below [2^48], or a positive
    normal double between [2^-248] and [2^353]. *)
Definition plain_metric (x : pynum) : Prop :=
  match x with
  | PInt z => 0 <= z < 2 ^ 48
  | PFloat f =>
      exists q e, f = S754_finite false q e /\ normal53 q /\ -300 <= e <= 300
  end.

(** Your metric [y] is positive and the competitor's metric [c] is at
    least as large, under Python's comparisons. *)
Definition outmatched (y c : pynum) : Prop :=
  plain_metric y /\ plain_metric c /\
  num_gt y (PInt 0) = true /\ num_le y c = true.

(** A positive normal double of value at least [w], with exponent at most [b]. *)
Definition at_least (b w : Z) (x : pynum) : Prop :=
  exists q e, x = PFloat (S754_finite false q e) /\ normal53 q /\ e <= b /\
              (e < 0 -> w * 2 ^ (- e) <= Zpos q).

(** The double 20000.0, and a domain that outmatches [example_own]. *)
Definition f_20000 : spec_float := S754_finite false 5497558138880000 (-38).

Definition strong_metrics : domain_metrics :=
  {| pos_1 := Some (PInt 20); etv := Some (PFloat f_20000); keywords := Some (PInt 3000) |}.

(** A result page with five entries of the domain without rankings,
    followed by one entry of the domain [last]. *)
Definition crowded_serp (last : string) : serp :=
  {| results := Some (replicate 5 (example_entry 1 "https://b.example/" "b.example")
                      ++ [example_entry 6 "https://x.example/" last]) |}.


(** ** Rounding analysis

    Facts about the binary64 operations in the range the estimator works in:
    operands and results are normal numbers, far from underflow and
    overflow. *)

Lemma digits_bounds (p : positive) :
  2 ^ (Zpos (digits2_pos p) - 1) <= Zpos p < 2 ^ Zpos (digits2_pos p).
Proof.
  induction p as [p IH | p IH |]; cbn [digits2_pos].
  - rewrite Pos2Z.inj_succ.
    replace (Z.succ (Zpos (digits2_pos p)) - 1) with (Z.succ (Zpos (digits2_pos p) - 1)) by lia.
    rewrite !Z.pow_succ_r by lia. lia.
  - rewrite Pos2Z.inj_succ.
    replace (Z.succ (Zpos (digits2_pos p)) - 1) with (Z.succ (Zpos (digits2_pos p) - 1)) by lia.
    rewrite !Z.pow_succ_r by lia. lia.
  - cbn. lia.
Qed.

Lemma digits_lower (p : positive) (k : Z) :
  0 <= k -> 2 ^ k <= Zpos p -> k + 1 <= Zpos (digits2_pos p).
Proof.
  intros Hk Hle. destruct (digits_bounds p) as [_ Hlt].
  destruct (Z_lt_le_dec (Zpos (digits2_pos p)) (k + 1)) as [Hc|]; [|lia].
  assert (2 ^ Zpos (digits2_pos p) <= 2 ^ k) by (apply Z.pow_le_mono_r; lia). lia.
Qed.

Lemma digits_upper (p : positive) (k : Z) :
  0 <= k -> Zpos p < 2 ^ k -> Zpos (digits2_pos p) <= k.
Proof.
  intros Hk Hlt. destruct (digits_bounds p) as [Hle _].
  destruct (Z_lt_le_dec k (Zpos (digits2_pos p))) as [Hc|]; [|lia].
  assert (2 ^ k <= 2 ^ (Zpos (digits2_pos p) - 1)) by (apply Z.pow_le_mono_r; lia). lia.
Qed.

Lemma shr_1_m mrs : 0 <= shr_m mrs -> shr_m (shr_1 mrs) = shr_m mrs / 2.
Proof.
  destruct mrs as [m r s]. cbn [shr_m]. intros Hm.
  destruct m as [|[p|p|]|p]; cbn [shr_1 shr_m].
  - reflexivity.
  - apply Z.div_unique with (r := 1); lia.
  - apply Z.div_unique with (r := 0); lia.
  - reflexivity.
  - lia.
Qed.

Lemma iter_shr_m (p : positive) : forall mrs,
  0 <= shr_m mrs -> shr_m (SpecFloat.iter_pos shr_1 p mrs) = shr_m mrs / 2 ^ Zpos p.
Proof.
  assert (Hnn : forall mrs, 0 <= shr_m mrs -> 0 <= shr_m (shr_1 mrs)).
  { intros mrs H. rewrite shr_1_m by exact H. apply Z.div_pos; lia. }
  induction p as [p IH | p IH |]; intros mrs Hm; cbn [SpecFloat.iter_pos].
  - assert (H1 := Hnn _ Hm).
    assert (H2 : 0 <= shr_m (SpecFloat.iter_pos shr_1 p (shr_1 mrs))).
    { rewrite IH by exact H1. apply Z.div_pos; lia. }
    rewrite IH by exact H2. rewrite IH by exact H1. rewrite shr_1_m by exact Hm.
    assert (Hp : 0 < 2 ^ Zpos p) by (apply Z.pow_pos_nonneg; lia).
    rewrite !Z.div_div by lia. f_equal.
    replace (Zpos p~1) with (1 + Zpos p + Zpos p) by lia.
    rewrite !Z.pow_add_r by lia. lia.
  - assert (H2 : 0 <= shr_m (SpecFloat.iter_pos shr_1 p mrs)).
    { rewrite IH by exact Hm. apply Z.div_pos; lia. }
    rewrite IH by exact H2. rewrite IH by exact Hm.
    assert (Hp : 0 < 2 ^ Zpos p) by (apply Z.pow_pos_nonneg; lia).
    rewrite Z.div_div by lia. f_equal.
    replace (Zpos p~0) with (Zpos p + Zpos p) by lia.
    rewrite !Z.pow_add_r by lia. lia.
  - rewrite shr_1_m by exact Hm. reflexivity.
Qed.

Lemma rne_bounds m l : m <= round_nearest_even m l <= m + 1.
Proof. destruct l as [|[| |]]; cbn; try lia. destruct (Z.even m); lia. Qed.

Lemma record_of_loc_m m l : shr_m (shr_record_of_loc m l) = m.
Proof. destruct l as [|[| |]]; reflexivity. Qed.

Lemma pow2_pos k : 0 <= k -> 0 < 2 ^ k.
Proof. intros. apply Z.pow_pos_nonneg; lia. Qed.

(** Normal range: the first component of [shr_fexp] is the mantissa divided
    by [2^n], where [n] is the number of excess digits. *)
Lemma shr_fexp_normal (m : positive) (e : Z) (l : location) :
  let d := Zpos (digits2_pos m) in
  -1074 <= d + e - 53 ->
  exists mrs,
    shr_fexp prec emax (Zpos m) e l = (mrs, e + Z.max 0 (d - 53)) /\
    shr_m mrs = Zpos m / 2 ^ Z.max 0 (d - 53).
Proof.
  intros d Hn. unfold shr_fexp, shr.
  assert (Hf : fexp prec emax (Zdigits2 (Zpos m) + e) - e = d - 53).
  { unfold fexp, SpecFloat.emin, prec, emax. cbn [Zdigits2]. fold d. lia. }
  rewrite Hf. destruct (d - 53) as [|p|p] eqn:Hd.
  - eexists. split; [f_equal; lia|]. rewrite record_of_loc_m. cbn. rewrite Z.div_1_r. reflexivity.
  - eexists. split; [f_equal; lia|].
    rewrite iter_shr_m by (rewrite record_of_loc_m; lia).
    rewrite record_of_loc_m. f_equal.
  - eexists. split; [f_equal; lia|]. rewrite record_of_loc_m.
    replace (Z.max 0 (Z.neg p)) with 0 by lia. cbn. rewrite Z.div_1_r. reflexivity.
Qed.

Lemma bra_shape (sx : bool) (m : positive) (e : Z) (l : location) :
  let d := Zpos (digits2_pos m) in
  53 <= d -> -1074 <= d + e - 53 ->
  exists q : positive,
    let n := d - 53 in
    let m1 := Zpos m / 2 ^ n in
    2 ^ 52 <= m1 < 2 ^ 53 /\
    ((binary_round_aux prec emax sx (Zpos m) e l =
        (if e + n <=? emax - prec then S754_finite sx q (e + n) else S754_infinity sx) /\
      m1 <= Zpos q <= m1 + 1 /\ Zpos q < 2 ^ 53) \/
     (binary_round_aux prec emax sx (Zpos m) e l =
        (if e + n + 1 <=? emax - prec then S754_finite sx q (e + n + 1)
         else S754_infinity sx) /\
      Zpos q = 2 ^ 52 /\ m1 + 1 = 2 ^ 53)).
Proof.
  intros d Hd Hlo.
  destruct (shr_fexp_normal m e l Hlo) as (mrs & Hs1 & Hm1). fold d in Hs1, Hm1.
  replace (Z.max 0 (d - 53)) with (d - 53) in Hs1, Hm1 by lia.
  set (n := d - 53) in *. set (m1 := Zpos m / 2 ^ n) in *.
  assert (Hn : 0 <= n) by (unfold n; lia).
  assert (Hm1b : 2 ^ 52 <= m1 < 2 ^ 53).
  { destruct (digits_bounds m) as [Hl Hu]. fold d in Hl, Hu.
    assert (Hp := pow2_pos n Hn).
    assert (E1 : 2 ^ (d - 1) = 2 ^ n * 2 ^ 52).
    { rewrite <- Z.pow_add_r by lia. f_equal. unfold n. lia. }
    assert (E2 : 2 ^ d = 2 ^ n * 2 ^ 53).
    { rewrite <- Z.pow_add_r by lia. f_equal. unfold n. lia. }
    split.
    - apply Z.div_le_lower_bound; lia.
    - apply Z.div_lt_upper_bound; lia. }
  pose proof (rne_bounds (shr_m mrs) (loc_of_shr_record mrs)) as Hq.
  unfold binary_round_aux. rewrite Hs1.
  remember (round_nearest_even (shr_m mrs) (loc_of_shr_record mrs)) as q0 eqn:Eq0.
  rewrite Hm1 in Hq. clear Eq0.
  destruct q0 as [|q0|q0]; try lia.
  destruct (Z_lt_le_dec (Zpos q0) (2 ^ 53)) as [Hlt|Hge].
  - (* no carry *)
    assert (Hdq : Zpos (digits2_pos q0) = 53).
    { apply Z.le_antisymm.
      - apply digits_upper; lia.
      - apply (digits_lower q0 52); lia. }
    destruct (shr_fexp_normal q0 (e + n) loc_Exact) as (mrs2 & Hs2 & Hm2); [lia|].
    rewrite Hdq in Hs2, Hm2.
    change (Z.max 0 (53 - 53)) with 0 in Hs2, Hm2.
    rewrite Hs2. rewrite Hm2. rewrite Z.pow_0_r, Z.div_1_r.
    replace (e + n + 0) with (e + n) by lia.
    exists q0. split; [exact Hm1b|]. left. split; [reflexivity|lia].
  - (* carry into the next binade *)
    assert (Hq0 : Zpos q0 = 2 ^ 53) by lia.
    assert (Hdq : Zpos (digits2_pos q0) = 54).
    { apply Z.le_antisymm.
      - apply digits_upper; [lia|]. rewrite Hq0. apply Z.pow_lt_mono_r; lia.
      - apply (digits_lower q0 53); lia. }
    destruct (shr_fexp_normal q0 (e + n) loc_Exact) as (mrs2 & Hs2 & Hm2); [lia|].
    rewrite Hdq in Hs2, Hm2.
    change (Z.max 0 (54 - 53)) with 1 in Hs2, Hm2.
    rewrite Hs2. rewrite Hm2. rewrite Hq0.
    change (2 ^ 53 / 2 ^ 1) with (Zpos (Z.to_pos (2 ^ 52))).
    exists (Z.to_pos (2 ^ 52)). split; [exact Hm1b|]. right.
    split; [reflexivity|split; [reflexivity|lia]].
Qed.

Lemma bra_normal (sx : bool) (m : positive) (e : Z) (l : location) :
  let d := Zpos (digits2_pos m) in
  53 <= d -> -1074 <= d + e - 53 -> d + e <= 1023 ->
  exists q : positive,
    let n := d - 53 in
    let m1 := Zpos m / 2 ^ n in
    2 ^ 52 <= m1 < 2 ^ 53 /\
    ((binary_round_aux prec emax sx (Zpos m) e l = S754_finite sx q (e + n) /\
      m1 <= Zpos q <= m1 + 1 /\ Zpos q < 2 ^ 53) \/
     (binary_round_aux prec emax sx (Zpos m) e l = S754_finite sx q (e + n + 1) /\
      Zpos q = 2 ^ 52 /\ m1 + 1 = 2 ^ 53)).
Proof.
  intros d Hd Hlo Hhi.
  destruct (bra_shape sx m e l Hd Hlo) as (q & Hb & [(E & Hq) | (E & Hq)]); fold d in Hb, E, Hq.
  - exists q. split; [exact Hb|]. left. split; [|exact Hq]. fold d. rewrite E.
    replace (e + (d - 53) <=? emax - prec) with true; [reflexivity|].
    symmetry. apply Z.leb_le. unfold emax, prec. lia.
  - exists q. split; [exact Hb|]. right. split; [|exact Hq]. fold d. rewrite E.
    replace (e + (d - 53) + 1 <=? emax - prec) with true; [reflexivity|].
    symmetry. apply Z.leb_le. unfold emax, prec. lia.
Qed.

(** [bra_normal] with the two cases merged: [k] is the carry. *)
Lemma bra_value (sx : bool) (m : positive) (e : Z) (l : location) :
  let d := Zpos (digits2_pos m) in
  53 <= d -> -1074 <= d + e - 53 -> d + e <= 1023 ->
  exists (q : positive) (k : Z),
    binary_round_aux prec emax sx (Zpos m) e l = S754_finite sx q (e + (d - 53) + k) /\
    0 <= k <= 1 /\ normal53 q /\
    Zpos m / 2 ^ (d - 53) <= Zpos q * 2 ^ k <= Zpos m / 2 ^ (d - 53) + 1.
Proof.
  intros d H1 H2 H3.
  destruct (bra_normal sx m e l H1 H2 H3) as (q & Hb & [(E & Hq & Hlt) | (E & Hq & Hc)]);
    fold d in Hb, E, Hq |- *.
  - exists q, 0. rewrite Z.add_0_r. split; [exact E|]. split; [lia|].
    split; [unfold normal53; lia|]. rewrite Z.pow_0_r. lia.
  - fold d in Hc. exists q, 1. split; [exact E|]. split; [lia|].
    split; [unfold normal53; rewrite Hq; lia|]. rewrite Hq. lia.
Qed.

Lemma div_core (a b : positive) :
  let d1 := Zpos (digits2_pos a) in
  let d2 := Zpos (digits2_pos b) in
  d2 <= d1 ->
  let s := Z.max 0 (53 + d2 - d1) in
  exists l, SFdiv_core_binary prec emax (Zpos a) 0 (Zpos b) 0 =
            (Zpos a * 2 ^ s / Zpos b, - s, l).
Proof.
  intros d1 d2 Hd s. unfold SFdiv_core_binary.
  cbn [Zdigits2]. fold d1 d2.
  assert (He : Z.min (fexp prec emax (d1 + 0 - (d2 + 0))) (0 - 0) = - s).
  { unfold fexp, SpecFloat.emin, prec, emax, s. lia. }
  rewrite He. replace (0 - 0 - - s) with s by lia.
  assert (Hm : match s with
               | 0 => Zpos a
               | Zpos _ => Z.shiftl (Zpos a) s
               | Zneg _ => 0
               end = Zpos a * 2 ^ s).
  { destruct s as [|p|p] eqn:Es.
    - cbn. lia.
    - rewrite Z.shiftl_mul_pow2 by lia. reflexivity.
    - unfold s in Es. lia. }
  rewrite Hm. unfold Z.div.
  destruct (Z.div_eucl (Zpos a * 2 ^ s) (Zpos b)) as [q r].
  eexists. reflexivity.
Qed.

Lemma digits_mono (a b : positive) :
  Zpos b <= Zpos a -> Zpos (digits2_pos b) <= Zpos (digits2_pos a).
Proof.
  intros H. apply digits_upper; [lia|]. destruct (digits_bounds a). lia.
Qed.

Lemma dbl_overflow_big : 2 ^ 64 <= dbl_overflow.
Proof. apply Z.leb_le. vm_compute. reflexivity. Qed.

(** The quotient of two positive [int]s whose ratio lies in [[1, 2^63)]. *)
Lemma int_truediv_normal (a b : Z) :
  0 < b -> b <= a -> a < b * 2 ^ 63 ->
  exists (q : positive) (s n k : Z),
    int_truediv a b = Ok (S754_finite false q (n - s + k)) /\
    normal53 q /\ -52 <= n - s + k <= 11 /\ 0 <= s /\ 0 <= n /\ 0 <= k <= 1 /\
    a * 2 ^ s / b / 2 ^ n <= Zpos q * 2 ^ k <= a * 2 ^ s / b / 2 ^ n + 1.
Proof.
  intros Hb Hab Hub.
  destruct a as [|pa|pa]; try lia. destruct b as [|pb|pb]; try lia.
  unfold int_truediv.
  replace (Zpos pb =? 0) with false by (symmetry; apply Z.eqb_neq; lia).
  replace (Zpos pa =? 0) with false by (symmetry; apply Z.eqb_neq; lia).
  replace (dbl_overflow * Z.abs (Zpos pb) <=? Z.abs (Zpos pa)) with false.
  2:{ symmetry. apply Z.leb_gt. pose proof dbl_overflow_big.
      change (Z.abs (Zpos pb)) with (Zpos pb). change (Z.abs (Zpos pa)) with (Zpos pa).
      assert (2 ^ 64 = 2 ^ 63 * 2) by reflexivity. nia. }
  change (Zpos pa <? 0) with false. change (Zpos pb <? 0) with false.
  change (Z.to_pos (Z.abs (Zpos pa))) with pa. change (Z.to_pos (Z.abs (Zpos pb))) with pb.
  unfold fdiv, SFdiv.
  pose proof (digits_mono pa pb Hab) as Hd.
  destruct (div_core pa pb Hd) as (l & Hcore). rewrite Hcore. clear Hcore.
  set (d1 := Zpos (digits2_pos pa)) in *. set (d2 := Zpos (digits2_pos pb)) in *.
  set (s := Z.max 0 (53 + d2 - d1)).
  assert (Hs : 0 <= s) by (unfold s; lia).
  assert (Hps := pow2_pos s Hs).
  set (Q := Zpos pa * 2 ^ s / Zpos pb).
  assert (HQs : 2 ^ s <= Q).
  { unfold Q. apply Z.div_le_lower_bound; [lia|]. nia. }
  assert (HQu : Q < 2 ^ (63 + s)).
  { unfold Q. apply Z.div_lt_upper_bound; [lia|].
    rewrite Z.pow_add_r by lia. nia. }
  assert (HQ52 : 2 ^ 52 <= Q).
  { unfold Q. apply Z.div_le_lower_bound; [lia|].
    destruct (digits_bounds pa) as [Ha _]. destruct (digits_bounds pb) as [_ Hb2].
    fold d1 in Ha. fold d2 in Hb2.
    assert (0 < d1) by (unfold d1; lia). assert (0 < d2) by (unfold d2; lia).
    assert (E : 2 ^ (d1 - 1) * 2 ^ s = 2 ^ (d1 - 1 + s)) by (rewrite Z.pow_add_r by lia; reflexivity).
    assert (L : 2 ^ (52 + d2) <= 2 ^ (d1 - 1 + s)) by (apply Z.pow_le_mono_r; unfold s; lia).
    rewrite Z.pow_add_r in L by lia. nia. }
  destruct Q as [|Qp|Qp] eqn:EQ; try lia.
  assert (D53 : 53 <= Zpos (digits2_pos Qp)) by (apply (digits_lower Qp 52); lia).
  assert (Dlo : s + 1 <= Zpos (digits2_pos Qp)) by (apply digits_lower; lia).
  assert (Dhi : Zpos (digits2_pos Qp) <= 63 + s) by (apply digits_upper; lia).
  destruct (bra_value (xorb false false) Qp (- s) l) as (q & k & E & Hk & Hq & Hv); try lia.
  exists q, s, (Zpos (digits2_pos Qp) - 53), k.
  rewrite E. split; [cbn [xorb]; do 2 f_equal; lia|].
  split; [exact Hq|]. split; [lia|]. split; [lia|]. split; [lia|]. split; [lia|].
  fold Q. rewrite EQ. exact Hv.
Qed.

Lemma div_bracket (P n : Z) : 0 <= n -> P - 2 ^ n < P / 2 ^ n * 2 ^ n <= P.
Proof.
  intros Hn. pose proof (pow2_pos n Hn) as Hp.
  pose proof (Z.div_mod P (2 ^ n)) as H1. pose proof (Z.mod_pos_bound P (2 ^ n) Hp) as H2.
  lia.
Qed.

(** Product of two normal doubles, the second with exponent [-52]
    (a constant in [[1, 2)]). *)
Lemma fmul_normal (qa qc : positive) (ea : Z) :
  normal53 qa -> normal53 qc -> -1000 <= ea <= 900 ->
  exists (q : positive) (j : Z),
    fmul (S754_finite false qa ea) (S754_finite false qc (-52)) = S754_finite false q (ea + j) /\
    normal53 q /\ 0 <= j <= 2 /\
    Zpos qa * Zpos qc - 2 ^ 53 <= Zpos q * 2 ^ j * 2 ^ 52 <= Zpos qa * Zpos qc + 2 ^ 53.
Proof.
  unfold normal53. intros Ha Hc He. unfold fmul, SFmul.
  set (P := (qa * qc)%positive).
  assert (HP : Zpos P = Zpos qa * Zpos qc) by (unfold P; lia).
  assert (HPl : 2 ^ 104 <= Zpos P) by (rewrite HP; change (2 ^ 104) with (2 ^ 52 * 2 ^ 52); nia).
  assert (HPu : Zpos P < 2 ^ 106) by (rewrite HP; change (2 ^ 106) with (2 ^ 53 * 2 ^ 53); nia).
  assert (Dl : 105 <= Zpos (digits2_pos P)) by (apply (digits_lower P 104); lia).
  assert (Du : Zpos (digits2_pos P) <= 106) by (apply digits_upper; lia).
  destruct (bra_value (xorb false false) P (ea + -52) loc_Exact) as (q & k & E & Hk & Hq & Hv); try lia.
  rewrite E. cbn [xorb]. rewrite <- HP.
  set (n := Zpos (digits2_pos P) - 53) in *.
  assert (Hn : 52 <= n <= 53) by (unfold n; lia).
  pose proof (div_bracket (Zpos P) n ltac:(lia)) as Hb.
  exists q, (k + (n - 52)).
  split; [f_equal; unfold n; lia|]. split; [exact Hq|]. split; [lia|].
  assert (Ek : Zpos q * 2 ^ (k + (n - 52)) * 2 ^ 52 = Zpos q * 2 ^ k * 2 ^ n).
  { rewrite <- !Z.mul_assoc. f_equal. rewrite <- !Z.pow_add_r by lia. f_equal. lia. }
  rewrite Ek. set (X := Zpos q * 2 ^ k) in *.
  assert (Hn53 : 2 ^ n <= 2 ^ 53) by (apply Z.pow_le_mono_r; lia).
  pose proof (pow2_pos n ltac:(lia)) as Hpn.
  set (T := 2 ^ n) in *. set (m1 := Zpos P / T) in *. nia.
Qed.

(** From a lower bound on the ratio to a lower bound on the quotient. *)
Lemma int_truediv_spec (a b : Z) :
  0 < b -> b <= a -> a < b * 2 ^ 63 ->
  exists (q : positive) (e : Z),
    int_truediv a b = Ok (S754_finite false q e) /\
    normal53 q /\ -52 <= e <= 11 /\
    (forall c, 0 < c -> c * b <= a -> e < 0 -> c * 2 ^ (- e) <= Zpos q).
Proof.
  intros Hb Hab Hub.
  destruct (int_truediv_normal a b Hb Hab Hub)
    as (q & s & n & k & E & Hq & He & Hs & Hn & Hk & Hv).
  exists q, (n - s + k). split; [exact E|]. split; [exact Hq|]. split; [exact He|].
  intros c Hc Hca Hneg.
  pose proof (pow2_pos s Hs) as Hps. pose proof (pow2_pos n Hn) as Hpn.
  assert (HQ : c * 2 ^ s <= a * 2 ^ s / b).
  { apply Z.div_le_lower_bound; [lia|]. nia. }
  assert (Esn : 2 ^ s = 2 ^ n * 2 ^ (s - n)).
  { rewrite <- Z.pow_add_r by lia. f_equal. lia. }
  assert (Hm1 : c * 2 ^ (s - n) <= a * 2 ^ s / b / 2 ^ n).
  { apply Z.div_le_lower_bound; [lia|]. nia. }
  assert (Hk' : k = 0 \/ k = 1) by lia.
  destruct Hk' as [-> | ->].
  - rewrite Z.pow_0_r in Hv. replace (- (n - s + 0)) with (s - n) by lia. lia.
  - rewrite Z.pow_1_r in Hv. replace (- (n - s + 1)) with (s - n - 1) by lia.
    assert (E2 : 2 ^ (s - n) = 2 * 2 ^ (s - n - 1)).
    { replace (s - n) with (1 + (s - n - 1)) at 1 by lia.
      rewrite Z.pow_add_r by lia. reflexivity. }
    nia.
Qed.

Lemma floor_at_shift (q e j : Z) : 0 <= j -> floor_at (q * 2 ^ j) e = floor_at q (e + j).
Proof.
  intros Hj. unfold floor_at.
  pose proof (pow2_pos j Hj) as Hpj.
  destruct (Z.leb_spec 0 e) as [He|He]; destruct (Z.leb_spec 0 (e + j)) as [Hej|Hej]; try lia.
  - rewrite Z.pow_add_r by lia. lia.
  - replace j with ((- e) + (e + j)) at 1 by lia. rewrite Z.pow_add_r by lia.
    rewrite (Z.mul_comm (2 ^ (- e))), Z.mul_assoc.
    apply Z.div_mul. pose proof (pow2_pos (- e)). lia.
  - replace (- e) with (- (e + j) + j) by lia. rewrite Z.pow_add_r by lia.
    apply Z.div_mul_cancel_r; pose proof (pow2_pos (- (e + j))); lia.
Qed.

Lemma floor_at_mono (u v e : Z) : u <= v -> floor_at u e <= floor_at v e.
Proof.
  intros H. unfold floor_at. destruct (Z.leb_spec 0 e) as [He|He].
  - pose proof (pow2_pos e He). nia.
  - apply Z.div_le_mono; [apply pow2_pos; lia | exact H].
Qed.

Lemma int_of_float_pos (q : positive) (e : Z) :
  int_of_float (S754_finite false q e) = Ok (floor_at (Zpos q) e).
Proof. reflexivity. Qed.

(** [int(avg * c)] for a normal average and a constant [c] in [[1, 2)]:
    the product, in units of the last place of [avg], is off by at most two
    units, and the result is its integer part. *)
Lemma int_of_product (qa qc : positive) (ea : Z) :
  normal53 qa -> normal53 qc -> -1000 <= ea <= 900 ->
  exists V : Z,
    int_of_float (fmul (S754_finite false qa ea) (S754_finite false qc (-52)))
      = Ok (floor_at V ea) /\
    float_floor (fmul (S754_finite false qa ea) (S754_finite false qc (-52)))
      = floor_at V ea /\
    Zpos qa * Zpos qc - 2 ^ 53 <= V * 2 ^ 52 <= Zpos qa * Zpos qc + 2 ^ 53.
Proof.
  intros Ha Hc He.
  destruct (fmul_normal qa qc ea Ha Hc He) as (q & j & E & Hq & Hj & Hv).
  exists (Zpos q * 2 ^ j). rewrite E, int_of_float_pos.
  cbn [float_floor cond_Zopp].
  split; [|split; [|exact Hv]]; rewrite floor_at_shift by lia; reflexivity.
Qed.

Lemma foldl_add_bounds (lo hi : Z) (ws : list Z) :
  Forall (fun x => lo <= x < hi) ws ->
  forall acc,
    acc + lo * Z.of_nat (length ws) <= foldl Z.add acc ws
      <= acc + (hi - 1) * Z.of_nat (length ws).
Proof.
  induction 1 as [|x ws Hx _ IH]; intros acc; cbn [foldl length].
  - lia.
  - specialize (IH (acc + x)). rewrite Nat2Z.inj_succ. lia.
Qed.

Lemma lit_1_1_normal : normal53 4953959590107546.
Proof. unfold normal53. split; [apply Z.leb_le | apply Z.ltb_lt]; reflexivity. Qed.

Lemma lit_1_2_normal : normal53 5404319552844595.
Proof. unfold normal53. split; [apply Z.leb_le | apply Z.ltb_lt]; reflexivity. Qed.

(** The statistics block never raises on counts a page can have, and its
    floating-point results are pinned down to within two units in the last
    place of the average. *)
Lemma length_statistics_ok (w : Z) (ws : list Z) (details : list estimate) :
  Forall (fun x => 1 <= x < 2 ^ 63) (w :: ws) ->
  exists (qa : positive) (ea V1 V2 : Z),
    int_truediv (foldl Z.add 0 (w :: ws)) (Z.of_nat (length (w :: ws)))
      = Ok (S754_finite false qa ea) /\
    length_statistics (w :: ws) details =
      Ok {| average := PFloat (S754_finite false qa ea);
            median := nth (length (py_sort_by id Z.ltb (w :: ws)) / 2)
                          (py_sort_by id Z.ltb (w :: ws)) 0;
            min_words := py_min_list w ws;
            max_words := py_max_list w ws;
            recommended_min := floor_at V1 ea;
            recommended_max := floor_at V2 ea;
            detailed_estimates := details |} /\
    float_floor (fmul (S754_finite false qa ea) lit_1_1) = floor_at V1 ea /\
    float_floor (fmul (S754_finite false qa ea) lit_1_2) = floor_at V2 ea /\
    normal53 qa /\ -52 <= ea <= 11 /\
    Zpos qa * 4953959590107546 - 2 ^ 53 <= V1 * 2 ^ 52
      <= Zpos qa * 4953959590107546 + 2 ^ 53 /\
    Zpos qa * 5404319552844595 - 2 ^ 53 <= V2 * 2 ^ 52
      <= Zpos qa * 5404319552844595 + 2 ^ 53 /\
    (forall c, 0 < c -> Forall (fun x => c <= x) (w :: ws) ->
               ea < 0 -> c * 2 ^ (- ea) <= Zpos qa).
Proof.
  intros Hall.
  set (S := foldl Z.add 0 (w :: ws)). set (n := Z.of_nat (length (w :: ws))).
  assert (Hn : 0 < n) by (unfold n; cbn [length]; lia).
  pose proof (foldl_add_bounds 1 (2 ^ 63) (w :: ws) Hall 0) as HS. fold S n in HS.
  destruct (int_truediv_spec S n Hn) as (qa & ea & E & Hq & He & Hge); [lia | lia |].
  destruct (int_of_product qa 4953959590107546 ea Hq lit_1_1_normal) as (V1 & E1 & F1 & B1); [lia|].
  destruct (int_of_product qa 5404319552844595 ea Hq lit_1_2_normal) as (V2 & E2 & F2 & B2); [lia|].
  exists qa, ea, V1, V2. split; [exact E|].
  split.
  { unfold length_statistics. fold S n. rewrite E. cbn [mbind result_bind].
    unfold lit_1_1, lit_1_2. rewrite E1. cbn [mbind result_bind]. rewrite E2. reflexivity. }
  split; [exact F1|]. split; [exact F2|]. split; [exact Hq|]. split; [exact He|].
  split; [exact B1|]. split; [exact B2|].
  intros c Hc Hcall Hneg. apply Hge; [exact Hc| |exact Hneg].
  assert (Hcb : Forall (fun x => c <= x < 2 ^ 63 + c) (w :: ws)).
  { rewrite Forall_forall in *. intros x Hx. specialize (Hall x Hx). specialize (Hcall x Hx). lia. }
  pose proof (foldl_add_bounds c (2 ^ 63 + c) (w :: ws) Hcb 0) as HS'. fold S n in HS'. lia.
Qed.

(** ** The stable sort *)

Section SortFacts.
Context {A K : Type} (key : A -> K) (lt : K -> K -> bool).

Lemma insert_by_perm (x : A) (l : list A) : Permutation (x :: l) (insert_by key lt x l).
Proof.
  induction l as [|y l IH]; cbn [insert_by].
  - apply Permutation_refl.
  - destruct (lt (key y) (key x)).
    + eapply perm_trans; [apply perm_swap|]. apply perm_skip. exact IH.
    + apply Permutation_refl.
Qed.

Lemma py_sort_by_perm (l : list A) : Permutation l (py_sort_by key lt l).
Proof.
  induction l as [|x l IH]; cbn [py_sort_by].
  - apply perm_nil.
  - eapply perm_trans; [apply perm_skip; exact IH|]. apply insert_by_perm.
Qed.

Lemma py_sort_by_length (l : list A) : length (py_sort_by key lt l) = length l.
Proof. symmetry. apply Permutation_length, py_sort_by_perm. Qed.

(** Elements that are never strictly below one another keep their order. *)
Lemma insert_by_filter (P : A -> bool) (x : A) (l : list A) :
  (forall a b, P a = true -> P b = true -> lt (key a) (key b) = false) ->
  List.filter P (insert_by key lt x l) = List.filter P (x :: l).
Proof.
  intros HP. induction l as [|y l IH]; cbn [insert_by]; [reflexivity|].
  destruct (lt (key y) (key x)) eqn:Hlt; [|reflexivity].
  cbn [List.filter] in *. rewrite IH.
  destruct (P x) eqn:Px; destruct (P y) eqn:Py; try reflexivity.
  rewrite (HP y x Py Px) in Hlt. discriminate.
Qed.

Lemma py_sort_by_stable (P : A -> bool) (l : list A) :
  (forall a b, P a = true -> P b = true -> lt (key a) (key b) = false) ->
  List.filter P (py_sort_by key lt l) = List.filter P l.
Proof.
  intros HP. induction l as [|x l IH]; cbn [py_sort_by]; [reflexivity|].
  rewrite insert_by_filter by exact HP. cbn [List.filter]. rewrite IH. reflexivity.
Qed.

(** Sortedness needs the comparison to be a strict weak order on the keys
    that occur; [good] singles them out. *)
Variable good : K -> Prop.
Hypothesis lt_asym : forall a b, good a -> good b -> lt a b = true -> lt b a = false.
Hypothesis nlt_trans : forall a b c, good a -> good b -> good c ->
  lt b a = false -> lt c b = false -> lt c a = false.

Lemma insert_by_sorted (x : A) (l : list A) :
  good (key x) -> Forall (fun a => good (key a)) l ->
  StronglySorted (below key lt) l -> StronglySorted (below key lt) (insert_by key lt x l).
Proof.
  intros Gx Gl Hs. induction Hs as [|y l Hs IH Hy]; cbn [insert_by].
  - constructor; constructor.
  - inversion Gl as [|? ? Gy Gl']; subst.
    destruct (lt (key y) (key x)) eqn:Hlt.
    + constructor; [apply IH; exact Gl'|].
      eapply Permutation_Forall; [apply insert_by_perm|].
      constructor; [|exact Hy]. unfold below. apply lt_asym; assumption.
    + constructor; [constructor; assumption|].
      constructor; [exact Hlt|].
      rewrite Forall_forall in *. intros z Hz. unfold below in *.
      apply (nlt_trans (key x) (key y) (key z)); auto.
Qed.

Lemma py_sort_by_good (l : list A) :
  Forall (fun a => good (key a)) l -> Forall (fun a => good (key a)) (py_sort_by key lt l).
Proof. intros H. eapply Permutation_Forall; [apply py_sort_by_perm|exact H]. Qed.

Lemma py_sort_by_sorted (l : list A) :
  Forall (fun a => good (key a)) l -> StronglySorted (below key lt) (py_sort_by key lt l).
Proof.
  induction 1 as [|x l Gx Gl IH]; cbn [py_sort_by]; [constructor|].
  apply insert_by_sorted; [exact Gx | apply py_sort_by_good; exact Gl | exact IH].
Qed.
End SortFacts.

(** ** Order and NaN-freedom of scores *)

Lemma SFltb_rank (f g : spec_float) :
  not_nan f -> not_nan g ->
  (SFltb f g = true <-> lex_lt (float_rank f) (float_rank g)).
Proof.
  unfold not_nan, SFltb. intros Hf Hg.
  destruct f as [sf|sf| |sf mf ef]; try congruence;
  destruct g as [sg|sg| |sg mg eg]; try congruence;
  try destruct sf; try destruct sg; cbn [SFcompare float_rank lex_lt];
  try (split; [discriminate | lia]); try (split; [lia | reflexivity]);
  change (Pos.compare_cont Eq mf mg) with (Z.compare (Zpos mf) (Zpos mg));
  destruct (Z.compare_spec ef eg); destruct (Z.compare_spec (Zpos mf) (Zpos mg));
  cbn [CompOpp]; split; try discriminate; try reflexivity; try lia.
Qed.

Lemma SFgtb_rank (f g : spec_float) :
  not_nan f -> not_nan g ->
  (SFcompare f g = Some Gt <-> lex_lt (float_rank g) (float_rank f)).
Proof.
  unfold not_nan. intros Hf Hg.
  destruct f as [sf|sf| |sf mf ef]; try congruence;
  destruct g as [sg|sg| |sg mg eg]; try congruence;
  try destruct sf; try destruct sg; cbn [SFcompare float_rank lex_lt];
  try (split; [discriminate | lia]); try (split; [lia | reflexivity]);
  change (Pos.compare_cont Eq mf mg) with (Z.compare (Zpos mf) (Zpos mg));
  destruct (Z.compare_spec ef eg); destruct (Z.compare_spec (Zpos mf) (Zpos mg));
  cbn [CompOpp]; split; try discriminate; try reflexivity; try lia.
Qed.

Lemma lex_lt_asym a b : lex_lt a b -> ~ lex_lt b a.
Proof. destruct a as [[a1 a2] a3], b as [[b1 b2] b3]. unfold lex_lt. lia. Qed.

Lemma lex_nlt_trans a b c : ~ lex_lt b a -> ~ lex_lt c b -> ~ lex_lt c a.
Proof.
  destruct a as [[a1 a2] a3], b as [[b1 b2] b3], c as [[c1 c2] c3]. unfold lex_lt. lia.
Qed.

Lemma good_score_not_nan x : good_score x -> not_nan (score_float x).
Proof.
  intros [-> | [-> | (f & -> & Hf)]]; [discriminate | discriminate | exact Hf].
Qed.

Lemma float_of_Z_0 : float_of_Z 0 = S754_zero false.
Proof. reflexivity. Qed.

Lemma float_of_Z_100 : float_of_Z 100 = S754_finite false 7036874417766400 (-46).
Proof. vm_compute. reflexivity. Qed.

Lemma cmp_int_float_small (x : Z) (g : spec_float) :
  Z.abs x < 2 ^ 48 -> cmp_int_float x g = SFcompare (float_of_Z x) g.
Proof.
  intros H. unfold cmp_int_float.
  destruct (Z.ltb_spec (Z.abs x) (2 ^ 48)) as [_|H']; [reflexivity|lia].
Qed.

Lemma num_lt_float_int (f : spec_float) (y : Z) :
  Z.abs y < 2 ^ 48 ->
  num_lt (PFloat f) (PInt y) = match SFcompare (float_of_Z y) f with Some Gt => true | _ => false end.
Proof.
  intros H. unfold num_lt, num_compare. rewrite cmp_int_float_small by exact H.
  destruct (SFcompare (float_of_Z y) f) as [[| |]|]; reflexivity.
Qed.

Lemma num_lt_int_float (x : Z) (g : spec_float) :
  Z.abs x < 2 ^ 48 -> num_lt (PInt x) (PFloat g) = SFltb (float_of_Z x) g.
Proof.
  intros H. unfold num_lt, num_compare. rewrite cmp_int_float_small by exact H. reflexivity.
Qed.

Lemma small_0 : Z.abs 0 < 2 ^ 48.
Proof. apply Z.ltb_lt. vm_compute. reflexivity. Qed.

Lemma small_100 : Z.abs 100 < 2 ^ 48.
Proof. apply Z.ltb_lt. vm_compute. reflexivity. Qed.

Lemma num_lt_rank (a b : pynum) :
  good_score a -> good_score b ->
  (num_lt a b = true <-> lex_lt (float_rank (score_float a)) (float_rank (score_float b))).
Proof.
  intros Ga Gb.
  pose proof (good_score_not_nan a Ga) as Na. pose proof (good_score_not_nan b Gb) as Nb.
  destruct Ga as [-> | [-> | (f & -> & Hf)]]; destruct Gb as [-> | [-> | (g & -> & Hg)]];
    cbn [score_float] in *.
  - rewrite float_of_Z_0. cbn. split; [discriminate | lia].
  - rewrite float_of_Z_0, float_of_Z_100. cbn. split; [lia | reflexivity].
  - rewrite num_lt_int_float by exact small_0. apply SFltb_rank; assumption.
  - rewrite float_of_Z_0, float_of_Z_100. cbn. split; [discriminate | lia].
  - rewrite float_of_Z_100. cbn. split; [discriminate | lia].
  - rewrite num_lt_int_float by exact small_100. apply SFltb_rank; assumption.
  - rewrite num_lt_float_int by exact small_0.
    rewrite <- (SFgtb_rank (float_of_Z 0) f Nb Na).
    destruct (SFcompare (float_of_Z 0) f) as [[| |]|]; split; congruence.
  - rewrite num_lt_float_int by exact small_100.
    rewrite <- (SFgtb_rank (float_of_Z 100) f Nb Na).
    destruct (SFcompare (float_of_Z 100) f) as [[| |]|]; split; congruence.
  - apply SFltb_rank; assumption.
Qed.

Lemma num_lt_asym (a b : pynum) :
  good_score a -> good_score b -> num_lt a b = true -> num_lt b a = false.
Proof.
  intros Ga Gb H. apply (num_lt_rank a b Ga Gb) in H.
  destruct (num_lt b a) eqn:E; [|reflexivity].
  apply (num_lt_rank b a Gb Ga) in E. exfalso. eapply lex_lt_asym; eassumption.
Qed.

Lemma num_nlt_trans (a b c : pynum) :
  good_score a -> good_score b -> good_score c ->
  num_lt b a = false -> num_lt c b = false -> num_lt c a = false.
Proof.
  intros Ga Gb Gc H1 H2.
  destruct (num_lt c a) eqn:E; [|reflexivity].
  apply (num_lt_rank c a Gc Ga) in E. exfalso.
  refine (lex_nlt_trans _ _ _ _ _ E).
  - intros H. apply (num_lt_rank b a Gb Ga) in H. congruence.
  - intros H. apply (num_lt_rank c b Gc Gb) in H. congruence.
Qed.

(** *** Results of rounding are never NaN *)

Lemma shr_nonneg (mrs : shr_record) (e n : Z) :
  0 <= shr_m mrs -> 0 <= shr_m (fst (shr mrs e n)).
Proof.
  intros H. unfold shr. destruct n as [|p|p]; cbn [fst]; try exact H.
  rewrite iter_shr_m by exact H. apply Z.div_pos; [exact H | apply pow2_pos; lia].
Qed.

Lemma shr_fexp_nonneg (m e : Z) (l : location) :
  0 <= m -> 0 <= shr_m (fst (shr_fexp prec emax m e l)).
Proof.
  intros H. unfold shr_fexp. apply shr_nonneg. rewrite record_of_loc_m. exact H.
Qed.

Lemma bra_sign (sx : bool) (m e : Z) (l : location) :
  signed_or_nan sx (binary_round_aux prec emax sx m e l).
Proof.
  unfold binary_round_aux.
  destruct (shr_fexp prec emax m e l) as [mrs' e'].
  destruct (shr_fexp prec emax _ e' loc_Exact) as [mrs'' e''].
  destruct (shr_m mrs''); cbn; auto. destruct (e'' <=? emax - prec); cbn; auto.
Qed.

Lemma bra_not_nan (sx : bool) (m e : Z) (l : location) :
  0 <= m -> binary_round_aux prec emax sx m e l <> S754_nan.
Proof.
  intros Hm. unfold binary_round_aux.
  pose proof (shr_fexp_nonneg m e l Hm) as H1.
  destruct (shr_fexp prec emax m e l) as [mrs' e']. cbn [fst] in H1.
  pose proof (rne_bounds (shr_m mrs') (loc_of_shr_record mrs')) as Hq.
  pose proof (shr_fexp_nonneg (round_nearest_even (shr_m mrs') (loc_of_shr_record mrs'))
                e' loc_Exact ltac:(lia)) as H2.
  destruct (shr_fexp prec emax _ e' loc_Exact) as [mrs'' e'']. cbn [fst] in H2.
  destruct (shr_m mrs''); try discriminate; [|lia].
  destruct (e'' <=? emax - prec); discriminate.
Qed.

Lemma div_core_nonneg (m1 m2 : positive) (e1 e2 : Z) :
  0 <= fst (fst (SFdiv_core_binary prec emax (Zpos m1) e1 (Zpos m2) e2)).
Proof.
  unfold SFdiv_core_binary.
  set (s := e1 - e2 - _).
  set (m' := match s with 0 => Zpos m1 | Zpos _ => Z.shiftl (Zpos m1) s | Zneg _ => 0 end).
  assert (Hm' : 0 <= m').
  { unfold m'. destruct s; try lia. apply Z.shiftl_nonneg. lia. }
  pose proof (Z_div_mod m' (Zpos m2) ltac:(lia)) as H.
  destruct (Z.div_eucl m' (Zpos m2)) as [q r]. cbn [fst]. nia.
Qed.

Lemma fdiv_finite_not_nan s1 m1 e1 s2 m2 e2 :
  fdiv (S754_finite s1 m1 e1) (S754_finite s2 m2 e2) <> S754_nan.
Proof.
  unfold fdiv, SFdiv. pose proof (div_core_nonneg m1 m2 e1 e2) as H.
  destruct (SFdiv_core_binary prec emax (Zpos m1) e1 (Zpos m2) e2) as [[mz ez] lz].
  cbn [fst] in H. apply bra_not_nan. exact H.
Qed.

Lemma float_round1_not_nan (f : spec_float) : not_nan f -> not_nan (float_round1 f).
Proof.
  unfold not_nan. intros Hf. destruct f as [s|s| |s m e]; cbn [float_round1]; try congruence.
  destruct (0 <=? e); [discriminate|].
  destruct (div_half_even _ _); try discriminate. apply fdiv_finite_not_nan.
Qed.

(** ** Totality, shape and sign of the strength score *)

Lemma iter_xO_val (m k : positive) : Zpos (Pos.iter xO m k) = Zpos m * 2 ^ Zpos k.
Proof.
  induction k as [|k IH] using Pos.peano_ind.
  - cbn. lia.
  - rewrite Pos.iter_succ, Pos2Z.inj_xO, IH, Pos2Z.inj_succ, Z.pow_succ_r by lia. lia.
Qed.

Lemma binary_round_shape (sx : bool) (p : positive) :
  (exists q e, binary_round prec emax sx p 0 = S754_finite sx q e) \/
  binary_round prec emax sx p 0 = S754_infinity sx.
Proof.
  unfold binary_round.
  set (d := Zpos (digits2_pos p)).
  assert (Hd : 0 < d) by (unfold d; lia).
  assert (Hf : fexp prec emax (d + 0) = d - 53).
  { unfold fexp, SpecFloat.emin, prec, emax. lia. }
  rewrite Hf. unfold shl_align.
  assert (Hfin : forall m e l, 53 <= Zpos (digits2_pos m) ->
             -1074 <= Zpos (digits2_pos m) + e - 53 ->
             (exists q e', binary_round_aux prec emax sx (Zpos m) e l = S754_finite sx q e') \/
             binary_round_aux prec emax sx (Zpos m) e l = S754_infinity sx).
  { intros m e l H1 H2.
    destruct (bra_shape sx m e l H1 H2) as (q & _ & [(E & _) | (E & _)]); rewrite E;
      match goal with |- context [if ?c then _ else _] => destruct c end; eauto. }
  destruct (d - 53 - 0) as [|k|k] eqn:Ek.
  - apply Hfin; fold d; lia.
  - apply Hfin; fold d; lia.
  - assert (Hv := iter_xO_val p k).
    destruct (digits_bounds p) as [Hl Hu]. fold d in Hl, Hu.
    assert (Hk : Zpos k = 53 - d) by lia.
    assert (E1 : 2 ^ (d - 1) * 2 ^ Zpos k = 2 ^ 52).
    { rewrite <- Z.pow_add_r by lia. f_equal. lia. }
    assert (E2 : 2 ^ d * 2 ^ Zpos k = 2 ^ 53).
    { rewrite <- Z.pow_add_r by lia. f_equal. lia. }
    pose proof (pow2_pos (Zpos k) ltac:(lia)) as Hp.
    assert (D : Zpos (digits2_pos (Pos.iter xO p k)) = 53).
    { apply Z.le_antisymm.
      - apply digits_upper; [lia|]. rewrite Hv. nia.
      - apply (digits_lower _ 52); [lia|]. rewrite Hv. nia. }
    apply Hfin; rewrite D; lia.
Qed.

Lemma float_of_Z_pos_not_zero (y : Z) : 0 < y -> is_zero (float_of_Z y) = false.
Proof.
  intros Hy. destruct y as [|p|p]; try lia. unfold float_of_Z, binary_normalize.
  destruct (binary_round_shape false p) as [(q & e & ->) | ->]; reflexivity.
Qed.

Lemma float_of_Z_nonneg_sign (y : Z) : 0 <= y -> signed_or_nan false (float_of_Z y).
Proof.
  intros Hy. destruct y as [|p|p]; try lia; [reflexivity|].
  unfold float_of_Z, binary_normalize.
  destruct (binary_round_shape false p) as [(q & e & ->) | ->]; reflexivity.
Qed.

Lemma float_of_int_ok (z : Z) : Z.abs z < dbl_overflow -> float_of_int z = Ok (float_of_Z z).
Proof.
  intros H. unfold float_of_int.
  destruct (Z.ltb_spec (Z.abs z) dbl_overflow); [reflexivity|lia].
Qed.

Lemma to_float_ok (x : pynum) : in_range x -> to_float x = Ok (score_float x).
Proof. destruct x as [z|f]; cbn; [apply float_of_int_ok|reflexivity]. Qed.

Lemma dbl_overflow_pos : 0 < dbl_overflow.
Proof. pose proof dbl_overflow_big. lia. Qed.

Lemma num_gt_int_0 (y : Z) : num_gt (PInt y) (PInt 0) = true <-> 0 < y.
Proof.
  unfold num_gt, num_lt, num_compare. destruct (Z.compare_spec 0 y); split; intros; try lia; try discriminate; reflexivity.
Qed.

Lemma num_gt_float_0 (g : spec_float) :
  num_gt (PFloat g) (PInt 0) = true <->
  (exists m e, g = S754_finite false m e) \/ g = S754_infinity false.
Proof.
  unfold num_gt. rewrite num_lt_int_float by exact small_0. rewrite float_of_Z_0.
  unfold SFltb. destruct g as [s|[|]| |[|] m e]; cbn; split; intros H; try discriminate;
    try reflexivity; eauto; destruct H as [(m' & e' & H)|H]; discriminate.
Qed.

Lemma int_truediv_ok (x y : Z) :
  Z.abs x < dbl_overflow -> 0 < y -> exists f, int_truediv x y = Ok f.
Proof.
  intros Hx Hy. unfold int_truediv.
  destruct (Z.eqb_spec y 0); [lia|].
  destruct (Z.eqb_spec x 0); [eauto|].
  destruct (Z.leb_spec (dbl_overflow * Z.abs y) (Z.abs x)); [|eauto].
  pose proof dbl_overflow_pos. nia.
Qed.

Lemma py_truediv_ok (a b : pynum) :
  in_range a -> in_range b -> num_gt b (PInt 0) = true ->
  exists f, py_truediv a b = Ok (PFloat f).
Proof.
  intros Ha Hb Hgt. destruct a as [x|f]; destruct b as [y|g]; cbn [py_truediv].
  - apply num_gt_int_0 in Hgt. destruct (int_truediv_ok x y Ha Hgt) as (f & ->).
    eexists. reflexivity.
  - rewrite (to_float_ok (PInt x) Ha). cbn [to_float mbind result_bind score_float].
    apply num_gt_float_0 in Hgt. destruct Hgt as [(m & e & ->) | ->]; cbn [is_zero]; eauto.
  - cbn [to_float mbind result_bind]. rewrite float_of_int_ok by exact Hb.
    cbn [mbind result_bind]. apply num_gt_int_0 in Hgt.
    rewrite float_of_Z_pos_not_zero by exact Hgt. eauto.
  - cbn [to_float mbind result_bind].
    apply num_gt_float_0 in Hgt. destruct Hgt as [(m & e & ->) | ->]; cbn [is_zero]; eauto.
Qed.

(** *** Signs *)

Lemma signed_nonneg (f : spec_float) : signed_or_nan false f -> nonneg_or_nan f.
Proof. destruct f; cbn; auto. Qed.

Lemma fdiv_nonneg (a b : spec_float) :
  nonneg_or_nan a -> positive_float b -> nonneg_or_nan (fdiv a b).
Proof.
  intros Ha [(m & e & ->) | ->]; destruct a as [s|s| |s ma ea]; cbn in Ha; subst;
    cbn [fdiv SFdiv nonneg_or_nan xorb]; auto.
  apply signed_nonneg. change (SFdiv prec emax (S754_finite false ma ea) (S754_finite false m e))
    with (let '(mz, ez, lz) := SFdiv_core_binary prec emax (Zpos ma) ea (Zpos m) e in
          binary_round_aux prec emax (xorb false false) mz ez lz).
  destruct (SFdiv_core_binary prec emax (Zpos ma) ea (Zpos m) e) as [[mz ez] lz].
  apply bra_sign.
Qed.

Lemma fmul_nonneg (a b : spec_float) :
  nonneg_or_nan a -> positive_float b -> nonneg_or_nan (fmul a b).
Proof.
  intros Ha [(m & e & ->) | ->]; destruct a as [s|s| |s ma ea]; cbn in Ha; subst;
    cbn [fmul SFmul nonneg_or_nan xorb]; auto.
  apply signed_nonneg. apply bra_sign.
Qed.

Lemma binary_normalize_pos_sign (m e : Z) :
  0 < m -> signed_or_nan false (binary_normalize prec emax m e false).
Proof.
  intros Hm. destruct m as [|p|p]; try lia. cbn [binary_normalize]. unfold binary_round.
  destruct (shl_align _ _ _) as [mz ez]. apply bra_sign.
Qed.

Lemma fadd_nonneg (a b : spec_float) :
  nonneg_or_nan a -> nonneg_or_nan b -> nonneg_or_nan (fadd a b).
Proof.
  intros Ha Hb. destruct a as [sa|sa| |sa ma ea]; destruct b as [sb|sb| |sb mb eb];
    cbn in Ha, Hb; subst; cbn [fadd SFadd nonneg_or_nan]; auto;
    try (destruct sa; destruct sb; cbn; auto; fail);
    try (destruct sa; cbn; auto; fail); try (destruct sb; cbn; auto; fail).
  apply signed_nonneg, binary_normalize_pos_sign. cbn [cond_Zopp]. lia.
Qed.

Lemma float_of_Z_positive (y : Z) : 0 < y -> positive_float (float_of_Z y).
Proof.
  intros Hy. destruct y as [|p|p]; try lia. unfold float_of_Z, binary_normalize.
  destruct (binary_round_shape false p) as [(q & e & ->) | ->]; [left; eauto | right; reflexivity].
Qed.

Lemma to_float_nonneg (x : pynum) (f : spec_float) :
  to_float x = Ok f -> num_nonneg x -> nonneg_or_nan f.
Proof.
  destruct x as [z|g]; cbn [to_float num_nonneg].
  - unfold float_of_int. destruct (_ <? _); [|discriminate]. intros [= <-] Hz.
    apply signed_nonneg, float_of_Z_nonneg_sign, Hz.
  - intros [= <-] H. exact H.
Qed.

Lemma to_float_positive (x : pynum) (f : spec_float) :
  to_float x = Ok f -> num_gt x (PInt 0) = true -> positive_float f.
Proof.
  destruct x as [z|g]; cbn [to_float].
  - unfold float_of_int. destruct (_ <? _); [|discriminate]. intros [= <-] Hz.
    apply float_of_Z_positive, num_gt_int_0, Hz.
  - intros [= <-] H. apply num_gt_float_0, H.
Qed.

Lemma int_truediv_nonneg (x y : Z) (f : spec_float) :
  int_truediv x y = Ok f -> 0 <= x -> 0 < y -> nonneg_or_nan f.
Proof.
  unfold int_truediv. intros H Hx Hy.
  destruct (Z.eqb_spec y 0); [lia|]. destruct (Z.eqb_spec x 0).
  - injection H as <-. exact I.
  - destruct (_ <=? _); [discriminate|]. injection H as <-.
    replace (x <? 0) with false by (symmetry; apply Z.ltb_ge; lia).
    replace (y <? 0) with false by (symmetry; apply Z.ltb_ge; lia).
    apply (fdiv_nonneg (S754_finite false (Z.to_pos (Z.abs x)) 0)
                       (S754_finite false (Z.to_pos (Z.abs y)) 0));
      [reflexivity | left; eauto].
Qed.

Lemma py_truediv_nonneg (a b r : pynum) :
  py_truediv a b = Ok r -> num_nonneg a -> num_gt b (PInt 0) = true -> num_nonneg r.
Proof.
  intros H Ha Hb.
  assert (Hgen : forall fa fb, to_float a = Ok fa -> to_float b = Ok fb ->
            (if is_zero fb then Raise ZeroDivisionError else Ok (PFloat (fdiv fa fb))) = Ok r ->
            num_nonneg r).
  { intros fa fb Ea Eb E. destruct (is_zero fb); [discriminate|]. injection E as <-.
    apply fdiv_nonneg; [eapply to_float_nonneg | eapply to_float_positive]; eassumption. }
  destruct a as [x|f]; destruct b as [y|g]; cbn [py_truediv] in H.
  - destruct (int_truediv x y) as [f|] eqn:E; [|discriminate]. injection H as <-.
    eapply int_truediv_nonneg; [exact E | exact Ha | apply num_gt_int_0, Hb].
  - destruct (to_float (PInt x)) as [fa|] eqn:Ea; [|discriminate].
    eapply (Hgen fa g); [reflexivity | reflexivity | exact H].
  - destruct (to_float (PInt y)) as [fb|] eqn:Eb; [|discriminate].
    eapply (Hgen f fb); [reflexivity | reflexivity | exact H].
  - eapply (Hgen f g); [reflexivity | reflexivity | exact H].
Qed.

(** *** Ratios and the weighted score *)

Lemma in_range_small (z : Z) : Z.abs z < 2 ^ 64 -> in_range (PInt z).
Proof. intros H. cbn. pose proof dbl_overflow_big. lia. Qed.

Lemma ratio_shape_float (f : spec_float) : ratio_shape (PFloat f).
Proof. right. eauto. Qed.

(** A ratio: a true division when the guard holds, otherwise the fall-back
    division by the ceiling [c], or the [int] 0. *)
Lemma ratio_cases (comp your dead : pynum) (c : Z) (r : result pynum) :
  r = (if num_gt your (PInt 0) then
         if num_gt your (PInt 0) then py_truediv comp your else Ok dead
       else
         if num_gt comp (PInt 0) then py_truediv comp (PInt c) else Ok (PInt 0)) ->
  0 < c < 2 ^ 64 -> in_range comp -> in_range your ->
  exists v, r = Ok v /\ ratio_shape v /\ (num_nonneg comp -> num_nonneg v).
Proof.
  intros -> Hc Hcomp Hyour.
  destruct (num_gt your (PInt 0)) eqn:Hy.
  - destruct (py_truediv_ok comp your Hcomp Hyour Hy) as (f & E).
    exists (PFloat f). split; [exact E|]. split; [apply ratio_shape_float|].
    intros Hn. exact (py_truediv_nonneg comp your (PFloat f) E Hn Hy).
  - destruct (num_gt comp (PInt 0)) eqn:Hcp.
    + assert (Hc0 : num_gt (PInt c) (PInt 0) = true) by (apply num_gt_int_0; lia).
      destruct (py_truediv_ok comp (PInt c) Hcomp (in_range_small c ltac:(lia)) Hc0) as (f & E).
      exists (PFloat f). split; [exact E|]. split; [apply ratio_shape_float|].
      intros Hn. exact (py_truediv_nonneg comp (PInt c) (PFloat f) E Hn Hc0).
    + exists (PInt 0). split; [reflexivity|]. split; [left; reflexivity|]. intros _. cbn. lia.
Qed.

Lemma pos_1_ratio_ok (comp your : pynum) :
  in_range comp -> in_range your ->
  exists v, pos_1_ratio comp your = Ok v /\ ratio_shape v /\ (num_nonneg comp -> num_nonneg v).
Proof. apply (ratio_cases comp your comp 100); [reflexivity | lia]. Qed.

Lemma etv_ratio_ok (comp your : pynum) :
  in_range comp -> in_range your ->
  exists v, etv_ratio comp your = Ok v /\ ratio_shape v /\ (num_nonneg comp -> num_nonneg v).
Proof.
  intros Hc Hy. unfold etv_ratio.
  destruct (num_gt your (PInt 0)) eqn:E.
  - pose proof (ratio_cases comp your comp 10000 _ eq_refl ltac:(lia) Hc Hy) as H.
    rewrite E in H. exact H.
  - pose proof (ratio_cases comp your comp 10000 _ eq_refl ltac:(lia) Hc Hy) as H.
    rewrite E in H. exact H.
Qed.

Lemma keywords_ratio_ok (comp your : pynum) :
  in_range comp -> in_range your ->
  exists v, keywords_ratio comp your = Ok v /\ ratio_shape v /\ (num_nonneg comp -> num_nonneg v).
Proof.
  intros Hc Hy. unfold keywords_ratio.
  destruct (num_gt your (PInt 0)) eqn:E.
  - pose proof (ratio_cases comp your comp 5000 _ eq_refl ltac:(lia) Hc Hy) as H.
    rewrite E in H. exact H.
  - pose proof (ratio_cases comp your comp 5000 _ eq_refl ltac:(lia) Hc Hy) as H.
    rewrite E in H. exact H.
Qed.

Lemma py_mul_weight (r : pynum) (w : Z) :
  ratio_shape r -> 0 < w < 2 ^ 64 ->
  exists a, py_mul r (PInt w) = Ok a /\ ratio_shape a /\ (num_nonneg r -> num_nonneg a).
Proof.
  intros [-> | (f & ->)] Hw.
  - exists (PInt 0). split; [reflexivity|]. split; [left; reflexivity|]. intros _. cbn. lia.
  - exists (PFloat (fmul f (float_of_Z w))). cbn [py_mul to_float mbind result_bind].
    rewrite float_of_int_ok by (pose proof dbl_overflow_big; lia).
    split; [reflexivity|]. split; [apply ratio_shape_float|].
    intros Hn. apply fmul_nonneg; [exact Hn | apply float_of_Z_positive; lia].
Qed.

Lemma py_add_shape (a b : pynum) :
  ratio_shape a -> ratio_shape b ->
  exists c, py_add a b = Ok c /\ ratio_shape c /\ (num_nonneg a -> num_nonneg b -> num_nonneg c).
Proof.
  intros [-> | (f & ->)] [-> | (g & ->)].
  - exists (PInt 0). split; [reflexivity|]. split; [left; reflexivity|]. intros _ _. cbn. lia.
  - exists (PFloat (fadd (float_of_Z 0) g)). split; [reflexivity|].
    split; [apply ratio_shape_float|]. intros _ Hg. apply fadd_nonneg; [exact I | exact Hg].
  - exists (PFloat (fadd f (float_of_Z 0))). split; [reflexivity|].
    split; [apply ratio_shape_float|]. intros Hf _. apply fadd_nonneg; [exact Hf | exact I].
  - exists (PFloat (fadd f g)). split; [reflexivity|].
    split; [apply ratio_shape_float|]. intros Hf Hg. apply fadd_nonneg; assumption.
Qed.

Lemma lt_100_not_nan (f : spec_float) : num_lt (PFloat f) (PInt 100) = true -> not_nan f.
Proof.
  rewrite num_lt_float_int by exact small_100. intros H ->.
  destruct (float_of_Z 100); discriminate.
Qed.

Lemma py_min_100 (x : pynum) :
  ratio_shape x ->
  raw_good (py_min (PInt 100) x) /\ (num_nonneg x -> in_unit_range (py_min (PInt 100) x)).
Proof.
  intros [-> | (f & ->)].
  - split; [left; reflexivity|]. intros _. split; reflexivity.
  - unfold py_min. destruct (num_lt (PFloat f) (PInt 100)) eqn:E.
    + split; [right; right; eauto|]. intros Hn. split.
      * pose proof (lt_100_not_nan f E) as Hnn.
        unfold num_le, num_compare. rewrite cmp_int_float_small by exact small_0.
        rewrite float_of_Z_0. destruct f as [s|s| |s m e]; cbn in Hn; subst; try reflexivity.
        elim Hnn; reflexivity.
      * unfold num_lt in E. unfold num_le.
        destruct (num_compare (PFloat f) (PInt 100)) as [[| |]|]; try discriminate; reflexivity.
    + split; [right; left; reflexivity|]. intros _. split; reflexivity.
Qed.

Lemma weighted_score_ok (r1 r2 r3 : pynum) :
  ratio_shape r1 -> ratio_shape r2 -> ratio_shape r3 ->
  exists s, weighted_score r1 r2 r3 = Ok s /\ raw_good s /\
            (num_nonneg r1 -> num_nonneg r2 -> num_nonneg r3 -> in_unit_range s).
Proof.
  intros H1 H2 H3. unfold weighted_score.
  destruct (py_mul_weight r1 50 H1 ltac:(lia)) as (a & -> & Sa & Na).
  destruct (py_mul_weight r2 30 H2 ltac:(lia)) as (b & -> & Sb & Nb).
  cbn [mbind result_bind].
  destruct (py_add_shape a b Sa Sb) as (ab & -> & Sab & Nab).
  destruct (py_mul_weight r3 20 H3 ltac:(lia)) as (c & -> & Sc & Nc).
  cbn [mbind result_bind].
  destruct (py_add_shape ab c Sab Sc) as (abc & -> & Sabc & Nabc).
  cbn [mbind result_bind].
  destruct (py_min_100 abc Sabc) as (G & U).
  eexists. split; [reflexivity|]. split; [exact G|]. auto.
Qed.

Lemma raw_strength_ok (you : own_metrics) (m : domain_metrics) :
  own_in_range you -> metrics_in_range m ->
  exists s, raw_strength you m = Ok s /\ raw_good s /\ (metrics_nonneg m -> in_unit_range s).
Proof.
  intros (Y1 & Y2 & Y3) (M1 & M2 & M3). unfold raw_strength.
  destruct (pos_1_ratio_ok _ _ M1 Y1) as (r1 & -> & S1 & N1).
  destruct (etv_ratio_ok _ _ M2 Y2) as (r2 & -> & S2 & N2).
  destruct (keywords_ratio_ok _ _ M3 Y3) as (r3 & -> & S3 & N3).
  cbn [mbind result_bind].
  destruct (weighted_score_ok r1 r2 r3 S1 S2 S3) as (s & E & G & U).
  exists s. split; [exact E|]. split; [exact G|].
  intros (P1 & P2 & P3). auto.
Qed.

Lemma round_good (s : pynum) : raw_good s -> good_score (py_round1 s).
Proof.
  intros [-> | [-> | (f & -> & H)]]; [left; reflexivity | right; left; reflexivity |].
  right; right. exists (float_round1 f). split; [reflexivity|].
  apply float_round1_not_nan, lt_100_not_nan, H.
Qed.

(** ** The content-length estimator *)

Lemma word_count_of_range (actual : option Z) :
  (forall n, actual = Some n -> n < 2 ^ 63) -> 101 <= word_count_of actual < 2 ^ 63.
Proof.
  intros H. unfold word_count_of. destruct actual as [n|]; [|lia].
  specialize (H n eq_refl).
  destruct (Z.eqb_spec n 0); destruct (Z.ltb_spec 100 n); cbn; lia.
Qed.

Lemma word_count_of_fallback (actual : option Z) :
  actual = None \/ (exists n, actual = Some n /\ n <= 100) -> word_count_of actual = 2000.
Proof.
  intros [-> | (n & -> & Hn)]; [reflexivity|]. unfold word_count_of.
  destruct (Z.ltb_spec 100 n); [lia|]. rewrite andb_false_r. reflexivity.
Qed.

Lemma word_count_of_kept (n : Z) : 100 < n -> word_count_of (Some n) = n.
Proof.
  intros Hn. unfold word_count_of.
  destruct (Z.eqb_spec n 0); [lia|]. destruct (Z.ltb_spec 100 n); [reflexivity|lia].
Qed.

Lemma samples_range fetch (serp_results : serp) :
  fetch_bounded fetch ->
  Forall (fun x => 101 <= x < 2 ^ 63) (word_counts_of fetch serp_results).
Proof.
  intros Hf. unfold word_counts_of. apply Forall_map, Forall_forall. intros r _.
  unfold sample. apply word_count_of_range. intros n Hn. apply (Hf _ _ Hn).
Qed.

Lemma foldl_add_foldr (xs : list Z) (acc : Z) :
  foldl Z.add acc xs = acc + fold_right Z.add 0 xs.
Proof.
  revert acc. induction xs as [|x xs IH]; intros acc; cbn [foldl fold_right]; [lia|].
  rewrite IH. lia.
Qed.

Lemma floor_le_ceil (v e : Z) : floor_at v e <= ceil_at v e.
Proof.
  unfold ceil_at, floor_at. destruct (Z.leb_spec 0 e) as [He|He]; [lia|].
  pose proof (pow2_pos (- e) ltac:(lia)) as Hp.
  pose proof (Z.div_mod v (2 ^ (- e)) ltac:(lia)). pose proof (Z.mod_pos_bound v (2 ^ (- e)) Hp).
  pose proof (Z.div_mod (- v) (2 ^ (- e)) ltac:(lia)). pose proof (Z.mod_pos_bound (- v) (2 ^ (- e)) Hp).
  nia.
Qed.

(** In units of the last place of [v]: adding a whole unit of the integers
    to [v] moves its integer part past the ceiling of [v]. *)
Lemma ceil_le_floor_step (u v e : Z) :
  (0 <= e -> u <= v) -> (e < 0 -> u + 2 ^ (- e) <= v) -> ceil_at u e <= floor_at v e.
Proof.
  intros H1 H2. unfold ceil_at, floor_at. destruct (Z.leb_spec 0 e) as [He|He].
  - specialize (H1 He). pose proof (pow2_pos e He). nia.
  - specialize (H2 He). pose proof (pow2_pos (- e) ltac:(lia)) as Hp.
    pose proof (Z.div_mod v (2 ^ (- e)) ltac:(lia)). pose proof (Z.mod_pos_bound v (2 ^ (- e)) Hp).
    pose proof (Z.div_mod (- u) (2 ^ (- e)) ltac:(lia)). pose proof (Z.mod_pos_bound (- u) (2 ^ (- e)) Hp).
    nia.
Qed.

(** The recommended band of a profile computed from at least one sample,
    each of 101 words or more. *)
Lemma band_of_samples (w : Z) (ws : list Z) (details : list estimate) :
  Forall (fun x => 101 <= x < 2 ^ 63) (w :: ws) ->
  exists p, length_statistics (w :: ws) details = Ok p /\
    detailed_estimates p = details /\
    recommended_min p <= recommended_max p /\
    num_ceil (average p) <= recommended_min p /\
    num_floor (average p) <= num_ceil (average p).
Proof.
  intros Hall.
  assert (Hall1 : Forall (fun x => 1 <= x < 2 ^ 63) (w :: ws)).
  { eapply Forall_impl; [exact Hall|]. cbn. intros; lia. }
  assert (Hall101 : Forall (fun x => 101 <= x) (w :: ws)).
  { eapply Forall_impl; [exact Hall|]. cbn. intros; lia. }
  destruct (length_statistics_ok w ws details Hall1)
    as (qa & ea & V1 & V2 & _ & E & _ & _ & Hq & He & B1 & B2 & Hge).
  specialize (Hge 101 ltac:(lia) Hall101).
  eexists. split; [exact E|]. cbn [detailed_estimates recommended_min recommended_max average
                                  num_ceil num_floor float_ceil float_floor cond_Zopp].
  unfold normal53 in Hq.
  split; [reflexivity|]. split; [|split].
  - apply floor_at_mono. lia.
  - apply ceil_le_floor_step.
    + intros _. lia.
    + intros Hneg. specialize (Hge Hneg).
      pose proof (pow2_pos (- ea) ltac:(lia)). lia.
  - apply floor_le_ceil.
Qed.

Lemma estimate_content_length_ok fetch (serp_results : serp) :
  fetch_bounded fetch ->
  exists p, estimate_content_length fetch serp_results = Ok p /\
    length (detailed_estimates p) = length (analyzed serp_results) /\
    recommended_min p <= recommended_max p /\
    num_ceil (average p) <= recommended_min p /\
    num_floor (average p) <= num_ceil (average p).
Proof.
  intros Hf. unfold estimate_content_length.
  pose proof (samples_range fetch serp_results Hf) as Hr.
  assert (Hlen : length (word_counts_of fetch serp_results) = length (analyzed serp_results)).
  { unfold word_counts_of. apply length_map. }
  destruct (word_counts_of fetch serp_results) as [|w ws] eqn:Ew.
  - destruct (analyzed serp_results); [|discriminate].
    eexists. split; [reflexivity|]. cbn. repeat split; lia.
  - destruct (band_of_samples w ws (map (detail fetch) (analyzed serp_results)) Hr)
      as (p & E & Hd & H1 & H2 & H3).
    exists p. split; [exact E|]. rewrite Hd, length_map. auto.
Qed.

Lemma sorted_counts_sorted (l : list Z) : StronglySorted Z.le (py_sort_by id Z.ltb l).
Proof.
  assert (H : StronglySorted (below id Z.ltb) (py_sort_by id Z.ltb l)).
  { apply (py_sort_by_sorted id Z.ltb (fun _ => True)).
    - intros a b _ _ Hab. apply Z.ltb_lt in Hab. apply Z.ltb_ge. lia.
    - intros a b c _ _ _ H1 H2. apply Z.ltb_ge in H1, H2. apply Z.ltb_ge. lia.
    - apply Forall_forall. intros; exact I. }
  induction H as [|x xs Hs IH Hx]; constructor; [exact IH|].
  eapply Forall_impl; [exact Hx|]. unfold below, id. intros y Hy. apply Z.ltb_ge in Hy. exact Hy.
Qed.

Lemma py_min_list_spec (w : Z) (ws : list Z) :
  In (py_min_list w ws) (w :: ws) /\ Forall (fun x => py_min_list w ws <= x) (w :: ws).
Proof.
  unfold py_min_list. revert w. induction ws as [|y ws IH]; intros w; cbn [foldl].
  - split; [left; reflexivity | constructor; [lia | constructor]].
  - destruct (IH (if y <? w then y else w)) as [Hin Hall].
    set (m := foldl _ _ ws) in *. inversion Hall as [|? ? Hm Hws]; subst.
    split.
    + destruct Hin as [Hin|Hin]; [|right; right; exact Hin].
      destruct (y <? w); [right; left | left]; exact Hin.
    + destruct (Z.ltb_spec y w); constructor; try lia; constructor; try lia; exact Hws.
Qed.

Lemma py_max_list_spec (w : Z) (ws : list Z) :
  In (py_max_list w ws) (w :: ws) /\ Forall (fun x => x <= py_max_list w ws) (w :: ws).
Proof.
  unfold py_max_list. revert w. induction ws as [|y ws IH]; intros w; cbn [foldl].
  - split; [left; reflexivity | constructor; [lia | constructor]].
  - destruct (IH (if w <? y then y else w)) as [Hin Hall].
    set (m := foldl _ _ ws) in *. inversion Hall as [|? ? Hm Hws]; subst.
    split.
    + destruct Hin as [Hin|Hin]; [|right; right; exact Hin].
      destruct (w <? y); [right; left | left]; exact Hin.
    + destruct (Z.ltb_spec w y); constructor; try lia; constructor; try lia; exact Hws.
Qed.

(** C4: on a SERP of at least four entries the estimator visits exactly the
    first four and draws exactly four samples, one per position, in order.
    A position whose word count is unavailable, or below the floor of 100
    words, contributes the fall-back 2000; a failed fetch is no error: the
    profile is returned, its average is the quotient of the sum of the four
    samples by 4, and it lists four detailed estimates. *)
Theorem C4_four_samples_with_fallback fetch (serp_results : serp) (rs : list serp_result) :
  fetch_bounded fetch ->
  results serp_results = Some rs ->
  (4 <= length rs)%nat ->
  analyzed serp_results = take 4 rs /\
  length (word_counts_of fetch serp_results) = 4%nat /\
  (forall (i : nat) r, take 4 rs !! i = Some r ->
     word_counts_of fetch serp_results !! i
       = Some (word_count_of (fetch (default "" (url r))))) /\
  (forall actual, actual = None \/ (exists n, actual = Some n /\ n < 100) ->
     word_count_of actual = 2000) /\
  exists p avg,
    estimate_content_length fetch serp_results = Ok p /\
    length (detailed_estimates p) = 4%nat /\
    int_truediv (foldl Z.add 0 (word_counts_of fetch serp_results)) 4 = Ok avg /\
    average p = PFloat avg.
Proof.
  intros Hf Hrs Hlen.
  assert (Ha : analyzed serp_results = take 4 rs) by (unfold analyzed; rewrite Hrs; reflexivity).
  assert (Hl : length (word_counts_of fetch serp_results) = 4%nat).
  { unfold word_counts_of. rewrite length_map, Ha, length_take. lia. }
  split; [exact Ha|]. split; [exact Hl|]. split; [|split].
  - intros i r Hi. unfold word_counts_of. rewrite Ha, list_lookup_fmap, Hi. reflexivity.
  - intros actual [-> | (n & -> & Hn)]; apply word_count_of_fallback; [left; reflexivity|].
    right. exists n. split; [reflexivity | lia].
  - pose proof (samples_range fetch serp_results Hf) as Hr.
    unfold estimate_content_length.
    destruct (word_counts_of fetch serp_results) as [|w ws] eqn:Ew; [discriminate|].
    assert (Hall1 : Forall (fun x => 1 <= x < 2 ^ 63) (w :: ws)).
    { eapply Forall_impl; [exact Hr|]. cbn. intros; lia. }
    destruct (length_statistics_ok w ws (map (detail fetch) (analyzed serp_results)) Hall1)
      as (qa & ea & V1 & V2 & Ediv & E & _).
    eexists. exists (S754_finite false qa ea). split; [exact E|].
    cbn [detailed_estimates average]. rewrite length_map, Ha, length_take.
    split; [lia|]. split; [|reflexivity].
    rewrite <- Ediv. f_equal. rewrite Hl. reflexivity.
Qed.

Lemma example_fetch_bounded : fetch_bounded example_fetch.
Proof.
  intros u n. unfold example_fetch.
  repeat (destruct (String.eqb u _); [intros [= <-]; lia|]). discriminate.
Qed.

Lemma C4_witness :
  fetch_bounded example_fetch /\
  results example_serp = Some example_results /\
  (4 <= length example_results)%nat /\
  word_counts_of example_fetch example_serp = [1800; 2200; 2000; 3000] /\
  exists p avg,
    estimate_content_length example_fetch example_serp = Ok p /\
    length (detailed_estimates p) = 4%nat /\
    int_truediv (foldl Z.add 0 (word_counts_of example_fetch example_serp)) 4 = Ok avg /\
    average p = PFloat avg.
Proof.
  split; [exact example_fetch_bounded|]. split; [reflexivity|]. split; [cbn; lia|].
  split; [reflexivity|].
  exact (proj2 (proj2 (proj2 (proj2
    (C4_four_samples_with_fallback example_fetch example_serp example_results
       example_fetch_bounded eq_refl ltac:(cbn; lia)))))).
Defined.

(** C5: for every non-empty list of word-count samples (each a positive
    count a page can have) the statistics block returns a profile whose
    average is the quotient of the sum of the samples by their number under
    Python's true division, whose median is the element at index [len // 2]
    of the samples sorted in ascending order (the upper of the two middle
    values when there are four), whose min and max are the least and the
    greatest sample, and whose recommended bounds are the floors of the
    floating-point products of the average with 1.1 and with 1.2. *)
Theorem C5_profile_statistics (w : Z) (ws : list Z) (details : list estimate) :
  Forall (fun x => 1 <= x < 2 ^ 63) (w :: ws) ->
  exists p avg,
    length_statistics (w :: ws) details = Ok p /\
    mean_of_ints (w :: ws) = Ok avg /\
    average p = PFloat avg /\
    (exists sorted_counts,
        Permutation (w :: ws) sorted_counts /\ StronglySorted Z.le sorted_counts /\
        median p = nth (length (w :: ws) / 2) sorted_counts 0) /\
    In (min_words p) (w :: ws) /\ Forall (fun x => min_words p <= x) (w :: ws) /\
    In (max_words p) (w :: ws) /\ Forall (fun x => x <= max_words p) (w :: ws) /\
    recommended_min p = float_floor (fmul avg lit_1_1) /\
    recommended_max p = float_floor (fmul avg lit_1_2).
Proof.
  intros Hall.
  destruct (length_statistics_ok w ws details Hall)
    as (qa & ea & V1 & V2 & Ediv & E & F1 & F2 & _).
  eexists. exists (S754_finite false qa ea). split; [exact E|].
  cbn [average median min_words max_words recommended_min recommended_max].
  split; [unfold mean_of_ints; rewrite <- Ediv, foldl_add_foldr; f_equal; lia|].
  split; [reflexivity|]. split.
  { exists (py_sort_by id Z.ltb (w :: ws)).
    split; [apply py_sort_by_perm|]. split; [apply sorted_counts_sorted|].
    rewrite py_sort_by_length. reflexivity. }
  destruct (py_min_list_spec w ws) as [Hmi Hma]. destruct (py_max_list_spec w ws) as [Hxi Hxa].
  repeat (split; [assumption|]). split; [symmetry; exact F1 | symmetry; exact F2].
Qed.

Lemma C5_witness :
  Forall (fun x => 1 <= x < 2 ^ 63) [1800; 2200; 2000; 3000] /\
  exists p avg,
    length_statistics [1800; 2200; 2000; 3000] [] = Ok p /\
    mean_of_ints [1800; 2200; 2000; 3000] = Ok avg /\
    average p = PFloat avg /\
    (exists sorted_counts,
        Permutation [1800; 2200; 2000; 3000] sorted_counts /\
        StronglySorted Z.le sorted_counts /\
        median p = nth (length [1800; 2200; 2000; 3000] / 2) sorted_counts 0) /\
    In (min_words p) [1800; 2200; 2000; 3000] /\
    Forall (fun x => min_words p <= x) [1800; 2200; 2000; 3000] /\
    In (max_words p) [1800; 2200; 2000; 3000] /\
    Forall (fun x => x <= max_words p) [1800; 2200; 2000; 3000] /\
    recommended_min p = float_floor (fmul avg lit_1_1) /\
    recommended_max p = float_floor (fmul avg lit_1_2).
Proof.
  assert (H : Forall (fun x => 1 <= x < 2 ^ 63) [1800; 2200; 2000; 3000]).
  { repeat constructor; lia. }
  split; [exact H|]. exact (C5_profile_statistics 1800 [2200; 2000; 3000] [] H).
Defined.

(** C6: every profile the estimator returns (the fetcher reporting counts a
    page can have) has [recommended_min <= recommended_max], and both
    recommended values are at least the average: they are at least its
    ceiling, hence at least its floor. *)
Theorem C6_recommended_band fetch (serp_results : serp) :
  fetch_bounded fetch ->
  exists p,
    estimate_content_length fetch serp_results = Ok p /\
    recommended_min p <= recommended_max p /\
    num_ceil (average p) <= recommended_min p /\
    num_ceil (average p) <= recommended_max p /\
    num_floor (average p) <= recommended_min p.
Proof.
  intros Hf.
  destruct (estimate_content_length_ok fetch serp_results Hf) as (p & E & _ & H1 & H2 & H3).
  exists p. split; [exact E|]. repeat split; lia.
Qed.

Lemma C6_witness :
  fetch_bounded example_fetch /\
  exists p,
    estimate_content_length example_fetch example_serp = Ok p /\
    recommended_min p <= recommended_max p /\
    num_ceil (average p) <= recommended_min p /\
    num_ceil (average p) <= recommended_max p /\
    num_floor (average p) <= recommended_min p.
Proof.
  split; [exact example_fetch_bounded|].
  exact (C6_recommended_band example_fetch example_serp example_fetch_bounded).
Defined.

(** ** The competition assessment *)

Lemma analyze_result_spec (you : own_metrics) (dict : gmap string domain_metrics)
    (r : serp_result) :
  own_in_range you -> dict_in_range dict ->
  match matched dict r with
  | Some (d, m) =>
      exists s, raw_strength you m = Ok s /\ raw_good s /\
        analyze_result you dict r =
          Ok (Some {| c_domain := d;
                      c_position := default 999 (position r);
                      c_pos_1 := get0 (pos_1 m);
                      c_etv := get0 (etv m);
                      c_keywords := get0 (keywords m);
                      strength_score := py_round1 s;
                      difficulty := difficulty_of s |})
  | None => analyze_result you dict r = Ok None
  end.
Proof.
  intros Hy Hd. unfold matched, analyze_result.
  destruct (domain r) as [d|]; [|reflexivity].
  destruct (String.eqb d ""); cbn [negb]; [reflexivity|].
  destruct (dict !! d) as [m|] eqn:Em; [|reflexivity].
  destruct (raw_strength_ok you m Hy (Hd d m Em)) as (s & E & G & _).
  exists s. rewrite E. auto.
Qed.

Lemma analyze_results_ok (you : own_metrics) (dict : gmap string domain_metrics)
    (rs : list serp_result) :
  own_in_range you -> dict_in_range dict ->
  exists cs,
    analyze_results you dict rs = Ok cs /\
    Forall (fun c => good_score (strength_score c)) cs /\
    map c_domain cs = omap (fun r => fst <$> matched dict r) rs.
Proof.
  intros Hy Hd. induction rs as [|r rs (cs & E & G & M)]; cbn [analyze_results omap].
  - exists []. auto.
  - pose proof (analyze_result_spec you dict r Hy Hd) as Hr. cbn [list_omap].
    destruct (matched dict r) as [[d m]|].
    + destruct Hr as (s & _ & Gs & Er). rewrite Er, E. cbn [mbind result_bind].
      eexists. split; [reflexivity|]. split.
      * constructor; [apply round_good; exact Gs | exact G].
      * cbn. f_equal. exact M.
    + rewrite Hr, E. cbn [mbind result_bind]. exists cs. auto.
Qed.

Lemma py_add_partial (k : Z) (acc x : pynum) :
  0 <= k < 2 ^ 32 -> partial_sum k acc -> good_score x ->
  exists s, py_add acc x = Ok s /\ partial_sum (k + 1) s /\ in_range s.
Proof.
  intros Hk Hacc Gx. pose proof dbl_overflow_big as Hbig.
  assert (Hz : forall z, 0 <= z <= 100 * k -> Z.abs z < dbl_overflow) by (intros; lia).
  destruct acc as [z|f]; cbn in Hacc.
  - destruct Gx as [-> | [-> | (g & -> & _)]].
    + exists (PInt (z + 0)). split; [reflexivity|]. cbn. split; lia.
    + exists (PInt (z + 100)). split; [reflexivity|]. cbn. split; lia.
    + exists (PFloat (fadd (float_of_Z z) g)). cbn [py_add to_float mbind result_bind].
      rewrite float_of_int_ok by auto. cbn. auto.
  - destruct Gx as [-> | [-> | (g & -> & _)]].
    + exists (PFloat (fadd f (float_of_Z 0))). cbn. auto.
    + exists (PFloat (fadd f (float_of_Z 100))). cbn [py_add to_float mbind result_bind].
      rewrite float_of_int_ok by lia. cbn. auto.
    + exists (PFloat (fadd f g)). cbn. auto.
Qed.

Lemma py_sum_from (xs : list pynum) : forall (k : Z) (acc : pynum),
  0 <= k -> k + Z.of_nat (length xs) < 2 ^ 32 ->
  partial_sum k acc -> in_range acc -> Forall good_score xs ->
  exists s, foldl (fun acc x => a ← acc; py_add a x) (Ok acc) xs = Ok s /\ in_range s.
Proof.
  induction xs as [|x xs IH]; intros k acc Hk Hlen Hacc Hr Hg; cbn [foldl].
  - exists acc. auto.
  - inversion Hg as [|? ? Gx Gxs]; subst. cbn [length] in Hlen.
    destruct (py_add_partial k acc x ltac:(lia) Hacc Gx) as (s & E & Hs & Hrs).
    cbn [mbind result_bind]. rewrite E.
    apply (IH (k + 1) s); try assumption; lia.
Qed.

Lemma py_sum_ok (xs : list pynum) :
  Z.of_nat (length xs) < 2 ^ 32 -> Forall good_score xs ->
  exists s, py_sum xs = Ok s /\ in_range s.
Proof.
  intros Hlen Hg. apply (py_sum_from xs 0 (PInt 0)); try assumption; try lia.
  - cbn. lia.
  - apply in_range_small. cbn. lia.
Qed.

Lemma top_5_take (cs : list competitor) : top_5 cs = take (Nat.min 5 (length cs)) cs.
Proof.
  unfold top_5. destruct (Nat.leb_spec 5 (length cs)) as [H|H].
  - rewrite Nat.min_l by exact H. reflexivity.
  - rewrite Nat.min_r by lia. symmetry. apply firstn_all.
Qed.

Lemma overall_score_of_mean (cs : list competitor) :
  cs <> [] ->
  overall_score_of cs = mean_score (map strength_score (take (Nat.min 5 (length cs)) cs)).
Proof.
  intros Hne. unfold overall_score_of, mean_score. rewrite top_5_take.
  destruct cs as [|c cs]; [congruence|].
  destruct (Nat.min 5 (length (c :: cs))) as [|n] eqn:En; [cbn [length] in En; lia|].
  cbn [take]. rewrite length_map. reflexivity.
Qed.

Lemma overall_score_of_ok (cs : list competitor) :
  Forall (fun c => good_score (strength_score c)) cs ->
  exists o, overall_score_of cs = Ok o.
Proof.
  intros Hg. destruct cs as [|c cs]; [exists (PInt 0); reflexivity|].
  rewrite overall_score_of_mean by discriminate. unfold mean_score.
  set (t := take _ (c :: cs)).
  assert (Hlen : (1 <= length t <= 5)%nat).
  { unfold t. rewrite length_take. cbn [length]. lia. }
  assert (Hgt : Forall good_score (map strength_score t)).
  { apply Forall_map. unfold t. apply Forall_take. exact Hg. }
  destruct (py_sum_ok (map strength_score t)) as (s & E & Hs); [rewrite length_map; lia | exact Hgt |].
  rewrite E. cbn [mbind result_bind]. rewrite length_map.
  destruct (py_truediv_ok s (PInt (Z.of_nat (length t))) Hs) as (f & Ef).
  - apply in_range_small. lia.
  - apply num_gt_int_0. lia.
  - eauto.
Qed.

Lemma SFcompare_some (f g : spec_float) :
  not_nan f -> not_nan g -> exists c, SFcompare f g = Some c.
Proof.
  unfold not_nan. intros Hf Hg.
  destruct f as [sf|sf| |sf mf ef]; try congruence;
  destruct g as [sg|sg| |sg mg eg]; try congruence; cbn [SFcompare]; eauto.
Qed.

(** On stored scores [a <= b] is the negation of [b < a]. *)
Lemma num_le_nlt (a b : pynum) :
  good_score a -> good_score b -> num_le a b = negb (num_lt b a).
Proof.
  intros Ga Gb.
  pose proof (good_score_not_nan a Ga) as Na. pose proof (good_score_not_nan b Gb) as Nb.
  assert (Hff : forall f g, not_nan f -> not_nan g ->
            match SFcompare f g with Some (Lt | Eq) => true | _ => false end
            = negb (SFltb g f)).
  { intros f g Hf Hg. destruct (SFcompare_some f g Hf Hg) as (c & Ec).
    pose proof (SFgtb_rank f g Hf Hg) as H1. pose proof (SFltb_rank g f Hg Hf) as H2.
    rewrite Ec in *. destruct H1 as [H1a H1b]. destruct H2 as [H2a H2b].
    destruct (SFltb g f); destruct c; cbn; try reflexivity; exfalso;
      try (specialize (H1b (H2a eq_refl)); discriminate);
      try (specialize (H2b (H1a eq_refl)); discriminate). }
  destruct Ga as [-> | [-> | (f & -> & Hf)]]; destruct Gb as [-> | [-> | (g & -> & Hg)]];
    cbn [score_float] in *; try reflexivity.
  - unfold num_le, num_compare. rewrite cmp_int_float_small by exact small_0.
    rewrite num_lt_float_int by exact small_0.
    destruct (SFcompare_some (float_of_Z 0) g Na Nb) as ([| |] & ->); reflexivity.
  - unfold num_le, num_compare. rewrite cmp_int_float_small by exact small_100.
    rewrite num_lt_float_int by exact small_100.
    destruct (SFcompare_some (float_of_Z 100) g Na Nb) as ([| |] & ->); reflexivity.
  - unfold num_le, num_compare. rewrite cmp_int_float_small by exact small_0.
    rewrite num_lt_int_float by exact small_0. unfold SFltb.
    destruct (SFcompare_some (float_of_Z 0) f Nb Na) as ([| |] & ->); reflexivity.
  - unfold num_le, num_compare. rewrite cmp_int_float_small by exact small_100.
    rewrite num_lt_int_float by exact small_100. unfold SFltb.
    destruct (SFcompare_some (float_of_Z 100) f Nb Na) as ([| |] & ->); reflexivity.
  - exact (Hff f g Hf Hg).
Qed.

Lemma insert_by_filter_in {A K : Type} (key : A -> K) (lt : K -> K -> bool)
    (P : A -> bool) (x : A) (l : list A) :
  (forall a b, In a (x :: l) -> In b (x :: l) ->
     P a = true -> P b = true -> lt (key a) (key b) = false) ->
  List.filter P (insert_by key lt x l) = List.filter P (x :: l).
Proof.
  induction l as [|y l IH]; intros HP; cbn [insert_by]; [reflexivity|].
  destruct (lt (key y) (key x)) eqn:Hlt; [|reflexivity].
  cbn [List.filter] in *. rewrite IH.
  - destruct (P x) eqn:Px; destruct (P y) eqn:Py; try reflexivity.
    rewrite (HP y x) in Hlt; [discriminate | right; left; reflexivity | left; reflexivity
                               | exact Py | exact Px].
  - intros a b Ha Hb. apply HP; cbn in *; tauto.
Qed.

Lemma py_sort_by_stable_in {A K : Type} (key : A -> K) (lt : K -> K -> bool)
    (P : A -> bool) (l : list A) :
  (forall a b, In a l -> In b l -> P a = true -> P b = true -> lt (key a) (key b) = false) ->
  List.filter P (py_sort_by key lt l) = List.filter P l.
Proof.
  induction l as [|x l IH]; intros HP; cbn [py_sort_by]; [reflexivity|].
  rewrite insert_by_filter_in.
  - cbn [List.filter]. rewrite IH; [reflexivity|].
    intros a b Ha Hb. apply HP; right; assumption.
  - assert (Hin : forall a, In a (x :: py_sort_by key lt l) -> In a (x :: l)).
    { intros a [->|Ha]; [left; reflexivity|right].
      eapply Permutation_in; [apply Permutation_sym, (py_sort_by_perm key lt) | exact Ha]. }
    intros a b Ha Hb. apply HP; apply Hin; assumption.
Qed.

Lemma same_score_incomparable (k : pynum) (a b : competitor) :
  good_score k -> good_score (strength_score a) -> good_score (strength_score b) ->
  same_score k a = true -> same_score k b = true ->
  num_lt (strength_score a) (strength_score b) = false.
Proof.
  unfold same_score. intros Gk Ga Gb Ha Hb.
  apply andb_true_iff in Ha, Hb. destruct Ha as [Ha1 Ha2]. destruct Hb as [Hb1 Hb2].
  apply negb_true_iff in Ha1, Ha2, Hb1, Hb2.
  destruct (num_lt (strength_score a) (strength_score b)) eqn:E; [|reflexivity].
  apply (num_lt_rank _ _ Ga Gb) in E.
  assert (N1 : ~ lex_lt (float_rank (score_float (strength_score a))) (float_rank (score_float k))).
  { intros H. apply (num_lt_rank _ _ Ga Gk) in H. congruence. }
  assert (N2 : ~ lex_lt (float_rank (score_float k)) (float_rank (score_float (strength_score b)))).
  { intros H. apply (num_lt_rank _ _ Gk Gb) in H. congruence. }
  exfalso. revert E N1 N2.
  destruct (float_rank (score_float (strength_score a))) as [[a1 a2] a3].
  destruct (float_rank (score_float (strength_score b))) as [[b1 b2] b3].
  destruct (float_rank (score_float k)) as [[k1 k2] k3].
  unfold lex_lt. lia.
Qed.

Lemma below_is_le (l : list competitor) :
  Forall (fun c => good_score (strength_score c)) l ->
  StronglySorted (below strength_score num_lt) l ->
  StronglySorted (fun c1 c2 => num_le (strength_score c1) (strength_score c2) = true) l.
Proof.
  intros G Hs. induction Hs as [|c l Hs IH Hc]; constructor.
  - apply IH. inversion G; assumption.
  - inversion G as [|? ? Gc Gl]; subst. rewrite Forall_forall in *.
    intros c' Hc'. rewrite num_le_nlt by auto. unfold below in Hc. rewrite (Hc c' Hc').
    reflexivity.
Qed.

(** The assessment is always produced from inputs a double can hold. *)
Lemma calculate_ok fetch (your_domain_metrics : domain_metrics)
    (dict : gmap string domain_metrics) (serp_results : serp) :
  fetch_bounded fetch -> metrics_in_range your_domain_metrics -> dict_in_range dict ->
  exists p unsorted o,
    estimate_content_length fetch serp_results = Ok p /\
    analyze_results (read_own_metrics your_domain_metrics) dict
      (default [] (results serp_results)) = Ok unsorted /\
    Forall (fun c => good_score (strength_score c)) unsorted /\
    map c_domain unsorted = omap (fun r => fst <$> matched dict r)
                                 (default [] (results serp_results)) /\
    overall_score_of (sort_by_strength unsorted) = Ok o /\
    calculate_competition_assessment fetch your_domain_metrics dict serp_results =
      Ok {| your_metrics := read_own_metrics your_domain_metrics;
            competitor_analysis := sort_by_strength unsorted;
            overall_score := py_round1 o;
            verdict := fst (verdict_of o);
            target_position := snd (verdict_of o);
            recommendations := strategy_of o ++ easiest_line (sort_by_strength unsorted);
            content_length_analysis := p |}.
Proof.
  intros Hf Hy Hd.
  destruct (estimate_content_length_ok fetch serp_results Hf) as (p & Ep & _).
  destruct (analyze_results_ok (read_own_metrics your_domain_metrics) dict
              (default [] (results serp_results)) Hy Hd) as (cs & Ec & G & M).
  assert (Gs : Forall (fun c => good_score (strength_score c)) (sort_by_strength cs)).
  { apply (py_sort_by_good strength_score num_lt good_score). exact G. }
  destruct (overall_score_of_ok _ Gs) as (o & Eo).
  exists p, cs, o. repeat (split; [assumption|]).
  unfold calculate_competition_assessment. rewrite Ep, Ec. cbn [mbind result_bind].
  rewrite Eo. reflexivity.
Qed.

Lemma int_metrics_in_range (p e k : Z) :
  Z.abs p < 2 ^ 64 -> Z.abs e < 2 ^ 64 -> Z.abs k < 2 ^ 64 ->
  metrics_in_range (int_metrics p e k).
Proof. intros. repeat split; apply in_range_small; assumption. Qed.

Lemma example_dict_in_range : dict_in_range example_dict.
Proof.
  unfold dict_in_range, example_dict. intros d m.
  rewrite !lookup_insert. repeat case_decide; try (intros [= <-]; apply int_metrics_in_range; cbn; lia).
  all: try (rewrite lookup_empty; discriminate).
Qed.

Lemma example_own_in_range : metrics_in_range example_own.
Proof. apply int_metrics_in_range; cbn; lia. Qed.

(** C1: when N >= 1 entries of the SERP have matching authority metrics, the
    returned [competitor_analysis] is the list of their records (in SERP
    order before the sort) rearranged so that scores ascend ([<=] holds
    between any earlier and any later entry), records of equal score keeping
    their SERP order; and the [overall_score] computed from it, from which
    verdict and target position are taken, is the mean of [strength_score]
    over its first [min(5, N)] entries.  The returned field is that value
    passed through [round(_, 1)]. *)
Theorem C1_sorted_weakest_first_and_mean fetch (your_domain_metrics : domain_metrics)
    (dict : gmap string domain_metrics) (serp_results : serp) :
  fetch_bounded fetch -> metrics_in_range your_domain_metrics -> dict_in_range dict ->
  exists a unsorted,
    calculate_competition_assessment fetch your_domain_metrics dict serp_results = Ok a /\
    analyze_results (read_own_metrics your_domain_metrics) dict
      (default [] (results serp_results)) = Ok unsorted /\
    Permutation unsorted (competitor_analysis a) /\
    StronglySorted (fun c1 c2 => num_le (strength_score c1) (strength_score c2) = true)
      (competitor_analysis a) /\
    (forall k, good_score k ->
       List.filter (same_score k) (competitor_analysis a) = List.filter (same_score k) unsorted) /\
    ((1 <= length unsorted)%nat ->
     exists o,
       mean_score (map strength_score
                     (take (Nat.min 5 (length unsorted)) (competitor_analysis a))) = Ok o /\
       overall_score_of (competitor_analysis a) = Ok o /\
       verdict a = fst (verdict_of o) /\
       target_position a = snd (verdict_of o) /\
       overall_score a = py_round1 o).
Proof.
  intros Hf Hy Hd.
  destruct (calculate_ok fetch your_domain_metrics dict serp_results Hf Hy Hd)
    as (p & cs & o & _ & Ec & G & _ & Eo & Ea).
  eexists. exists cs. split; [exact Ea|]. cbn [competitor_analysis verdict target_position
                                               overall_score].
  split; [exact Ec|].
  assert (Hperm : Permutation cs (sort_by_strength cs)) by apply py_sort_by_perm.
  assert (Gs : Forall (fun c => good_score (strength_score c)) (sort_by_strength cs)).
  { apply (py_sort_by_good strength_score num_lt good_score). exact G. }
  split; [exact Hperm|]. split; [|split].
  - assert (Hs : StronglySorted (below strength_score num_lt) (sort_by_strength cs)).
    { apply (py_sort_by_sorted strength_score num_lt good_score);
        [exact num_lt_asym | exact num_nlt_trans | exact G]. }
    apply below_is_le; assumption.
  - intros k Gk. apply py_sort_by_stable_in. rewrite Forall_forall in G.
    intros c1 c2 H1 H2 P1 P2.
    apply (same_score_incomparable k c1 c2 Gk);
      [apply G, list_elem_of_In, H1 | apply G, list_elem_of_In, H2 | exact P1 | exact P2].
  - intros HN. exists o.
    assert (Hne : sort_by_strength cs <> []).
    { intros E. apply (f_equal (@length _)) in E. unfold sort_by_strength in E.
      rewrite py_sort_by_length in E. cbn in E. lia. }
    assert (Hl : length (sort_by_strength cs) = length cs) by apply py_sort_by_length.
    split; [rewrite <- Hl, <- (overall_score_of_mean _ Hne); exact Eo|].
    split; [exact Eo|]. auto.
Qed.

Lemma C1_witness :
  fetch_bounded example_fetch /\ metrics_in_range example_own /\
  dict_in_range example_dict /\
  exists a unsorted,
    calculate_competition_assessment example_fetch example_own example_dict example_serp
      = Ok a /\
    analyze_results (read_own_metrics example_own) example_dict
      (default [] (results example_serp)) = Ok unsorted /\
    Permutation unsorted (competitor_analysis a) /\
    StronglySorted (fun c1 c2 => num_le (strength_score c1) (strength_score c2) = true)
      (competitor_analysis a) /\
    (forall k, good_score k ->
       List.filter (same_score k) (competitor_analysis a) = List.filter (same_score k) unsorted) /\
    ((1 <= length unsorted)%nat ->
     exists o,
       mean_score (map strength_score
                     (take (Nat.min 5 (length unsorted)) (competitor_analysis a))) = Ok o /\
       overall_score_of (competitor_analysis a) = Ok o /\
       verdict a = fst (verdict_of o) /\
       target_position a = snd (verdict_of o) /\
       overall_score a = py_round1 o).
Proof.
  split; [exact example_fetch_bounded|]. split; [exact example_own_in_range|].
  split; [exact example_dict_in_range|].
  exact (C1_sorted_weakest_first_and_mean example_fetch example_own example_dict example_serp
           example_fetch_bounded example_own_in_range example_dict_in_range).
Defined.

(** ** Ranges, bands, scenarios and rounding *)

(** C2: for own and competitor metrics that are non-negative (integers
    within the range of a double), the strength score is computed and lies
    in the closed interval [0, 100] under Python's [<=]; the clamp
    [min(100, _)] keeps ratios above 1 from pushing it past 100. *)
Theorem C2_strength_score_clamped (you : own_metrics) (metrics : domain_metrics) :
  own_in_range you -> metrics_in_range metrics ->
  own_nonneg you -> metrics_nonneg metrics ->
  exists s,
    raw_strength you metrics = Ok s /\
    num_le (PInt 0) s = true /\ num_le s (PInt 100) = true.
Proof.
  intros Hy Hm _ Hn.
  destruct (raw_strength_ok you metrics Hy Hm) as (s & E & _ & U).
  exists s. split; [exact E|]. exact (U Hn).
Qed.

Lemma C2_witness :
  let you := {| your_pos_1 := PInt 1; your_etv := PFloat (float_of_Z 1); your_keywords := PInt 1 |} in
  let metrics := int_metrics 1000 1000 1000 in
  own_in_range you /\ metrics_in_range metrics /\ own_nonneg you /\ metrics_nonneg metrics /\
  raw_strength you metrics = Ok (PInt 100) /\
  exists s,
    raw_strength you metrics = Ok s /\
    num_le (PInt 0) s = true /\ num_le s (PInt 100) = true.
Proof.
  intros you metrics.
  assert (H1 : own_in_range you).
  { repeat split; try exact I; apply in_range_small; cbn; lia. }
  assert (H2 : metrics_in_range metrics) by (apply int_metrics_in_range; cbn; lia).
  assert (H3 : own_nonneg you) by (repeat split; cbn; lia).
  assert (H4 : metrics_nonneg metrics) by (repeat split; cbn; lia).
  split; [exact H1|]. split; [exact H2|]. split; [exact H3|]. split; [exact H4|].
  split; [vm_compute; reflexivity|].
  exact (C2_strength_score_clamped you metrics H1 H2 H3 H4).
Defined.

Lemma num_le_int (z t : Z) : num_le (PInt z) (PInt t) = (z <=? t).
Proof.
  unfold num_le, num_compare. destruct (Z.compare_spec z t); destruct (Z.leb_spec z t);
    try reflexivity; lia.
Qed.

Lemma num_lt_int (t z : Z) : num_lt (PInt t) (PInt z) = (t <? z).
Proof.
  unfold num_lt, num_compare. destruct (Z.compare_spec t z); destruct (Z.ltb_spec t z);
    try reflexivity; lia.
Qed.

(** Against a threshold [t], [s <= t] is the negation of [t < s]. *)
Lemma num_le_threshold (s : pynum) (t : Z) :
  Z.abs t < 2 ^ 48 -> comparable s -> not_nan (float_of_Z t) ->
  num_le s (PInt t) = negb (num_lt (PInt t) s).
Proof.
  intros Ht Hs Hn. destruct s as [z|f]; cbn in Hs.
  - rewrite num_le_int, num_lt_int. destruct (Z.leb_spec z t); destruct (Z.ltb_spec t z);
      try reflexivity; lia.
  - unfold num_le, num_compare. rewrite cmp_int_float_small by exact Ht.
    rewrite num_lt_int_float by exact Ht. unfold SFltb.
    destruct (SFcompare_some (float_of_Z t) f Hn Hs) as ([| |] & ->); reflexivity.
Qed.

(** Being above a threshold is monotone in the threshold. *)
Lemma num_lt_threshold_mono (s : pynum) (t u : Z) :
  t <= u -> Z.abs t < 2 ^ 48 -> Z.abs u < 2 ^ 48 -> comparable s ->
  not_nan (float_of_Z t) -> not_nan (float_of_Z u) ->
  ~ lex_lt (float_rank (float_of_Z u)) (float_rank (float_of_Z t)) ->
  num_lt (PInt u) s = true -> num_lt (PInt t) s = true.
Proof.
  intros Htu Ht Hu Hs Nt Nu Hr. destruct s as [z|f]; cbn in Hs.
  - rewrite !num_lt_int. intros H. apply Z.ltb_lt in H. apply Z.ltb_lt. lia.
  - rewrite !num_lt_int_float by assumption. intros H.
    apply (SFltb_rank _ _ Nu Hs) in H. apply (SFltb_rank _ _ Nt Hs).
    revert Hr H. destruct (float_rank (float_of_Z u)) as [[u1 u2] u3].
    destruct (float_rank (float_of_Z t)) as [[t1 t2] t3].
    destruct (float_rank f) as [[f1 f2] f3]. unfold lex_lt. lia.
Qed.

Lemma float_of_Z_30 : float_of_Z 30 = S754_finite false 8444249301319680 (-48).
Proof. vm_compute. reflexivity. Qed.

Lemma float_of_Z_60 : float_of_Z 60 = S754_finite false 8444249301319680 (-47).
Proof. vm_compute. reflexivity. Qed.

Lemma float_of_Z_85 : float_of_Z 85 = S754_finite false 5981343255101440 (-46).
Proof. vm_compute. reflexivity. Qed.

Lemma thresholds_ok :
  (Z.abs 30 < 2 ^ 48 /\ Z.abs 60 < 2 ^ 48 /\ Z.abs 85 < 2 ^ 48) /\
  (not_nan (float_of_Z 30) /\ not_nan (float_of_Z 60) /\ not_nan (float_of_Z 85)) /\
  ~ lex_lt (float_rank (float_of_Z 60)) (float_rank (float_of_Z 30)) /\
  ~ lex_lt (float_rank (float_of_Z 85)) (float_rank (float_of_Z 60)).
Proof.
  split; [repeat split; apply Z.ltb_lt; vm_compute; reflexivity|].
  rewrite float_of_Z_30, float_of_Z_60, float_of_Z_85.
  split; [repeat split; discriminate|].
  split; cbn [float_rank lex_lt]; lia.
Qed.

Lemma py_min_100_comparable (x : pynum) : comparable (py_min (PInt 100) x).
Proof.
  unfold py_min. destruct (num_lt x (PInt 100)) eqn:E; [|exact I].
  destruct x as [z|f]; [exact I|]. apply lt_100_not_nan, E.
Qed.

(** C3: the score a label is taken from is never NaN, and for every score
    [s] other than NaN the difficulty label is WEAK iff [s <= 30], MEDIUM
    iff [30 < s <= 60], STRONG iff [60 < s <= 85] and DOMINANT iff [85 < s];
    the verdict and its target-position string are taken from the overall
    score by the same four bands. *)
Theorem C3_band_thresholds :
  (forall x, comparable (py_min (PInt 100) x)) /\
  forall s, comparable s ->
    (difficulty_of s = "WEAK - Easy to outrank" <-> num_le s (PInt 30) = true) /\
    (difficulty_of s = "MEDIUM - Moderate effort needed"
       <-> num_lt (PInt 30) s = true /\ num_le s (PInt 60) = true) /\
    (difficulty_of s = "STRONG - Significant effort required"
       <-> num_lt (PInt 60) s = true /\ num_le s (PInt 85) = true) /\
    (difficulty_of s = "DOMINANT - Very difficult to outrank"
       <-> num_lt (PInt 85) s = true) /\
    (verdict_of s = ("LOW COMPETITION - Excellent opportunity", "1-3")
       <-> num_le s (PInt 30) = true) /\
    (verdict_of s = ("MEDIUM COMPETITION - Good opportunity with quality content", "3-5")
       <-> num_lt (PInt 30) s = true /\ num_le s (PInt 60) = true) /\
    (verdict_of s = ("HIGH COMPETITION - Requires exceptional content and link building", "5-10")
       <-> num_lt (PInt 60) s = true /\ num_le s (PInt 85) = true) /\
    (verdict_of s = ("VERY HIGH COMPETITION - Long-term strategy needed", "10-20 initially")
       <-> num_lt (PInt 85) s = true).
Proof.
  split; [exact py_min_100_comparable|]. intros s Hs.
  destruct thresholds_ok as ((T30 & T60 & T85) & (N30 & N60 & N85) & R1 & R2).
  pose proof (num_le_threshold s 30 T30 Hs N30) as D30.
  pose proof (num_le_threshold s 60 T60 Hs N60) as D60.
  pose proof (num_le_threshold s 85 T85 Hs N85) as D85.
  pose proof (num_lt_threshold_mono s 30 60 ltac:(lia) T30 T60 Hs N30 N60 R1) as M1.
  pose proof (num_lt_threshold_mono s 60 85 ltac:(lia) T60 T85 Hs N60 N85 R2) as M2.
  unfold difficulty_of, verdict_of. rewrite D30, D60, D85.
  destruct (num_lt (PInt 30) s); destruct (num_lt (PInt 60) s); destruct (num_lt (PInt 85) s);
    try (specialize (M1 eq_refl); discriminate); try (specialize (M2 eq_refl); discriminate);
    cbn [negb];
    repeat match goal with
      | |- _ /\ _ => split
      | |- _ <-> _ => split; intros HH
      end;
    try reflexivity; try discriminate HH;
    try (destruct HH as [HH1 HH2]; first [discriminate HH1 | discriminate HH2]).
Qed.

Lemma C3_witness :
  comparable (PInt 30) /\
  difficulty_of (PInt 30) = "WEAK - Easy to outrank" /\
  verdict_of (PInt 30) = ("LOW COMPETITION - Excellent opportunity", "1-3").
Proof.
  split; [exact I|].
  destruct (proj2 C3_band_thresholds (PInt 30) I) as (H1 & _ & _ & _ & H2 & _).
  split; [apply H1 | apply H2]; reflexivity.
Defined.

Lemma scenario_dict_in_range : dict_in_range scenario_dict.
Proof.
  unfold dict_in_range, scenario_dict. intros d m.
  rewrite lookup_insert. case_decide; [intros [= <-]; apply int_metrics_in_range; cbn; lia|].
  rewrite lookup_empty. discriminate.
Qed.

(** C7: with own metrics all zero and one competitor {pos_1: 50, etv: 20000,
    keywords: 3000} in the authority data at SERP position 1, the fall-back
    ceilings give the ratios 50/100 = 0.5, 20000/10000 = 2.0 and
    3000/5000 = 0.6 (the nearest double), the strength score is exactly 97
    and is stored as 97.0, and the label is DOMINANT; the assessment lists
    this one competitor. *)
Theorem C7_zero_denominator_scenario :
  pos_1_ratio (PInt 50) (PInt 0) = Ok (PFloat f_0_5) /\
  etv_ratio (PInt 20000) (PInt 0) = Ok (PFloat f_2_0) /\
  keywords_ratio (PInt 3000) (PInt 0) = Ok (PFloat f_0_6) /\
  int_truediv 1 2 = Ok f_0_5 /\ int_truediv 2 1 = Ok f_2_0 /\ int_truediv 6 10 = Ok f_0_6 /\
  raw_strength (read_own_metrics zero_metrics) (int_metrics 50 20000 3000) = Ok (PFloat f_97) /\
  num_compare (PFloat f_97) (PInt 97) = Some Eq /\
  difficulty_of (PFloat f_97) = "DOMINANT - Very difficult to outrank" /\
  forall fetch, fetch_bounded fetch ->
    exists a,
      calculate_competition_assessment fetch zero_metrics scenario_dict scenario_serp = Ok a /\
      competitor_analysis a = [scenario_competitor] /\
      overall_score a = PFloat f_97.
Proof.
  repeat (split; [vm_compute; reflexivity|]).
  intros fetch Hf.
  destruct (calculate_ok fetch zero_metrics scenario_dict scenario_serp Hf
              (int_metrics_in_range 0 0 0 ltac:(cbn; lia) ltac:(cbn; lia) ltac:(cbn; lia))
              scenario_dict_in_range) as (p & cs & o & _ & Ec & _ & _ & Eo & Ea).
  assert (Hcs : cs = [scenario_competitor]).
  { assert (E : analyze_results (read_own_metrics zero_metrics) scenario_dict
                  (default [] (results scenario_serp)) = Ok [scenario_competitor])
      by (vm_compute; reflexivity).
    rewrite E in Ec. injection Ec as <-. reflexivity. }
  subst cs.
  assert (Ho : o = PFloat f_97).
  { assert (E : overall_score_of (sort_by_strength [scenario_competitor]) = Ok (PFloat f_97))
      by (vm_compute; reflexivity).
    rewrite E in Eo. injection Eo as <-. reflexivity. }
  subst o. eexists. split; [exact Ea|]. split; reflexivity.
Qed.

Lemma C7_witness :
  fetch_bounded example_fetch /\
  exists a,
    calculate_competition_assessment example_fetch zero_metrics scenario_dict scenario_serp
      = Ok a /\
    competitor_analysis a = [scenario_competitor] /\
    overall_score a = PFloat f_97.
Proof.
  split; [exact example_fetch_bounded|].
  exact (proj2 (proj2 (proj2 (proj2 (proj2 (proj2 (proj2 (proj2 (proj2
           C7_zero_denominator_scenario)))))))) example_fetch example_fetch_bounded).
Defined.

(** C8: on an empty SERP (the key [results] absent, or an empty list) the
    estimator returns the hard-coded profile 3000 / 3000 / 1500 / 5000 /
    3000 / 4000, and the assessment is returned with an empty competitor
    list, [overall_score] 0 and that profile, whatever the fetcher and the
    authority data are. *)
Theorem C8_empty_serp_defaults fetch (your_domain_metrics : domain_metrics)
    (dict : gmap string domain_metrics) (serp_results : serp) :
  default [] (results serp_results) = [] ->
  let defaults :=
    {| average := PInt 3000; median := 3000; min_words := 1500; max_words := 5000;
       recommended_min := 3000; recommended_max := 4000; detailed_estimates := [] |} in
  estimate_content_length fetch serp_results = Ok defaults /\
  exists a,
    calculate_competition_assessment fetch your_domain_metrics dict serp_results = Ok a /\
    competitor_analysis a = [] /\
    overall_score a = PInt 0 /\
    content_length_analysis a = defaults.
Proof.
  intros He defaults.
  assert (E : estimate_content_length fetch serp_results = Ok defaults).
  { unfold estimate_content_length, word_counts_of, analyzed. rewrite He. reflexivity. }
  split; [exact E|].
  unfold calculate_competition_assessment. rewrite E, He. cbn.
  eexists. split; [reflexivity|]. cbn. auto.
Qed.

Lemma C8_witness :
  default [] (results {| results := None |}) = [] /\
  exists a,
    calculate_competition_assessment example_fetch example_own example_dict
      {| results := None |} = Ok a /\
    competitor_analysis a = [] /\
    overall_score a = PInt 0.
Proof.
  split; [reflexivity|].
  destruct (proj2 (C8_empty_serp_defaults example_fetch example_own example_dict
                     {| results := None |} eq_refl)) as (a & E & H1 & H2 & _).
  exists a. auto.
Defined.

(** C9: a SERP entry whose domain is missing, empty, or not a key of the
    authority data adds nothing to the competitor list and raises nothing;
    the assessment is still produced, and the domains of its competitors are
    exactly the domains of the matching entries. *)
Theorem C9_unmatched_entries_skipped fetch (your_domain_metrics : domain_metrics)
    (dict : gmap string domain_metrics) (serp_results : serp) :
  fetch_bounded fetch -> metrics_in_range your_domain_metrics -> dict_in_range dict ->
  (forall r,
     domain r = None \/ domain r = Some "" \/
       (exists d, domain r = Some d /\ dict !! d = None) ->
     matched dict r = None /\
     analyze_result (read_own_metrics your_domain_metrics) dict r = Ok None) /\
  exists a,
    calculate_competition_assessment fetch your_domain_metrics dict serp_results = Ok a /\
    Permutation (map c_domain (competitor_analysis a))
      (omap (fun r => fst <$> matched dict r) (default [] (results serp_results))) /\
    Forall (fun c => c_domain c <> "" /\ is_Some (dict !! c_domain c)) (competitor_analysis a).
Proof.
  intros Hf Hy Hd. split.
  - intros r Hr. unfold matched, analyze_result.
    destruct Hr as [-> | [-> | (d & -> & Hn)]]; [auto | auto |].
    rewrite Hn. destruct (String.eqb d ""); auto.
  - destruct (calculate_ok fetch your_domain_metrics dict serp_results Hf Hy Hd)
      as (p & cs & o & _ & _ & _ & M & _ & Ea).
    eexists. split; [exact Ea|]. cbn [competitor_analysis].
    assert (Hp : Permutation (map c_domain (sort_by_strength cs)) (map c_domain cs)).
    { apply Permutation_map, Permutation_sym, py_sort_by_perm. }
    split; [rewrite <- M; exact Hp|].
    assert (Hall : Forall (fun d => d <> "" /\ is_Some (dict !! d)) (map c_domain cs)).
    { rewrite M. apply Forall_forall. intros d Hin.
      apply list_elem_of_omap in Hin. destruct Hin as (r & _ & Hr).
      unfold matched in Hr. destruct (domain r) as [d'|]; [|discriminate].
      destruct (String.eqb_spec d' ""); [discriminate|].
      destruct (dict !! d') as [m|] eqn:Em; [|discriminate].
      cbn in Hr. injection Hr as <-. split; [assumption | rewrite Em; eauto]. }
    apply (proj1 (Forall_map c_domain (fun d => d <> "" /\ is_Some (dict !! d))
                    (sort_by_strength cs))).
    eapply Permutation_Forall; [apply Permutation_sym; exact Hp|exact Hall].
Qed.

Lemma C9_witness :
  fetch_bounded example_fetch /\ metrics_in_range example_own /\
  dict_in_range example_dict /\
  analyze_result (read_own_metrics example_own) example_dict
    (example_entry 3 "https://c.example/" "c.example") = Ok None /\
  exists a,
    calculate_competition_assessment example_fetch example_own example_dict example_serp
      = Ok a /\
    Permutation (map c_domain (competitor_analysis a))
      (omap (fun r => fst <$> matched example_dict r) (default [] (results example_serp))) /\
    Forall (fun c => c_domain c <> "" /\ is_Some (example_dict !! c_domain c))
      (competitor_analysis a).
Proof.
  split; [exact example_fetch_bounded|]. split; [exact example_own_in_range|].
  split; [exact example_dict_in_range|].
  pose proof (C9_unmatched_entries_skipped example_fetch example_own example_dict example_serp
                example_fetch_bounded example_own_in_range example_dict_in_range) as [H1 H2].
  split; [|exact H2].
  apply (H1 (example_entry 3 "https://c.example/" "c.example")).
  right; right. exists "c.example". split; reflexivity.
Defined.

(** C10: the [strength_score] stored for a competitor is the weighted score
    passed through [round(_, 1)] (the label is taken from the unrounded
    score); the overall score is the mean of the stored, rounded scores and
    is itself passed through [round(_, 1)] on return.  The reported value
    can therefore differ from the mean of the unrounded scores, even after
    rounding that mean: unrounded scores 0.06 and 0 are stored as 0.1 and 0,
    the report is 0.1, and the mean of the unrounded scores is 0.03. *)
Theorem C10_rounding_of_scores :
  (forall you (dict : gmap string domain_metrics) r c,
     analyze_result you dict r = Ok (Some c) ->
     exists m s,
       dict !! c_domain c = Some m /\ raw_strength you m = Ok s /\
       strength_score c = py_round1 s /\ difficulty c = difficulty_of s) /\
  (forall fetch ydm (dict : gmap string domain_metrics) serp_results a,
     calculate_competition_assessment fetch ydm dict serp_results = Ok a ->
     exists o,
       overall_score_of (competitor_analysis a) = Ok o /\
       overall_score a = py_round1 o /\
       verdict a = fst (verdict_of o)) /\
  exists a raw_a raw_b m,
    calculate_competition_assessment example_fetch zero_metrics rounding_dict rounding_serp
      = Ok a /\
    raw_strength (read_own_metrics zero_metrics) (int_metrics 0 20 0) = Ok raw_a /\
    raw_strength (read_own_metrics zero_metrics) (int_metrics 0 0 0) = Ok raw_b /\
    map strength_score (competitor_analysis a) = [py_round1 raw_b; py_round1 raw_a] /\
    mean_score [raw_a; raw_b] = Ok m /\
    overall_score a <> m /\ overall_score a <> py_round1 m.
Proof.
  split; [|split].
  - intros you dict r c. unfold analyze_result.
    destruct (domain r) as [d|]; [|discriminate].
    destruct (negb (String.eqb d "")); [|discriminate].
    destruct (dict !! d) as [m|] eqn:Em; [|discriminate].
    destruct (raw_strength you m) as [s|] eqn:Es; [|discriminate].
    cbn [mbind result_bind]. intros [= <-]. exists m, s. cbn. auto.
  - intros fetch ydm dict serp_results a. unfold calculate_competition_assessment.
    destruct (estimate_content_length fetch serp_results) as [p|]; [|discriminate].
    cbn [mbind result_bind].
    destruct (analyze_results _ dict _) as [cs|]; [|discriminate].
    cbn [mbind result_bind].
    destruct (overall_score_of (sort_by_strength cs)) as [o|] eqn:Eo; [|discriminate].
    cbn [mbind result_bind]. intros [= <-]. exists o. cbn. auto.
  - eexists. eexists. eexists. eexists.
    split; [vm_compute; reflexivity|]. split; [vm_compute; reflexivity|].
    split; [vm_compute; reflexivity|]. split; [vm_compute; reflexivity|].
    split; [vm_compute; reflexivity|]. split; vm_compute; discriminate.
Qed.

Lemma C10_witness :
  exists o,
    overall_score_of [scenario_competitor] = Ok o /\
    PFloat f_97 = py_round1 o.
Proof.
  assert (E : calculate_competition_assessment example_fetch zero_metrics scenario_dict
                scenario_serp =
              Ok {| your_metrics := read_own_metrics zero_metrics;
                    competitor_analysis := [scenario_competitor];
                    overall_score := PFloat f_97;
                    verdict := "VERY HIGH COMPETITION - Long-term strategy needed";
                    target_position := "10-20 initially";
                    recommendations :=
                      ["Long-term strategy needed (6-12+ months)";
                       "Build domain authority through easier wins first";
                       "Focus on long-tail variations initially";
                       "Invest heavily in content quality and backlinks"];
                    content_length_analysis :=
                      {| average := PFloat (S754_finite false 8796093022208000 (-42));
                         median := 2000; min_words := 2000; max_words := 2000;
                         recommended_min := 2200; recommended_max := 2400;
                         detailed_estimates :=
                           [{| est_position := 1; est_domain := "competitor.example";
                               est_actual_words := 2000;
                               est_title := "competitor.example";
                               est_fetched := false |}] |} |})
    by (vm_compute; reflexivity).
  destruct (proj1 (proj2 C10_rounding_of_scores) _ _ _ _ _ E) as (o & H1 & H2 & _).
  exists o. split; [exact H1 | exact H2].
Defined.

(** ** Recommendations *)

Lemma float_of_Z_40 : float_of_Z 40 = S754_finite false 5629499534213120 (-47).
Proof. vm_compute. reflexivity. Qed.

Lemma small_40 : Z.abs 40 < 2 ^ 48.
Proof. apply Z.ltb_lt. vm_compute. reflexivity. Qed.

Lemma good_comparable (s : pynum) : good_score s -> comparable s.
Proof. intros [-> | [-> | (f & -> & Hf)]]; [exact I | exact I | exact Hf]. Qed.

Lemma not_nan_40 : not_nan (float_of_Z 40).
Proof. rewrite float_of_Z_40. discriminate. Qed.

Lemma lt_40_rank (b : pynum) :
  good_score b ->
  (num_lt (PInt 40) b = true <->
   lex_lt (float_rank (float_of_Z 40)) (float_rank (score_float b))).
Proof.
  intros [-> | [-> | (g & -> & Hg)]]; cbn [score_float].
  - rewrite float_of_Z_40, float_of_Z_0. cbn. split; [discriminate | lia].
  - rewrite float_of_Z_40, float_of_Z_100. cbn. split; [lia | reflexivity].
  - rewrite num_lt_int_float by exact small_40. apply SFltb_rank; [exact not_nan_40 | exact Hg].
Qed.

Lemma easy_target_down (a b : competitor) :
  good_score (strength_score a) -> good_score (strength_score b) ->
  num_le (strength_score a) (strength_score b) = true ->
  easy_target b -> easy_target a.
Proof.
  unfold easy_target. intros Ga Gb Hab Hb.
  rewrite num_le_threshold in Hb |- *;
    try exact small_40; try exact not_nan_40; try (apply good_comparable; assumption).
  rewrite num_le_nlt in Hab by assumption.
  apply negb_true_iff in Hab, Hb. apply negb_true_iff.
  destruct (num_lt (PInt 40) (strength_score a)) eqn:E; [|reflexivity]. exfalso.
  apply (lt_40_rank _ Ga) in E. revert E.
  apply (lex_nlt_trans _ (float_rank (score_float (strength_score b)))).
  - intros H. apply (num_lt_rank _ _ Gb Ga) in H. congruence.
  - intros H. apply (lt_40_rank _ Gb) in H. congruence.
Qed.

(** In an ascending list the easy targets form a prefix. *)
Lemma easy_targets_prefix (l : list competitor) :
  Forall (fun c => good_score (strength_score c)) l ->
  StronglySorted (fun c1 c2 => num_le (strength_score c1) (strength_score c2) = true) l ->
  exists k : nat,
    (k <= length l)%nat /\
    filter easy_target l = take k l /\
    Forall easy_target (take k l) /\
    Forall (fun c => ~ easy_target c) (drop k l).
Proof.
  intros G Hs. induction Hs as [|c l Hs IH Hc].
  - exists 0%nat. cbn. repeat split; auto.
  - inversion G as [|? ? Gc Gl]; subst. destruct (IH Gl) as (k & Hk & Ef & Ht & Hd).
    destruct (decide (easy_target c)) as [Hy|Hn].
    + exists (S k). cbn [length take drop]. split; [lia|].
      rewrite filter_cons_True by exact Hy. rewrite Ef. auto.
    + exists 0%nat. cbn [take drop length]. split; [lia|].
      assert (Hall : Forall (fun c' => ~ easy_target c') l).
      { rewrite Forall_forall in *. intros c' Hin Hc'. apply Hn.
        apply (easy_target_down c c'); auto. }
      rewrite filter_cons_False by exact Hn.
      split; [|split; [constructor | constructor; assumption]].
      clear -Hall. induction Hall as [|x l Hx _ IH]; [reflexivity|].
      rewrite filter_cons_False by exact Hx. exact IH.
Qed.

Lemma strategy_of_length (o : pynum) :
  length (strategy_of o) = if num_le o (PInt 60) then 3%nat else 4%nat.
Proof.
  unfold strategy_of.
  destruct (num_le o (PInt 30)) eqn:E30; destruct (num_le o (PInt 60)) eqn:E60;
    destruct (num_le o (PInt 85)); try reflexivity.
  (* o <= 30 but not o <= 60 cannot happen *)
  all: exfalso; destruct o as [z|f].
  all: try (rewrite num_le_int in E30, E60; apply Z.leb_le in E30; apply Z.leb_gt in E60; lia).
  all: assert (Hf : comparable (PFloat f)).
  all: try (intros ->; unfold num_le, num_compare in E30;
    rewrite cmp_int_float_small in E30 by (apply Z.ltb_lt; vm_compute; reflexivity);
    destruct (float_of_Z 30); discriminate).
  all: destruct thresholds_ok as ((T30 & T60 & T85) & (N30 & N60 & N85) & R1 & R2);
    rewrite num_le_threshold in E30, E60 by assumption;
    apply negb_true_iff in E30; apply negb_false_iff in E60;
    rewrite (num_lt_threshold_mono (PFloat f) 30 60 ltac:(lia) T30 T60 Hf N30 N60 R1 E60) in E30;
    discriminate.
Qed.

Lemma take_3_filter_prefix (l : list competitor) (k : nat) :
  take 3 (take k l) = take (Nat.min 3 k) l.
Proof. rewrite take_take. reflexivity. Qed.

Lemma easiest_line_prefix (l : list competitor) :
  Forall (fun c => good_score (strength_score c)) l ->
  StronglySorted (fun c1 c2 => num_le (strength_score c1) (strength_score c2) = true) l ->
  exists k : nat,
    (k <= 3)%nat /\ (k <= length l)%nat /\
    Forall easy_target (take k l) /\
    ((k < 3)%nat -> Forall (fun c => ~ easy_target c) (drop k l)) /\
    easiest_line l = target_line (take k l).
Proof.
  intros G Hs. destruct (easy_targets_prefix l G Hs) as (k0 & Hk & Ef & Ht & Hd).
  exists (Nat.min 3 k0). split; [lia|]. split; [lia|]. split.
  { rewrite <- take_3_filter_prefix. apply Forall_take. exact Ht. }
  split.
  { intros Hlt. replace (Nat.min 3 k0) with k0 by lia. exact Hd. }
  unfold easiest_line. fold easy_target.
  change (fun c : competitor => easy_target c) with easy_target.
  rewrite Ef, <- take_3_filter_prefix.
  destruct (take k0 l) as [|c t]; reflexivity.
Qed.

(** X1: the recommendation that names targets lists the weakest
    competitors.  The assessment is produced, and there is a [k <= 3] such
    that the first [k] entries of the sorted competitor list all have a
    stored score of at most 40, the line after the strategy lines names
    exactly these entries, in this order (no line when [k = 0]), and when
    fewer than three are named every other competitor scores above 40. *)
Theorem easiest_targets_are_weakest fetch (your_domain_metrics : domain_metrics)
    (dict : gmap string domain_metrics) (serp_results : serp) :
  fetch_bounded fetch -> metrics_in_range your_domain_metrics -> dict_in_range dict ->
  exists a o (k : nat),
    calculate_competition_assessment fetch your_domain_metrics dict serp_results = Ok a /\
    overall_score_of (competitor_analysis a) = Ok o /\
    (k <= 3)%nat /\ (k <= length (competitor_analysis a))%nat /\
    Forall easy_target (take k (competitor_analysis a)) /\
    ((k < 3)%nat -> Forall (fun c => ~ easy_target c) (drop k (competitor_analysis a))) /\
    recommendations a = strategy_of o ++ target_line (take k (competitor_analysis a)).
Proof.
  intros Hf Hy Hd.
  destruct (calculate_ok fetch your_domain_metrics dict serp_results Hf Hy Hd)
    as (p & unsorted & o & _ & _ & G & _ & Eo & E).
  assert (Gs : Forall (fun c => good_score (strength_score c)) (sort_by_strength unsorted)).
  { apply (py_sort_by_good strength_score num_lt good_score). exact G. }
  assert (Hs : StronglySorted
                 (fun c1 c2 => num_le (strength_score c1) (strength_score c2) = true)
                 (sort_by_strength unsorted)).
  { apply below_is_le; [exact Gs|].
    apply (py_sort_by_sorted strength_score num_lt good_score);
      [exact num_lt_asym | exact num_nlt_trans | exact G]. }
  destruct (easiest_line_prefix _ Gs Hs) as (k & K3 & Kl & Ht & Hd' & El).
  eexists. exists o, k. split; [exact E|].
  cbn [competitor_analysis recommendations]. rewrite El. auto 10.
Qed.

Lemma easiest_targets_are_weakest_witness :
  fetch_bounded example_fetch /\ metrics_in_range example_own /\
  dict_in_range example_dict /\
  exists a o (k : nat),
    calculate_competition_assessment example_fetch example_own example_dict example_serp
      = Ok a /\
    overall_score_of (competitor_analysis a) = Ok o /\
    (k <= 3)%nat /\ (k <= length (competitor_analysis a))%nat /\
    Forall easy_target (take k (competitor_analysis a)) /\
    ((k < 3)%nat -> Forall (fun c => ~ easy_target c) (drop k (competitor_analysis a))) /\
    recommendations a = strategy_of o ++ target_line (take k (competitor_analysis a)).
Proof.
  split; [exact example_fetch_bounded|]. split; [exact example_own_in_range|].
  split; [exact example_dict_in_range|].
  apply (easiest_targets_are_weakest example_fetch example_own example_dict example_serp).
  - exact example_fetch_bounded.
  - exact example_own_in_range.
  - exact example_dict_in_range.
Defined.

Lemma easiest_line_length (l : list competitor) :
  length (easiest_line l) = if decide (Exists easy_target l) then 1%nat else 0%nat.
Proof.
  unfold easiest_line. fold easy_target.
  change (fun c : competitor => easy_target c) with easy_target.
  destruct (filter easy_target l) as [|c t] eqn:E.
  - rewrite decide_False; [reflexivity|].
    intros H. apply Exists_exists in H. destruct H as (c & Hin & Hc).
    assert (Hf : c ∈ filter easy_target l) by (apply list_elem_of_filter; auto).
    rewrite E in Hf. inversion Hf.
  - rewrite decide_True; [reflexivity|].
    apply Exists_exists. exists c.
    assert (Hf : c ∈ filter easy_target l) by (rewrite E; left).
    apply list_elem_of_filter in Hf. destruct Hf; auto.
Qed.

(** X2: the number of recommendations.  There are three strategy lines
    when the unrounded overall score is at most 60 and four otherwise,
    followed by one more line exactly when some competitor has a stored
    score of at most 40: between three and five entries in all. *)
Theorem recommendations_count fetch (your_domain_metrics : domain_metrics)
    (dict : gmap string domain_metrics) (serp_results : serp) :
  fetch_bounded fetch -> metrics_in_range your_domain_metrics -> dict_in_range dict ->
  exists a o,
    calculate_competition_assessment fetch your_domain_metrics dict serp_results = Ok a /\
    overall_score_of (competitor_analysis a) = Ok o /\
    length (recommendations a) =
      ((if num_le o (PInt 60) then 3 else 4) +
       (if decide (Exists easy_target (competitor_analysis a)) then 1 else 0))%nat /\
    (3 <= length (recommendations a) <= 5)%nat.
Proof.
  intros Hf Hy Hd.
  destruct (calculate_ok fetch your_domain_metrics dict serp_results Hf Hy Hd)
    as (p & unsorted & o & _ & _ & G & _ & Eo & E).
  eexists. exists o. split; [exact E|].
  cbn [competitor_analysis recommendations]. split; [exact Eo|].
  rewrite length_app, strategy_of_length, easiest_line_length.
  split; [reflexivity|].
  destruct (num_le o (PInt 60)); destruct (decide _); lia.
Qed.

Lemma recommendations_count_witness :
  fetch_bounded example_fetch /\ metrics_in_range example_own /\
  dict_in_range example_dict /\
  exists a o,
    calculate_competition_assessment example_fetch example_own example_dict example_serp
      = Ok a /\
    overall_score_of (competitor_analysis a) = Ok o /\
    length (recommendations a) =
      ((if num_le o (PInt 60) then 3 else 4) +
       (if decide (Exists easy_target (competitor_analysis a)) then 1 else 0))%nat /\
    (3 <= length (recommendations a) <= 5)%nat.
Proof.
  split; [exact example_fetch_bounded|]. split; [exact example_own_in_range|].
  split; [exact example_dict_in_range|].
  apply (recommendations_count example_fetch example_own example_dict example_serp).
  - exact example_fetch_bounded.
  - exact example_own_in_range.
  - exact example_dict_in_range.
Defined.

(** ** Competitors without rankings *)

Lemma zero_ratio (your : pynum) (dead : result pynum) (c : Z) :
  exists v,
    (if num_gt your (PInt 0) then
       if num_gt your (PInt 0) then py_truediv (PInt 0) your else dead
     else
       if num_gt (PInt 0) (PInt 0) then py_truediv (PInt 0) (PInt c) else Ok (PInt 0))
    = Ok v /\ zero_score v.
Proof.
  destruct (num_gt your (PInt 0)) eqn:Hy.
  - destruct your as [y|g].
    + apply num_gt_int_0 in Hy. exists (PFloat (S754_zero false)). split; [|right; reflexivity].
      cbn [py_truediv]. unfold int_truediv.
      destruct (Z.eqb_spec y 0); [lia|]. cbn [Z.eqb mbind result_bind].
      destruct (Z.ltb_spec y 0); [lia|]. reflexivity.
    + apply num_gt_float_0 in Hy. exists (PFloat (S754_zero false)). split; [|right; reflexivity].
      destruct Hy as [(m & e & ->) | ->]; reflexivity.
  - exists (PInt 0). split; [reflexivity | left; reflexivity].
Qed.

Lemma weighted_score_zero (r1 r2 r3 : pynum) :
  zero_score r1 -> zero_score r2 -> zero_score r3 ->
  exists s, weighted_score r1 r2 r3 = Ok s /\ zero_score s.
Proof.
  intros [-> | ->] [-> | ->] [-> | ->]; eexists; (split; [vm_compute; reflexivity|]);
    first [left; reflexivity | right; reflexivity].
Qed.

(** X3: a competitor without rankings (each metric 0 or absent) gets the
    score zero and the label WEAK, whatever your own metrics are: also
    when these are negative, infinite, NaN or too large for a double. *)
Theorem no_rankings_scores_zero (you : own_metrics) (metrics : domain_metrics) :
  no_rankings metrics ->
  exists s,
    raw_strength you metrics = Ok s /\ zero_score s /\
    py_round1 s = s /\
    difficulty_of s = "WEAK - Easy to outrank".
Proof.
  intros (E1 & E2 & E3). unfold raw_strength. rewrite E1, E2, E3.
  unfold pos_1_ratio, etv_ratio, keywords_ratio.
  destruct (zero_ratio (your_pos_1 you) (Ok (PInt 0)) 100) as (r1 & -> & Z1).
  destruct (zero_ratio (your_etv you) (py_truediv (PInt 0) (PInt 1000)) 10000) as (r2 & -> & Z2).
  destruct (zero_ratio (your_keywords you) (py_truediv (PInt 0) (PInt 1000)) 5000)
    as (r3 & -> & Z3).
  cbn [mbind result_bind].
  destruct (weighted_score_zero r1 r2 r3 Z1 Z2 Z3) as (s & -> & Zs).
  exists s. split; [reflexivity|]. split; [exact Zs|].
  destruct Zs as [-> | ->]; split; reflexivity.
Qed.

Lemma no_rankings_scores_zero_witness :
  no_rankings zero_metrics /\
  exists s,
    raw_strength (read_own_metrics example_own) zero_metrics = Ok s /\ zero_score s /\
    py_round1 s = s /\
    difficulty_of s = "WEAK - Easy to outrank".
Proof.
  assert (H : no_rankings zero_metrics) by (repeat split; reflexivity).
  split; [exact H|].
  exact (no_rankings_scores_zero (read_own_metrics example_own) zero_metrics H).
Defined.

(** ** Detailed estimates and short result pages *)

Lemma string_length_append (s t : string) :
  String.length (String.append s t) = (String.length s + String.length t)%nat.
Proof.
  induction s as [|a s IH]; [reflexivity|].
  change (String a s +:+ t) with (String a (s +:+ t)).
  cbn [String.length Nat.add]. f_equal. exact IH.
Qed.


Lemma actual_words_are_samples fetch (rs : list serp_result) :
  map est_actual_words (map (detail fetch) rs) = map (sample fetch) rs.
Proof. rewrite map_map. reflexivity. Qed.

Lemma detailed_estimates_eq fetch (serp_results : serp) (p : content_length) :
  estimate_content_length fetch serp_results = Ok p ->
  detailed_estimates p = map (detail fetch) (analyzed serp_results).
Proof.
  unfold estimate_content_length, word_counts_of.
  destruct (analyzed serp_results) as [|r rs]; cbn [map length_statistics].
  - intros [= <-]. reflexivity.
  - destruct (int_truediv _ _) as [avg|]; cbn [mbind result_bind]; [|intros [=]].
    destruct (int_of_float (fmul avg lit_1_1)) as [lo|]; cbn [mbind result_bind]; [|intros [=]].
    destruct (int_of_float (fmul avg lit_1_2)) as [hi|]; cbn [mbind result_bind]; [|intros [=]].
    intros [= <-]. reflexivity.
Qed.

(** The profile of a non-empty SERP, field by field. *)
Lemma estimate_shape fetch (serp_results : serp) :
  fetch_bounded fetch ->
  exists p,
    estimate_content_length fetch serp_results = Ok p /\
    detailed_estimates p = map (detail fetch) (analyzed serp_results) /\
    match word_counts_of fetch serp_results with
    | [] => median p = 3000 /\ min_words p = 1500 /\ max_words p = 5000
    | w :: ws =>
        (exists avg, int_truediv (foldl Z.add 0 (w :: ws)) (Z.of_nat (length (w :: ws)))
                       = Ok avg /\ average p = PFloat avg) /\
        median p = nth (length (py_sort_by id Z.ltb (w :: ws)) / 2)
                       (py_sort_by id Z.ltb (w :: ws)) 0 /\
        min_words p = py_min_list w ws /\ max_words p = py_max_list w ws
    end.
Proof.
  intros Hf. pose proof (samples_range fetch serp_results Hf) as Hr.
  unfold estimate_content_length.
  destruct (word_counts_of fetch serp_results) as [|w ws] eqn:Ew.
  - assert (Ea : analyzed serp_results = []).
    { unfold word_counts_of in Ew. destruct (analyzed serp_results); [reflexivity|discriminate]. }
    rewrite Ea. eexists. split; [reflexivity|]. cbn. auto.
  - assert (Hall : Forall (fun x => 1 <= x < 2 ^ 63) (w :: ws)).
    { eapply Forall_impl; [exact Hr|]. cbn. intros; lia. }
    destruct (length_statistics_ok w ws (map (detail fetch) (analyzed serp_results)) Hall)
      as (qa & ea & V1 & V2 & Ediv & E & _).
    eexists. split; [exact E|]. cbn [detailed_estimates average median min_words max_words].
    split; [reflexivity|]. split; [eauto|]. auto.
Qed.



(** X5: what a detailed estimate says about its page.  It carries the
    position and the domain of its SERP entry; [fetched] is false exactly
    when the fetcher returned nothing, and the count is then 2000.  A page
    fetched with at most 100 words is reported as fetched with 2000 words,
    so the flag does not tell a real count from the fall-back; a count
    other than 2000 is always the real one and above 100. *)
Theorem fallback_hides_short_pages fetch (serp_results : serp) :
  fetch_bounded fetch ->
  exists p,
    estimate_content_length fetch serp_results = Ok p /\
    forall (i : nat) r e,
      analyzed serp_results !! i = Some r -> detailed_estimates p !! i = Some e ->
      let actual_words := fetch (default "" (url r)) in
      est_position e = default 999 (position r) /\
      est_domain e = default "" (domain r) /\
      (est_fetched e = false <-> actual_words = None) /\
      (est_fetched e = false -> est_actual_words e = 2000) /\
      (forall n, actual_words = Some n -> n <= 100 ->
         est_fetched e = true /\ est_actual_words e = 2000) /\
      (forall n, actual_words = Some n -> 100 < n -> est_actual_words e = n) /\
      (est_actual_words e <> 2000 ->
         100 < est_actual_words e /\ actual_words = Some (est_actual_words e)).
Proof.
  intros Hf. destruct (estimate_shape fetch serp_results Hf) as (p & E & D & _).
  exists p. split; [exact E|]. rewrite D.
  intros i r e Hr He aw.
  rewrite list_lookup_fmap, Hr in He. injection He as <-.
  cbn [detail est_position est_domain est_fetched est_actual_words]. fold aw.
  split; [reflexivity|]. split; [reflexivity|].
  assert (Hw : forall n, word_count_of (Some n) = if 100 <? n then n else 2000).
  { intros n. unfold word_count_of. destruct (Z.ltb_spec 100 n), (Z.eqb_spec n 0);
      cbn; try reflexivity; lia. }
  destruct aw as [n|].
  - rewrite Hw. split.
    { split; [|discriminate]. intros H. apply bool_decide_eq_false in H.
      elim H. eexists; reflexivity. }
    split.
    { intros H. apply bool_decide_eq_false in H. elim H. eexists; reflexivity. }
    split.
    { intros n' [= <-] Hn. split; [apply bool_decide_eq_true; eexists; reflexivity|].
      destruct (Z.ltb_spec 100 n); [lia | reflexivity]. }
    split.
    { intros n' [= <-] Hn. destruct (Z.ltb_spec 100 n); [reflexivity | lia]. }
    destruct (Z.ltb_spec 100 n); [auto | congruence].
  - cbn [word_count_of]. split.
    { split; [reflexivity|]. intros _. apply bool_decide_eq_false. intros [x Hx]. discriminate. }
    split; [reflexivity|]. split; [discriminate|]. split; [discriminate|]. congruence.
Qed.

Lemma fallback_hides_short_pages_witness :
  fetch_bounded example_fetch /\
  exists p,
    estimate_content_length example_fetch example_serp = Ok p /\
    forall (i : nat) r e,
      analyzed example_serp !! i = Some r -> detailed_estimates p !! i = Some e ->
      let actual_words := example_fetch (default "" (url r)) in
      est_position e = default 999 (position r) /\
      est_domain e = default "" (domain r) /\
      (est_fetched e = false <-> actual_words = None) /\
      (est_fetched e = false -> est_actual_words e = 2000) /\
      (forall n, actual_words = Some n -> n <= 100 ->
         est_fetched e = true /\ est_actual_words e = 2000) /\
      (forall n, actual_words = Some n -> 100 < n -> est_actual_words e = n) /\
      (est_actual_words e <> 2000 ->
         100 < est_actual_words e /\ actual_words = Some (est_actual_words e)).
Proof.
  split; [exact example_fetch_bounded|].
  exact (fallback_hides_short_pages example_fetch example_serp example_fetch_bounded).
Defined.

Lemma nth_sorted_in (l : list Z) :
  l <> [] -> In (nth (length (py_sort_by id Z.ltb l) / 2) (py_sort_by id Z.ltb l) 0) l.
Proof.
  intros Hne.
  assert (Hp : Permutation l (py_sort_by id Z.ltb l)) by apply py_sort_by_perm.
  apply (Permutation_in _ (Permutation_sym Hp)). apply nth_In.
  rewrite py_sort_by_length. destruct l as [|x l]; [congruence|].
  cbn [length]. apply Nat.div_lt; lia.
Qed.

(** X6: the reported minimum, median and maximum are ordered, and on a
    non-empty SERP each of them is the word count of one of the detailed
    estimates, all of which lie between the minimum and the maximum. *)
Theorem median_between_min_and_max fetch (serp_results : serp) :
  fetch_bounded fetch ->
  exists p,
    estimate_content_length fetch serp_results = Ok p /\
    min_words p <= median p <= max_words p /\
    (analyzed serp_results <> [] ->
     let counts := map est_actual_words (detailed_estimates p) in
     In (min_words p) counts /\ In (median p) counts /\ In (max_words p) counts /\
     Forall (fun x => min_words p <= x <= max_words p) counts).
Proof.
  intros Hf. destruct (estimate_shape fetch serp_results Hf) as (p & E & D & S).
  exists p. split; [exact E|]. rewrite D, actual_words_are_samples.
  fold (word_counts_of fetch serp_results).
  destruct (word_counts_of fetch serp_results) as [|w ws] eqn:Ew.
  - destruct S as (-> & -> & ->). split; [lia|]. intros Hne. exfalso. apply Hne.
    unfold word_counts_of in Ew. destruct (analyzed serp_results); [reflexivity|discriminate].
  - destruct S as (_ & -> & -> & ->).
    destruct (py_min_list_spec w ws) as [Hmi Hma].
    destruct (py_max_list_spec w ws) as [Hxi Hxa].
    pose proof (nth_sorted_in (w :: ws) ltac:(discriminate)) as Hmed.
    assert (Hb : Forall (fun x => py_min_list w ws <= x <= py_max_list w ws) (w :: ws)).
    { rewrite Forall_forall in *. intros x Hx. split; [apply Hma | apply Hxa]; exact Hx. }
    split.
    { rewrite Forall_forall in Hb. apply Hb, list_elem_of_In. exact Hmed. }
    intros _. cbn zeta. auto.
Qed.

Lemma median_between_min_and_max_witness :
  fetch_bounded example_fetch /\
  exists p,
    estimate_content_length example_fetch example_serp = Ok p /\
    min_words p <= median p <= max_words p /\
    (analyzed example_serp <> [] ->
     let counts := map est_actual_words (detailed_estimates p) in
     In (min_words p) counts /\ In (median p) counts /\ In (max_words p) counts /\
     Forall (fun x => min_words p <= x <= max_words p) counts).
Proof.
  split; [exact example_fetch_bounded|].
  exact (median_between_min_and_max example_fetch example_serp example_fetch_bounded).
Defined.

(** X7: a SERP with fewer than four entries.  Every entry is sampled:
    the profile lists [min(4, len(results))] estimates and its average is
    the mean of their word counts (no padding to four samples). *)
Theorem short_serp_uses_every_entry fetch (serp_results : serp) (rs : list serp_result) :
  fetch_bounded fetch ->
  results serp_results = Some rs -> rs <> [] ->
  exists p avg,
    estimate_content_length fetch serp_results = Ok p /\
    length (detailed_estimates p) = Nat.min 4 (length rs) /\
    mean_of_ints (map est_actual_words (detailed_estimates p)) = Ok avg /\
    average p = PFloat avg.
Proof.
  intros Hf Hrs Hne. destruct (estimate_shape fetch serp_results Hf) as (p & E & D & S).
  assert (Ha : analyzed serp_results = take 4 rs) by (unfold analyzed; rewrite Hrs; reflexivity).
  assert (Hc : map est_actual_words (detailed_estimates p) = word_counts_of fetch serp_results).
  { rewrite D, actual_words_are_samples. reflexivity. }
  destruct (word_counts_of fetch serp_results) as [|w ws] eqn:Ew.
  - exfalso. unfold word_counts_of in Ew. rewrite Ha in Ew.
    destruct rs; [congruence | discriminate].
  - destruct S as ((avg & Ediv & Eavg) & _).
    exists p, avg. split; [exact E|]. split.
    { rewrite D, length_map, Ha, length_take. lia. }
    split; [|exact Eavg]. rewrite Hc. unfold mean_of_ints.
    rewrite <- Ediv, foldl_add_foldr. f_equal.
Qed.

Lemma short_serp_uses_every_entry_witness :
  fetch_bounded example_fetch /\
  results short_serp = Some (take 2 example_results) /\ take 2 example_results <> [] /\
  exists p avg,
    estimate_content_length example_fetch short_serp = Ok p /\
    length (detailed_estimates p) = Nat.min 4 (length (take 2 example_results)) /\
    mean_of_ints (map est_actual_words (detailed_estimates p)) = Ok avg /\
    average p = PFloat avg.
Proof.
  split; [exact example_fetch_bounded|]. split; [reflexivity|].
  assert (H : take 2 example_results <> []) by discriminate.
  split; [exact H|].
  exact (short_serp_uses_every_entry example_fetch short_serp (take 2 example_results)
           example_fetch_bounded eq_refl H).
Defined.

Lemma fallback_statistics (k : nat) (details : list estimate) :
  (1 <= k <= 4)%nat ->
  length_statistics (replicate k 2000) details =
    Ok {| average := PFloat f_2000;
          median := 2000;
          min_words := 2000;
          max_words := 2000;
          recommended_min := 2200;
          recommended_max := 2400;
          detailed_estimates := details |}.
Proof.
  intros Hk.
  assert (Hc : k = 1%nat \/ k = 2%nat \/ k = 3%nat \/ k = 4%nat) by lia.
  destruct Hc as [-> | [-> | [-> | ->]]]; reflexivity.
Qed.

(** X8: when no analysed page yields more than 100 words (every fetch
    fails or returns a stub), the profile is the one of the fall-back:
    average 2000.0, median, minimum and maximum 2000, and the recommended
    length is 2200 to 2400 words, for one to four analysed entries. *)
Theorem unfetchable_pages_band fetch (serp_results : serp) :
  analyzed serp_results <> [] ->
  Forall (fun r => forall n, fetch (default "" (url r)) = Some n -> n <= 100)
         (analyzed serp_results) ->
  exists p,
    estimate_content_length fetch serp_results = Ok p /\
    average p = PFloat f_2000 /\ median p = 2000 /\
    min_words p = 2000 /\ max_words p = 2000 /\
    recommended_min p = 2200 /\ recommended_max p = 2400.
Proof.
  intros Hne Hall. unfold estimate_content_length.
  assert (Hw : word_counts_of fetch serp_results
               = replicate (length (analyzed serp_results)) 2000).
  { unfold word_counts_of. clear Hne. induction Hall as [|r rs Hr _ IH]; [reflexivity|].
    cbn [map length replicate]. f_equal; [|exact IH].
    unfold sample. apply word_count_of_fallback.
    destruct (fetch (default "" (url r))) as [n|]; [right|left; reflexivity].
    exists n. split; [reflexivity|]. apply Hr. reflexivity. }
  rewrite Hw, fallback_statistics.
  - eexists. split; [reflexivity|]. cbn. auto 10.
  - split.
    + destruct (analyzed serp_results); [congruence | cbn [length]; lia].
    + unfold analyzed. rewrite length_take. lia.
Qed.

Lemma unfetchable_pages_band_witness :
  analyzed short_serp <> [] /\
  Forall (fun r => forall n, (fun _ => None) (default "" (url r)) = Some n -> n <= 100)
         (analyzed short_serp) /\
  exists p,
    estimate_content_length (fun _ => None) short_serp = Ok p /\
    average p = PFloat f_2000 /\ median p = 2000 /\
    min_words p = 2000 /\ max_words p = 2000 /\
    recommended_min p = 2200 /\ recommended_max p = 2400.
Proof.
  assert (H1 : analyzed short_serp <> []) by discriminate.
  assert (H2 : Forall (fun r => forall n, (fun _ : string => @None Z) (default "" (url r)) = Some n
                                 -> n <= 100) (analyzed short_serp)).
  { apply Forall_forall. intros r _ n. discriminate. }
  split; [exact H1|]. split; [exact H2|].
  exact (unfetchable_pages_band (fun _ => None) short_serp H1 H2).
Defined.

(** ** Cleaning of domain names *)

Lemma append_cons (c : Ascii.ascii) (a s : string) : String c a +:+ s = String c (a +:+ s).
Proof. reflexivity. Qed.

Lemma append_nil_l (s : string) : "" +:+ s = s.
Proof. reflexivity. Qed.

Lemma append_nil_r (s : string) : s +:+ "" = s.
Proof. induction s as [|c s IH]; [reflexivity|]. rewrite append_cons, IH. reflexivity. Qed.

Lemma append_assoc (a b c : string) : (a +:+ b) +:+ c = a +:+ (b +:+ c).
Proof. induction a as [|x a IH]; [reflexivity|]. rewrite !append_cons, IH. reflexivity. Qed.

Lemma index_cons_none (p : string) (c : Ascii.ascii) (s : string) :
  String.index 0 p (String c s) = None ->
  String.prefix p (String c s) = false /\ String.index 0 p s = None.
Proof.
  cbn [String.index]. destruct (String.prefix p (String c s)); [discriminate|].
  destruct (String.index 0 p s); [discriminate|]. auto.
Qed.

Lemma index_none_suffix (p a b : string) :
  String.index 0 p (a +:+ b) = None -> b <> "" -> String.index 0 p b = None.
Proof.
  induction a as [|c a IH]; intros H Hb; [exact H|].
  rewrite append_cons in H. apply index_cons_none in H. apply IH; [apply H | exact Hb].
Qed.

Lemma prefix_append (p s : string) : String.prefix p (p +:+ s) = true.
Proof.
  induction p as [|c p IH]; [destruct s; reflexivity|].
  rewrite append_cons. cbn [String.prefix].
  destruct (Ascii.ascii_dec c c); [exact IH | congruence].
Qed.

Lemma replace_skip (old new a s : string) :
  replace_from old new (String.length a) (a +:+ s) = replace_from old new 0 s.
Proof.
  induction a as [|c a IH]; [reflexivity|].
  rewrite append_cons. cbn [String.length replace_from]. exact IH.
Qed.

Lemma replace_match (c : Ascii.ascii) (old' new s : string) :
  py_replace (String c old') new (String c old' +:+ s) = new +:+ py_replace (String c old') new s.
Proof.
  unfold py_replace. rewrite append_cons. cbn [replace_from].
  rewrite <- append_cons, prefix_append.
  cbn [String.length].
  replace (S (String.length old') - 1)%nat with (String.length old') by lia.
  rewrite replace_skip. reflexivity.
Qed.

Lemma replace_nomatch (old new : string) (c : Ascii.ascii) (s : string) :
  String.prefix old (String c s) = false ->
  py_replace old new (String c s) = String c (py_replace old new s).
Proof. unfold py_replace. cbn [replace_from]. intros ->. reflexivity. Qed.

(** A stretch in which no occurrence of [old] starts is copied. *)
Lemma replace_free (old new h t : string) :
  (forall a b, h = a +:+ b -> b <> "" -> String.prefix old (b +:+ t) = false) ->
  py_replace old new (h +:+ t) = h +:+ py_replace old new t.
Proof.
  induction h as [|c h IH]; intros H; [reflexivity|].
  rewrite !append_cons. rewrite replace_nomatch.
  - f_equal. apply IH. intros a b -> Hb. apply (H (String c a) b); [reflexivity | exact Hb].
  - rewrite <- append_cons. apply (H "" (String c h)); [reflexivity | discriminate].
Qed.

Lemma path_like_replace (old : string) (t : string) :
  (forall x, String.prefix old ("/" +:+ x) = false) ->
  path_like t -> path_like (py_replace old "" t).
Proof.
  intros H [-> | (x & ->)]; [left; reflexivity|].
  right. change ("/" +:+ x) with (String (Ascii.ascii_of_nat 47) x).
  rewrite replace_nomatch by apply H. eexists. reflexivity.
Qed.

Ltac match_char :=
  rewrite append_cons; cbn [String.prefix];
  match goal with
  | |- (match Ascii.ascii_dec ?p ?c with left _ => _ | right _ => _ end) = false =>
      destruct (Ascii.ascii_dec p c) as [<- | _]; [|reflexivity]
  end.

Ltac step_prefix b Hs :=
  destruct b as [|?c b];
  [destruct Hs as [-> | (?x & ->)]; reflexivity|];
  match_char.

Lemma no_https_in_host (b t : string) :
  b <> "" -> String.index 0 ":" b = None -> path_like t ->
  String.prefix "https://" (b +:+ t) = false.
Proof.
  intros Hb Hc Ht. destruct b as [|c b]; [congruence|]. clear Hb.
  match_char.
  step_prefix b Ht. step_prefix b Ht. step_prefix b Ht. step_prefix b Ht. step_prefix b Ht.
  exfalso. revert Hc. cbn. destruct b; discriminate.
Qed.

Lemma no_http_in_host (b t : string) :
  b <> "" -> String.index 0 ":" b = None -> path_like t ->
  String.prefix "http://" (b +:+ t) = false.
Proof.
  intros Hb Hc Ht. destruct b as [|c b]; [congruence|]. clear Hb.
  match_char.
  step_prefix b Ht. step_prefix b Ht. step_prefix b Ht. step_prefix b Ht.
  exfalso. revert Hc. cbn. destruct b; discriminate.
Qed.

Lemma no_www_in_host (b t : string) :
  b <> "" -> String.index 0 "www." b = None -> path_like t ->
  String.prefix "www." (b +:+ t) = false.
Proof.
  intros Hb Hc Ht. destruct b as [|c b]; [congruence|]. clear Hb.
  match_char.
  step_prefix b Ht. step_prefix b Ht. step_prefix b Ht.
  exfalso. revert Hc. cbn. destruct b; discriminate.
Qed.

(** Each of the three replacements leaves a host and what follows it alone. *)
Lemma replace_host (old h t : string) :
  (forall b t', b <> "" -> String.index 0 ":" b = None /\ String.index 0 "www." b = None ->
                path_like t' -> String.prefix old (b +:+ t') = false) ->
  (forall x, String.prefix old ("/" +:+ x) = false) ->
  host_like h -> path_like t ->
  exists t', py_replace old "" (h +:+ t) = h +:+ t' /\ path_like t'.
Proof.
  intros Hold Hsl (Hne & Hs & Hc & Hw) Ht.
  exists (py_replace old "" t). split; [|apply path_like_replace; assumption].
  apply replace_free. intros a b -> Hb. apply Hold; [exact Hb | | exact Ht].
  split; eapply index_none_suffix; eassumption.
Qed.

Lemma first_piece_of_host (h t : string) :
  String.index 0 "/" h = None -> path_like t ->
  hd "" (py_split "/" (h +:+ t)) = h.
Proof.
  intros Hs Ht. unfold py_split.
  assert (H : fst (split_from "/" 0 (h +:+ t)) = h).
  { induction h as [|c h IH].
    - destruct Ht as [-> | (x & ->)]; [reflexivity|].
      rewrite append_nil_l, append_cons, append_nil_l. cbn [split_from String.prefix].
      destruct (Ascii.ascii_dec _ _) as [_|Hn]; [|congruence].
      destruct x; cbn [String.length Nat.sub]; destruct (split_from "/" _ _); reflexivity.
    - apply index_cons_none in Hs. destruct Hs as [Hp Hs].
      rewrite append_cons. cbn [split_from].
      assert (Hp' : String.prefix "/" (String c (h +:+ t)) = false).
      { revert Hp. cbn [String.prefix]. destruct (Ascii.ascii_dec _ c); [|reflexivity].
        intros Hp. exfalso. destruct h; discriminate Hp. }
      rewrite Hp'. specialize (IH Hs).
      destruct (split_from "/" 0 (h +:+ t)). cbn in *. congruence. }
  destruct (split_from "/" 0 (h +:+ t)). exact H.
Qed.

Ltac copy_chars :=
  rewrite ?append_cons, ?append_nil_l;
  repeat (rewrite replace_nomatch by reflexivity).

Lemma replace_https_host (www h t : string) :
  www = "" \/ www = "www." -> host_like h -> path_like t ->
  exists t', py_replace "https://" "" (www +:+ h +:+ t) = www +:+ h +:+ t' /\ path_like t'.
Proof.
  intros Hw Hh Ht.
  destruct (replace_host "https://" h t) as (t' & E & Ht'); try assumption.
  { intros b t0 Hb [Hc _] Ht0. apply no_https_in_host; assumption. }
  { intros x. reflexivity. }
  exists t'. split; [|exact Ht'].
  destruct Hw as [-> | ->]; copy_chars; rewrite E; reflexivity.
Qed.

Lemma replace_http_host (www h t : string) :
  www = "" \/ www = "www." -> host_like h -> path_like t ->
  exists t', py_replace "http://" "" (www +:+ h +:+ t) = www +:+ h +:+ t' /\ path_like t'.
Proof.
  intros Hw Hh Ht.
  destruct (replace_host "http://" h t) as (t' & E & Ht'); try assumption.
  { intros b t0 Hb [Hc _] Ht0. apply no_http_in_host; assumption. }
  { intros x. reflexivity. }
  exists t'. split; [|exact Ht'].
  destruct Hw as [-> | ->]; copy_chars; rewrite E; reflexivity.
Qed.

Lemma replace_www_host (www h t : string) :
  www = "" \/ www = "www." -> host_like h -> path_like t ->
  exists t', py_replace "www." "" (www +:+ h +:+ t) = h +:+ t' /\ path_like t'.
Proof.
  intros Hw Hh Ht.
  destruct (replace_host "www." h t) as (t' & E & Ht'); try assumption.
  { intros b t0 Hb [_ Hc] Ht0. apply no_www_in_host; assumption. }
  { intros x. reflexivity. }
  exists t'. split; [|exact Ht'].
  destruct Hw as [-> | ->].
  - rewrite append_nil_l. exact E.
  - rewrite replace_match, append_nil_l. exact E.
Qed.

(** A URL of a host is cleaned to the host. *)
Lemma url_cleans_to_host (scheme www h t : string) :
  scheme = "" \/ scheme = "http://" \/ scheme = "https://" ->
  www = "" \/ www = "www." ->
  host_like h -> path_like t ->
  clean_domain (scheme +:+ www +:+ h +:+ t) = h.
Proof.
  intros Hs Hw Hh Ht. unfold clean_domain.
  destruct (replace_https_host www h t Hw Hh Ht) as (t1 & E1 & Ht1).
  destruct (replace_http_host www h t1 Hw Hh Ht1) as (t2 & E2 & Ht2).
  destruct (replace_www_host www h t2 Hw Hh Ht2) as (t3 & E3 & Ht3).
  assert (E : py_replace "http://" "" (py_replace "https://" "" (scheme +:+ www +:+ h +:+ t))
              = www +:+ h +:+ t2).
  { destruct Hs as [-> | [-> | ->]].
    - rewrite append_nil_l, E1. exact E2.
    - assert (E0 : py_replace "https://" "" ("http://" +:+ www +:+ h +:+ t)
                   = "http://" +:+ py_replace "https://" "" (www +:+ h +:+ t)).
      { rewrite !append_cons, append_nil_l.
        repeat (rewrite replace_nomatch by reflexivity). reflexivity. }
      rewrite E0, E1, replace_match, append_nil_l. exact E2.
    - rewrite replace_match, append_nil_l, E1. exact E2. }
  rewrite E, E3. apply first_piece_of_host; [apply Hh | exact Ht3].
Qed.

(** X10: cleaning reduces a URL to its host.  For a host without
    [/], [:] and [www.], an optional scheme [http://] or [https://], an
    optional [www.] and an optional path, the cleaned name is the host;
    a bare host is left as it is. *)
Theorem clean_domain_of_url (scheme www h t : string) :
  scheme = "" \/ scheme = "http://" \/ scheme = "https://" ->
  www = "" \/ www = "www." ->
  host_like h -> path_like t ->
  clean_domain (scheme +:+ www +:+ h +:+ t) = h.
Proof. apply url_cleans_to_host. Qed.

Lemma clean_domain_of_url_witness :
  ("https://" = "" \/ "https://" = "http://" \/ "https://" = "https://") /\
  ("www." = "" \/ "www." = "www.") /\
  host_like "example.com" /\ path_like "/blog/post?id=1" /\
  clean_domain ("https://" +:+ "www." +:+ "example.com" +:+ "/blog/post?id=1") = "example.com".
Proof.
  assert (H1 : "https://" = "" \/ "https://" = "http://" \/ "https://" = "https://")
    by (right; right; reflexivity).
  assert (H2 : "www." = "" \/ "www." = "www.") by (right; reflexivity).
  assert (H3 : host_like "example.com").
  { split; [discriminate|]. repeat split; reflexivity. }
  assert (H4 : path_like "/blog/post?id=1") by (right; eexists; reflexivity).
  split; [exact H1|]. split; [exact H2|]. split; [exact H3|]. split; [exact H4|].
  exact (clean_domain_of_url "https://" "www." "example.com" "/blog/post?id=1" H1 H2 H3 H4).
Defined.

Lemma first_piece_no_slash (skip : nat) (s : string) :
  String.index 0 "/" (fst (split_from "/" skip s)) = None.
Proof.
  revert skip. induction s as [|c s IH]; intros skip; [reflexivity|].
  cbn [split_from]. destruct skip as [|k]; [|apply IH].
  destruct (String.prefix "/" (String c s)) eqn:Hp.
  - destruct (split_from "/" _ s). reflexivity.
  - specialize (IH 0%nat). destruct (split_from "/" 0 s) as [piece pieces].
    cbn [fst] in *. cbn [String.index].
    assert (Hp' : String.prefix "/" (String c piece) = false).
    { revert Hp. cbn [String.prefix]. destruct (Ascii.ascii_dec _ c); [|reflexivity].
      intros Hp. exfalso. destruct s; discriminate Hp. }
    rewrite Hp', IH. reflexivity.
Qed.

Lemma clean_domain_no_slash (d : string) : String.index 0 "/" (clean_domain d) = None.
Proof.
  unfold clean_domain, py_split.
  pose proof (first_piece_no_slash 0
    (py_replace "www." "" (py_replace "http://" "" (py_replace "https://" "" d)))) as H.
  destruct (split_from "/" 0 _). exact H.
Qed.

(** X9: the targets sent to the domain-rank endpoint.  No target is
    empty, none contains a slash; the targets are the non-empty cleaned
    names of the given domains, in their order, so there are at most as
    many targets as domains. *)
Theorem cleaned_targets (domains : list string) :
  Forall (fun target => target <> "" /\ String.index 0 "/" target = None)
         (clean_domains domains) /\
  clean_domains domains = List.filter (fun clean => negb (String.eqb clean ""))
                                      (map clean_domain domains) /\
  (length (clean_domains domains) <= length domains)%nat.
Proof.
  induction domains as [|d ds (IH1 & IH2 & IH3)]; [repeat split; constructor|].
  cbn [clean_domains map List.filter length].
  destruct (String.eqb_spec (clean_domain d) "") as [He|Hne]; cbn [negb].
  - split; [exact IH1|]. split; [exact IH2 | lia].
  - split; [|split; [f_equal; exact IH2 | cbn [length]; lia]].
    constructor; [|exact IH1]. split; [exact Hne | apply clean_domain_no_slash].
Qed.

(** ** Assessments without competitors *)

Lemma analyze_result_unmatched (you : own_metrics) (dict : gmap string domain_metrics)
    (r : serp_result) :
  matched dict r = None -> analyze_result you dict r = Ok None.
Proof.
  unfold matched, analyze_result. destruct (domain r) as [d|]; [|reflexivity].
  destruct (String.eqb d ""); [reflexivity|]. cbn [negb].
  destruct (dict !! d); [discriminate | reflexivity].
Qed.

Lemma analyze_results_unmatched (you : own_metrics) (dict : gmap string domain_metrics)
    (rs : list serp_result) :
  Forall (fun r => matched dict r = None) rs -> analyze_results you dict rs = Ok [].
Proof.
  induction 1 as [|r rs Hr _ IH]; [reflexivity|].
  cbn [analyze_results]. rewrite (analyze_result_unmatched you dict r Hr), IH. reflexivity.
Qed.

(** Without a matching entry the assessment is the one of an empty result page. *)
Lemma unmatched_assessment fetch (your_domain_metrics : domain_metrics)
    (dict : gmap string domain_metrics) (serp_results : serp) :
  fetch_bounded fetch ->
  Forall (fun r => matched dict r = None) (default [] (results serp_results)) ->
  exists a,
    calculate_competition_assessment fetch your_domain_metrics dict serp_results = Ok a /\
    competitor_analysis a = [] /\
    overall_score a = PInt 0 /\
    verdict a = "LOW COMPETITION - Excellent opportunity" /\
    target_position a = "1-3" /\
    recommendations a =
      ["Focus on content quality - competitors are weak";
       "Quick wins possible with on-page optimization";
       "Build topical authority in this niche"].
Proof.
  intros Hf Hall.
  destruct (estimate_content_length_ok fetch serp_results Hf) as (p & Ep & _).
  unfold calculate_competition_assessment.
  rewrite Ep. cbn [mbind result_bind].
  rewrite (analyze_results_unmatched _ dict _ Hall). cbn [mbind result_bind].
  eexists. split; [reflexivity|]. cbn. auto 10.
Qed.

(** X11: when no SERP entry has matching authority metrics (the SERP is
    empty or missing, or the metrics could not be fetched), the assessment
    is still returned, with an empty competitor list and score 0, and it
    reads as the most favourable case: verdict LOW COMPETITION, target
    position 1-3 and the three recommendations for weak competitors. *)
Theorem no_match_reads_as_low_competition fetch (your_domain_metrics : domain_metrics)
    (dict : gmap string domain_metrics) (serp_results : serp) :
  fetch_bounded fetch ->
  Forall (fun r => matched dict r = None) (default [] (results serp_results)) ->
  exists a,
    calculate_competition_assessment fetch your_domain_metrics dict serp_results = Ok a /\
    competitor_analysis a = [] /\
    overall_score a = PInt 0 /\
    verdict a = "LOW COMPETITION - Excellent opportunity" /\
    target_position a = "1-3" /\
    recommendations a =
      ["Focus on content quality - competitors are weak";
       "Quick wins possible with on-page optimization";
       "Build topical authority in this niche"].
Proof. apply unmatched_assessment. Qed.

Lemma no_match_reads_as_low_competition_witness :
  fetch_bounded example_fetch /\
  Forall (fun r => matched (∅ : gmap string domain_metrics) r = None)
         (default [] (results example_serp)) /\
  exists a,
    calculate_competition_assessment example_fetch example_own ∅ example_serp = Ok a /\
    competitor_analysis a = [] /\
    overall_score a = PInt 0 /\
    verdict a = "LOW COMPETITION - Excellent opportunity" /\
    target_position a = "1-3" /\
    recommendations a =
      ["Focus on content quality - competitors are weak";
       "Quick wins possible with on-page optimization";
       "Build topical authority in this niche"].
Proof.
  assert (H : Forall (fun r => matched (∅ : gmap string domain_metrics) r = None)
                     (default [] (results example_serp))).
  { repeat constructor. }
  split; [exact example_fetch_bounded|]. split; [exact H|].
  exact (no_match_reads_as_low_competition example_fetch example_own ∅ example_serp
           example_fetch_bounded H).
Defined.

(** ** Fetching domain metrics *)

Lemma record_reply_spec (r : reply response) (collected collected' : gmap string domain_metrics) :
  record_reply r collected = Some collected' ->
  collected' = collected \/
  exists d entry, stores r d entry /\ collected' = <[d := entry]> collected /\
                  in_range (get0 (etv entry)).
Proof.
  unfold record_reply. destruct r as [| |data]; [intros [= <-]; auto | discriminate |].
  destruct (r_tasks data) as [|task ?] eqn:Et; [intros [= <-]; auto|].
  destruct (bool_decide (t_status_code task = Some 20000)) eqn:Es; cbn [negb];
    [|intros [= <-]; auto].
  apply bool_decide_eq_true in Es.
  destruct (t_result task) as [|item ?] eqn:Er; [intros [= <-]; auto|].
  destruct (ri_items item) as [|mi ?] eqn:Ei; [intros [= <-]; auto|].
  destruct (ri_target item) as [d|] eqn:Ed; [|intros [= <-]; auto].
  destruct (String.eqb_spec d "") as [|Hne]; [intros [= <-]; auto|].
  set (entry := stored_entry _).
  destruct (format_fixed (get0 (etv entry))) as [u|e] eqn:Ef; [|discriminate].
  intros [= <-]. right. exists d, entry. split; [|split; [reflexivity|]].
  - exists data, task, item, mi. rewrite Et, Er, Ei. cbn [head]. auto 10.
  - unfold format_fixed in Ef. destruct (get0 (etv entry)) as [z|f]; [|exact I].
    cbn [to_float] in Ef. unfold float_of_int in Ef. cbn [in_range].
    destruct (Z.ltb_spec (Z.abs z) dbl_overflow); [assumption | discriminate].
Qed.

(** What the loop has collected comes from the start or from a reply. *)
Lemma request_all_spec (post : nat -> string -> reply response) (targets : list string) :
  forall (idx : nat) (collected result : gmap string domain_metrics),
    request_all post idx targets collected = Some result ->
    forall d entry, result !! d = Some entry ->
      collected !! d = Some entry \/
      exists (i : nat) clean,
        targets !! i = Some clean /\ stores (post (idx + i)%nat clean) d entry /\
        in_range (get0 (etv entry)).
Proof.
  induction targets as [|t ts IH]; intros idx collected result; cbn [request_all].
  - intros [= <-] d entry H. left. exact H.
  - destruct (record_reply (post idx t) collected) as [c'|] eqn:Er; [|discriminate].
    intros Hr d entry Hd. destruct (IH _ _ _ Hr d entry Hd) as [Hc | (i & clean & Hi & Hs & Hrg)].
    + apply record_reply_spec in Er. destruct Er as [-> | (d' & e' & Hs & -> & Hrg)]; [auto|].
      destruct (decide (d' = d)) as [->|Hne].
      * rewrite lookup_insert_eq in Hc. injection Hc as <-. right. exists 0%nat, t.
        rewrite Nat.add_0_r. auto.
      * rewrite lookup_insert_ne in Hc by exact Hne. auto.
    + right. exists (S i), clean. replace (idx + S i)%nat with (S idx + i)%nat by lia. auto.
Qed.

Lemma get_domain_metrics_spec (post : nat -> string -> reply response) (domains : list string)
    (d : string) (entry : domain_metrics) :
  get_domain_metrics post domains !! d = Some entry ->
  exists (i : nat) clean,
    clean_domains domains !! i = Some clean /\ stores (post i clean) d entry /\
    in_range (get0 (etv entry)).
Proof.
  unfold get_domain_metrics.
  destruct (request_all post 0 (clean_domains domains) ∅) as [result|] eqn:E; cbn [default].
  - intros H. destruct (request_all_spec post _ _ _ _ E d entry H) as [H0 | H1].
    + rewrite lookup_empty in H0. discriminate.
    + exact H1.
  - rewrite lookup_empty. discriminate.
Qed.

(** X12: every entry of the returned metrics was stored from a reply.
    The key is the non-empty [target] that the reply to one of the cleaned
    names carries, under status code 20000; the entry holds [pos_1], [etv]
    and [keywords] (0 where the reply has none), so the assessment never
    falls back on its own defaults for a fetched domain, and its [etv] is
    within the range of a double. *)
Theorem metrics_come_from_replies (post : nat -> string -> reply response) (domains : list string)
    (d : string) (entry : domain_metrics) :
  get_domain_metrics post domains !! d = Some entry ->
  d <> "" /\
  is_Some (pos_1 entry) /\ is_Some (etv entry) /\ is_Some (keywords entry) /\
  in_range (get0 (etv entry)) /\
  exists (i : nat) clean,
    clean_domains domains !! i = Some clean /\ stores (post i clean) d entry.
Proof.
  intros H. destruct (get_domain_metrics_spec post domains d entry H)
    as (i & clean & Hi & Hs & Hr).
  assert (Hs' := Hs).
  destruct Hs' as (data & task & item & mi & _ & _ & _ & _ & _ & _ & Hne & ->).
  split; [exact Hne|]. cbn [stored_entry pos_1 etv keywords].
  repeat (split; [eexists; reflexivity|]). split; [exact Hr|]. eauto.
Qed.

Lemma metrics_come_from_replies_witness :
  exists entry,
    get_domain_metrics example_post ["https://www.a.example/page"; "io.net"] !! "a.example"
      = Some entry /\
    "a.example" <> "" /\
    is_Some (pos_1 entry) /\ is_Some (etv entry) /\ is_Some (keywords entry) /\
    in_range (get0 (etv entry)) /\
    exists (i : nat) clean,
      clean_domains ["https://www.a.example/page"; "io.net"] !! i = Some clean /\
      stores (example_post i clean) "a.example" entry.
Proof.
  eexists. split; [vm_compute; reflexivity|].
  apply (metrics_come_from_replies example_post ["https://www.a.example/page"; "io.net"]).
  vm_compute. reflexivity.
Defined.

Lemma host_like_not_www (h h' : string) : host_like h -> h <> "www." +:+ h'.
Proof.
  intros (_ & _ & _ & Hw) ->. revert Hw. rewrite append_cons.
  cbn [String.index]. rewrite <- append_cons, prefix_append. discriminate.
Qed.

Lemma clean_domains_in (domains : list string) (c : string) :
  c ∈ clean_domains domains -> exists d, d ∈ domains /\ c = clean_domain d.
Proof.
  induction domains as [|d ds IH]; cbn [clean_domains]; [intros H; inversion H|].
  destruct (String.eqb (clean_domain d) "").
  - intros H. destruct (IH H) as (d' & Hin & E). exists d'. split; [right; exact Hin | exact E].
  - intros H. apply elem_of_cons in H. destruct H as [-> | H].
    + exists d. split; [left | reflexivity].
    + destruct (IH H) as (d' & Hin & E). exists d'. split; [right; exact Hin | exact E].
Qed.

(** Keys are cleaned names; a name with [www.] in front of a host is none. *)
Lemma www_unmatched (post : nat -> string -> reply response) (domains : list string) :
  echoes post ->
  (forall d, is_Some (get_domain_metrics post domains !! d) -> d ∈ clean_domains domains) /\
  (Forall url_like domains ->
   forall h, host_like h ->
     get_domain_metrics post domains !! ("www." +:+ h) = None /\
     forall you r, domain r = Some ("www." +:+ h) ->
       analyze_result you (get_domain_metrics post domains) r = Ok None).
Proof.
  intros He.
  assert (Hk : forall d, is_Some (get_domain_metrics post domains !! d) ->
                         d ∈ clean_domains domains).
  { intros d [entry H]. destruct (get_domain_metrics_spec post domains d entry H)
      as (i & clean & Hi & Hs & _).
    rewrite (He _ _ _ _ Hs). eapply list_elem_of_lookup_2. exact Hi. }
  split; [exact Hk|]. intros Hu h Hh.
  assert (Hn : get_domain_metrics post domains !! ("www." +:+ h) = None).
  { destruct (get_domain_metrics post domains !! ("www." +:+ h)) as [entry|] eqn:E;
      [|reflexivity].
    exfalso. assert (Hin : ("www." +:+ h) ∈ clean_domains domains) by (apply Hk; eauto).
    apply clean_domains_in in Hin. destruct Hin as (d & Hd & Ec).
    rewrite Forall_forall in Hu. destruct (Hu d Hd) as (s & w & h0 & t & -> & Hs & Hw & Hh0 & Ht).
    rewrite (url_cleans_to_host s w h0 t Hs Hw Hh0 Ht) in Ec.
    symmetry in Ec. exact (host_like_not_www h0 h Hh0 Ec). }
  split; [exact Hn|]. intros you r Hr. apply analyze_result_unmatched.
  unfold matched. rewrite Hr. destruct (String.eqb _ ""); [reflexivity|]. rewrite Hn. reflexivity.
Qed.

(** X13: metrics are keyed by the cleaned name, the assessment looks them
    up by the name on the result page.  When the endpoint names in
    [target] the domain it was asked about, every key of the returned
    metrics is one of the cleaned names.  For domains given as hosts or
    URLs, no key begins with [www.]: a result whose domain is [www.]
    followed by a host has no metrics, and the assessment passes it over
    as it does an unknown domain. *)
Theorem www_domains_never_match (post : nat -> string -> reply response) (domains : list string) :
  echoes post ->
  (forall d, is_Some (get_domain_metrics post domains !! d) -> d ∈ clean_domains domains) /\
  (Forall url_like domains ->
   forall h, host_like h ->
     get_domain_metrics post domains !! ("www." +:+ h) = None /\
     forall you r, domain r = Some ("www." +:+ h) ->
       analyze_result you (get_domain_metrics post domains) r = Ok None).
Proof. apply www_unmatched. Qed.

Lemma example_post_echoes : echoes example_post.
Proof.
  intros idx clean d entry (data & task & item & mi & E & Ht & _ & Hr & _ & Hd & _).
  unfold example_post, metrics_reply in E.
  destruct (String.eqb clean "a.example"); [|destruct (String.eqb clean "io.net")];
    [injection E as <- | injection E as <- | discriminate];
    cbn in Ht; injection Ht as <-; cbn in Hr; injection Hr as <-; cbn in Hd; congruence.
Qed.

Lemma www_domains_never_match_witness :
  echoes example_post /\
  (forall d,
     is_Some (get_domain_metrics example_post ["www.a.example"; "io.net"] !! d) ->
     d ∈ clean_domains ["www.a.example"; "io.net"]) /\
  (Forall url_like ["www.a.example"; "io.net"] ->
   forall h, host_like h ->
     get_domain_metrics example_post ["www.a.example"; "io.net"] !! ("www." +:+ h) = None /\
     forall you r, domain r = Some ("www." +:+ h) ->
       analyze_result you (get_domain_metrics example_post ["www.a.example"; "io.net"]) r
         = Ok None).
Proof.
  split; [exact example_post_echoes|].
  exact (www_domains_never_match example_post ["www.a.example"; "io.net"] example_post_echoes).
Defined.

Lemma request_all_aborts (post : nat -> string -> reply response) (targets : list string) :
  forall (idx i : nat) clean (collected : gmap string domain_metrics),
    targets !! i = Some clean -> post (idx + i)%nat clean = OtherException ->
    request_all post idx targets collected = None.
Proof.
  induction targets as [|t ts IH]; intros idx i clean collected Hi Hp; [discriminate|].
  cbn [request_all]. destruct i as [|i].
  - injection Hi as ->. rewrite Nat.add_0_r in Hp. rewrite Hp. reflexivity.
  - destruct (record_reply (post idx t) collected) as [c'|]; [|reflexivity].
    apply (IH (S idx) i clean); [exact Hi|].
    replace (S idx + i)%nat with (idx + S i)%nat by lia. exact Hp.
Qed.

(** X14: one unexpected error discards everything.  If any request ends
    in an exception other than a [RequestException], the function returns
    the empty dictionary, whatever the other requests returned before or
    would have returned after it. *)
Theorem unexpected_error_discards_everything (post : nat -> string -> reply response)
    (domains : list string) (i : nat) (clean : string) :
  clean_domains domains !! i = Some clean ->
  post i clean = OtherException ->
  get_domain_metrics post domains = ∅.
Proof.
  intros Hi Hp. unfold get_domain_metrics.
  rewrite (request_all_aborts post _ 0 i clean ∅ Hi Hp). reflexivity.
Qed.

Lemma unexpected_error_discards_everything_witness :
  clean_domains ["a.example"; "b.example"] !! 1%nat = Some "b.example" /\
  (fun (idx : nat) target =>
     if String.eqb target "b.example" then OtherException else example_post idx target)
    1%nat "b.example" = OtherException /\
  get_domain_metrics
    (fun idx target =>
       if String.eqb target "b.example" then OtherException else example_post idx target)
    ["a.example"; "b.example"] = ∅.
Proof.
  split; [reflexivity|]. split; [reflexivity|].
  apply (unexpected_error_discards_everything _ ["a.example"; "b.example"] 1 "b.example");
    reflexivity.
Defined.

(** ** From the result page to the verdict *)

Lemma first_pass_spec (serp_items : list serp_item) :
  fst (first_pass serp_items) = map format_item (List.filter is_organic serp_items) /\
  forall x, x ∈ snd (first_pass serp_items) <->
            x <> "" /\ exists r, r ∈ fst (first_pass serp_items) /\ domain r = Some x.
Proof.
  induction serp_items as [|item items (IH1 & IH2)]; cbn [first_pass List.filter map].
  - split; [reflexivity|]. intros x. cbn. split; [set_solver|].
    intros (_ & r & Hr & _). inversion Hr.
  - destruct (first_pass items) as [formatted doms] eqn:E. cbn [fst snd] in *.
    destruct (is_organic item); cbn [fst snd map]; [|split; assumption].
    split; [f_equal; exact IH1|]. intros x.
    assert (Hrec : x ∈ doms <-> x <> "" /\ exists r, r ∈ formatted /\ domain r = Some x)
      by apply IH2.
    destruct (i_domain item) as [d|] eqn:Ed.
    + destruct (String.eqb_spec d "") as [->|Hne].
      * rewrite Hrec. split.
        -- intros (Hx & r & Hr & Hd). split; [exact Hx|]. exists r. split; [right|]; assumption.
        -- intros (Hx & r & Hr & Hd). split; [exact Hx|].
           apply elem_of_cons in Hr. destruct Hr as [-> | Hr]; [|eauto].
           cbn in Hd. rewrite Ed in Hd. congruence.
      * rewrite elem_of_union, elem_of_singleton, Hrec. split.
        -- intros [-> | (Hx & r & Hr & Hd)].
           ++ split; [exact Hne|]. exists (format_item item). split; [left | exact Ed].
           ++ split; [exact Hx|]. exists r. split; [right|]; assumption.
        -- intros (Hx & r & Hr & Hd). apply elem_of_cons in Hr. destruct Hr as [-> | Hr].
           ++ left. cbn in Hd. rewrite Ed in Hd. congruence.
           ++ right. eauto.
    + rewrite Hrec. split.
      * intros (Hx & r & Hr & Hd). split; [exact Hx|]. exists r. split; [right|]; assumption.
      * intros (Hx & r & Hr & Hd). split; [exact Hx|].
        apply elem_of_cons in Hr. destruct Hr as [-> | Hr]; [|eauto].
        cbn in Hd. rewrite Ed in Hd. discriminate.
Qed.

Section SerpFacts.
Variable list_of_set : gset string -> list string.
Hypothesis list_of_set_perm : forall S, list_of_set S ≡ₚ elements S.

Lemma all_domains_of_spec (S : gset string) (your_domain : string) :
  NoDup (all_domains_of list_of_set S your_domain) /\
  forall x, x ∈ all_domains_of list_of_set S your_domain <-> x ∈ S \/ x = your_domain.
Proof.
  unfold all_domains_of.
  assert (Hnd : NoDup (list_of_set S)).
  { rewrite list_of_set_perm. apply NoDup_elements. }
  assert (Hin : forall x, x ∈ list_of_set S <-> x ∈ S).
  { intros x. rewrite list_of_set_perm. apply elem_of_elements. }
  case_bool_decide as Hy.
  - split; [exact Hnd|]. intros x. rewrite Hin. split; [auto|].
    intros [H | ->]; [exact H | apply Hin, Hy].
  - split.
    + apply NoDup_app. split; [exact Hnd|]. split; [|apply NoDup_singleton].
      intros x Hx Hx'. apply list_elem_of_singleton in Hx'. subst. auto.
    + intros x. rewrite elem_of_app, list_elem_of_singleton, Hin. reflexivity.
Qed.

(** The dictionary returned on success, field by field. *)
Lemma get_serp_results_spec (serp_reply : reply serp_response)
    (post : nat -> string -> reply response) (keyword your_domain : string) (d : serp_data) :
  get_serp_results list_of_set serp_reply post keyword your_domain = Some d ->
  exists data task_result first_result all_domains,
    serp_reply = Response data /\
    head (s_tasks data) = Some task_result /\
    head (st_result task_result) = Some first_result /\
    sd_results d = map format_item (List.filter is_organic (take 10 (sr_items first_result))) /\
    sd_total_results d = length (sd_results d) /\
    sd_domain_metrics d = get_domain_metrics post all_domains /\
    sd_your_domain_metrics d = default no_metrics (sd_domain_metrics d !! your_domain) /\
    NoDup all_domains /\
    forall x, x ∈ all_domains <->
              x = your_domain \/
              (x <> "" /\ exists r, r ∈ sd_results d /\ domain r = Some x).
Proof.
  unfold get_serp_results. destruct serp_reply as [| |data]; try discriminate.
  destruct (s_tasks data) as [|task ?] eqn:Et; [discriminate|].
  destruct (st_result task) as [|r0 ?] eqn:Er; [discriminate|].
  destruct (first_pass_spec (take 10 (sr_items r0))) as [F1 F2].
  destruct (first_pass (take 10 (sr_items r0))) as [formatted doms]. cbn [fst snd] in *.
  intros [= <-]. cbn [sd_results sd_total_results sd_domain_metrics sd_your_domain_metrics].
  destruct (all_domains_of_spec doms your_domain) as [Hnd Hin].
  exists data, task, r0, (all_domains_of list_of_set doms your_domain).
  rewrite Et, Er. cbn [head]. repeat (split; [first [reflexivity | assumption]|]).
  intros x. rewrite Hin, F2. tauto.
Qed.
End SerpFacts.

(** X15: what [get_serp_results] returns on success.  The results are the
    organic items among the first ten items of the reply, in their order:
    at most ten, and an organic item after the tenth is left out even when
    fewer than ten results are returned.  [total_results] is their number.
    Metrics are requested for a list of domains without repetition, made
    of your own domain and of the non-empty domains of the results, and
    [your_domain_metrics] is the entry of your domain, or [{}]. *)
Theorem serp_results_shape (list_of_set : gset string -> list string)
    (serp_reply : reply serp_response) (post : nat -> string -> reply response)
    (keyword your_domain : string) (d : serp_data) :
  (forall S, list_of_set S ≡ₚ elements S) ->
  get_serp_results list_of_set serp_reply post keyword your_domain = Some d ->
  exists data task_result first_result all_domains,
    serp_reply = Response data /\
    head (s_tasks data) = Some task_result /\
    head (st_result task_result) = Some first_result /\
    sd_results d = map format_item (List.filter is_organic (take 10 (sr_items first_result))) /\
    (length (sd_results d) <= 10)%nat /\
    sd_total_results d = length (sd_results d) /\
    sd_domain_metrics d = get_domain_metrics post all_domains /\
    sd_your_domain_metrics d = default no_metrics (sd_domain_metrics d !! your_domain) /\
    NoDup all_domains /\
    forall x, x ∈ all_domains <->
              x = your_domain \/
              (x <> "" /\ exists r, r ∈ sd_results d /\ domain r = Some x).
Proof.
  intros Hperm E.
  destruct (get_serp_results_spec list_of_set Hperm _ _ _ _ _ E)
    as (data & task & r0 & all & H1 & H2 & H3 & H4 & H5 & H6 & H7 & H8 & H9).
  exists data, task, r0, all. repeat (split; [assumption|]).
  split; [|auto 10].
  rewrite H4, length_map.
  pose proof (List.filter_length is_organic (take 10 (sr_items r0))) as Hl.
  rewrite length_take in Hl. lia.
Qed.

Lemma serp_results_shape_witness :
  (forall S : gset string, elements S ≡ₚ elements S) /\
  exists d,
    get_serp_results elements example_serp_reply example_post "keyword" "io.net" = Some d /\
    exists data task_result first_result all_domains,
      example_serp_reply = Response data /\
      head (s_tasks data) = Some task_result /\
      head (st_result task_result) = Some first_result /\
      sd_results d = map format_item (List.filter is_organic (take 10 (sr_items first_result))) /\
      (length (sd_results d) <= 10)%nat /\
      sd_total_results d = length (sd_results d) /\
      sd_domain_metrics d = get_domain_metrics example_post all_domains /\
      sd_your_domain_metrics d = default no_metrics (sd_domain_metrics d !! "io.net") /\
      NoDup all_domains /\
      forall x, x ∈ all_domains <->
                x = "io.net" \/
                (x <> "" /\ exists r, r ∈ sd_results d /\ domain r = Some x).
Proof.
  split; [reflexivity|].
  destruct (get_serp_results elements example_serp_reply example_post "keyword" "io.net")
    as [d|] eqn:E; [|discriminate E].
  exists d. split; [reflexivity|].
  exact (serp_results_shape elements example_serp_reply example_post "keyword" "io.net" d
           (fun S => reflexivity (elements S)) E).
Defined.

Lemma www_host_url_like (h : string) : host_like h -> url_like ("www." +:+ h).
Proof.
  intros Hh. exists "", "www.", h, "". rewrite append_nil_r.
  split; [reflexivity|]. split; [left; reflexivity|]. split; [right; reflexivity|].
  split; [exact Hh | left; reflexivity].
Qed.

Lemma host_url_like (h : string) : host_like h -> url_like h.
Proof.
  intros Hh. exists "", "", h, "". rewrite append_nil_r.
  split; [reflexivity|]. split; [left; reflexivity|]. split; [left; reflexivity|].
  split; [exact Hh | left; reflexivity].
Qed.

(** A result page of [www.] domains leaves the assessment without
    competitors. *)
Lemma www_page_assessment (list_of_set : gset string -> list string)
    (serp_reply : reply serp_response) (post : nat -> string -> reply response)
    (keyword your_domain : string) (d : serp_data) fetch :
  (forall S, list_of_set S ≡ₚ elements S) ->
  echoes post -> fetch_bounded fetch ->
  get_serp_results list_of_set serp_reply post keyword your_domain = Some d ->
  host_like your_domain ->
  Forall (fun r => complete r /\ exists h, host_like h /\ domain r = Some ("www." +:+ h))
         (sd_results d) ->
  exists a,
    main_assessment fetch (Some d) = Ok a /\
    competitor_analysis a = [] /\
    overall_score a = PInt 0 /\
    verdict a = "LOW COMPETITION - Excellent opportunity" /\
    target_position a = "1-3" /\
    recommendations a = weak_recommendations.
Proof.
  intros Hperm He Hf E Hy Hall.
  destruct (get_serp_results_spec list_of_set Hperm _ _ _ _ _ E)
    as (data & task & r0 & all & _ & _ & _ & _ & _ & Hm & _ & _ & Hin).
  assert (Hu : Forall url_like all).
  { apply Forall_forall. intros x Hx. apply Hin in Hx.
    destruct Hx as [-> | (_ & r & Hr & Hd)]; [apply host_url_like; exact Hy|].
    rewrite Forall_forall in Hall. destruct (Hall r Hr) as (_ & h & Hh & Hd').
    rewrite Hd in Hd'. injection Hd' as ->. apply www_host_url_like. exact Hh. }
  destruct (www_unmatched post all He) as [_ Hw]. specialize (Hw Hu).
  unfold main_assessment. cbn [fmap option_fmap option_map].
  apply unmatched_assessment; [exact Hf|]. cbn [results default].
  apply Forall_forall. intros r Hr. rewrite Forall_forall in Hall.
  destruct (Hall r Hr) as (_ & h & Hh & Hd). destruct (Hw h Hh) as [Hn _].
  unfold matched. rewrite Hd. destruct (String.eqb _ ""); [reflexivity|].
  rewrite Hm, Hn. reflexivity.
Qed.

(** X16: from the result page to the verdict.  The SERP endpoint gives
    domains with their [www.] prefix, the metrics are stored under the
    cleaned names, and the assessment looks them up under the names of the
    result page.  So when the metrics endpoint names the domain it was
    asked about and every result carries a domain of the form [www.]
    followed by a host, no result is matched, however strong the domains
    are: [main] obtains an assessment without competitors, with verdict
    LOW COMPETITION, target position 1-3 and the recommendations for weak
    competitors. *)
Theorem www_result_page_reads_as_low_competition
    (list_of_set : gset string -> list string)
    (serp_reply : reply serp_response) (post : nat -> string -> reply response)
    (keyword your_domain : string) (d : serp_data) fetch :
  (forall S, list_of_set S ≡ₚ elements S) ->
  echoes post -> fetch_bounded fetch ->
  get_serp_results list_of_set serp_reply post keyword your_domain = Some d ->
  host_like your_domain ->
  Forall (fun r => complete r /\ exists h, host_like h /\ domain r = Some ("www." +:+ h))
         (sd_results d) ->
  exists a,
    main_assessment fetch (Some d) = Ok a /\
    competitor_analysis a = [] /\
    overall_score a = PInt 0 /\
    verdict a = "LOW COMPETITION - Excellent opportunity" /\
    target_position a = "1-3" /\
    recommendations a = weak_recommendations.
Proof. apply www_page_assessment. Qed.

Lemma host_like_io_net : host_like "io.net".
Proof. split; [discriminate|]. repeat split; reflexivity. Qed.

Lemma www_result_page_reads_as_low_competition_witness :
  (forall S : gset string, elements S ≡ₚ elements S) /\
  echoes example_post /\ fetch_bounded example_fetch /\ host_like "io.net" /\
  exists d,
    get_serp_results elements example_serp_reply example_post "keyword" "io.net" = Some d /\
    Forall (fun r => complete r /\ exists h, host_like h /\ domain r = Some ("www." +:+ h))
           (sd_results d) /\
    exists a,
      main_assessment example_fetch (Some d) = Ok a /\
      competitor_analysis a = [] /\
      overall_score a = PInt 0 /\
      verdict a = "LOW COMPETITION - Excellent opportunity" /\
      target_position a = "1-3" /\
      recommendations a = weak_recommendations.
Proof.
  split; [reflexivity|]. split; [exact example_post_echoes|].
  split; [exact example_fetch_bounded|]. split; [exact host_like_io_net|].
  destruct (get_serp_results elements example_serp_reply example_post "keyword" "io.net")
    as [d|] eqn:E; [|discriminate E].
  assert (Hr : sd_results d = [format_item (organic_item 1 "https://www.a.example/" "www.a.example");
                               format_item (organic_item 2 "https://www.b.example/" "www.b.example")]).
  { revert E. unfold get_serp_results, example_serp_reply. cbn [s_tasks st_result sr_items take].
    generalize (get_domain_metrics example_post). intros g.
    cbn [first_pass is_organic organic_item i_type].
    repeat (case_bool_decide; try congruence).
    intros [= <-]. reflexivity. }
  assert (Hall : Forall (fun r => complete r /\
                                  exists h, host_like h /\ domain r = Some ("www." +:+ h))
                        (sd_results d)).
  { rewrite Hr. repeat constructor; cbn; try (eexists; reflexivity).
    - exists "a.example". split; [|reflexivity]. split; [discriminate|]. repeat split; reflexivity.
    - exists "b.example". split; [|reflexivity]. split; [discriminate|]. repeat split; reflexivity. }
  exists d. split; [reflexivity|]. split; [exact Hall|].
  exact (www_result_page_reads_as_low_competition elements example_serp_reply example_post
           "keyword" "io.net" d example_fetch (fun S => reflexivity (elements S))
           example_post_echoes example_fetch_bounded E host_like_io_net Hall).
Defined.

(** X17: a failed SERP request reads as an easy keyword.  When the request
    raises, or the reply has no task or no result, [get_serp_results]
    returns its error dictionary, and the assessment [main] computes from
    it is the one of an empty result page: no competitors, your metrics
    0, score 0, verdict LOW COMPETITION, target position 1-3, the
    recommendations for weak competitors, and the default length profile
    of 3000 to 4000 words; no page is fetched. *)
Theorem failed_serp_request_reads_as_low_competition
    (list_of_set : gset string -> list string)
    (serp_reply : reply serp_response) (post : nat -> string -> reply response)
    (keyword your_domain : string) fetch :
  serp_reply = RequestException \/ serp_reply = OtherException \/
    (exists data, serp_reply = Response data /\
       (s_tasks data = [] \/
        exists task_result, head (s_tasks data) = Some task_result /\
                            st_result task_result = [])) ->
  get_serp_results list_of_set serp_reply post keyword your_domain = None /\
  main_assessment fetch None =
    Ok {| your_metrics :=
            {| your_pos_1 := PInt 0; your_etv := PInt 0; your_keywords := PInt 0 |};
          competitor_analysis := [];
          overall_score := PInt 0;
          verdict := "LOW COMPETITION - Excellent opportunity";
          target_position := "1-3";
          recommendations := weak_recommendations;
          content_length_analysis := default_profile |}.
Proof.
  intros H. split; [|reflexivity].
  destruct H as [-> | [-> | (data & -> & [Ht | (task & Ht & Hr)])]]; try reflexivity;
    unfold get_serp_results.
  - rewrite Ht. reflexivity.
  - destruct (s_tasks data) as [|t ?]; [reflexivity|]. injection Ht as ->.
    rewrite Hr. reflexivity.
Qed.

Lemma failed_serp_request_reads_as_low_competition_witness :
  (@RequestException serp_response = RequestException \/
   @RequestException serp_response = OtherException \/
    (exists data, @RequestException serp_response = Response data /\
       (s_tasks data = [] \/
        exists task_result, head (s_tasks data) = Some task_result /\
                            st_result task_result = []))) /\
  get_serp_results elements RequestException example_post "keyword" "io.net" = None /\
  main_assessment example_fetch None =
    Ok {| your_metrics :=
            {| your_pos_1 := PInt 0; your_etv := PInt 0; your_keywords := PInt 0 |};
          competitor_analysis := [];
          overall_score := PInt 0;
          verdict := "LOW COMPETITION - Excellent opportunity";
          target_position := "1-3";
          recommendations := weak_recommendations;
          content_length_analysis := default_profile |}.
Proof.
  assert (H : @RequestException serp_response = RequestException \/
              @RequestException serp_response = OtherException \/
              (exists data, @RequestException serp_response = Response data /\
                 (s_tasks data = [] \/
                  exists task_result, head (s_tasks data) = Some task_result /\
                                      st_result task_result = [])))
    by (left; reflexivity).
  split; [exact H|].
  exact (failed_serp_request_reads_as_low_competition elements RequestException example_post
           "keyword" "io.net" example_fetch H).
Defined.

(** ** Fenced JSON in the answers of the language model *)

Lemma prefix_longer (sep x t : string) :
  (String.length sep <= String.length x)%nat ->
  String.prefix sep (x +:+ t) = String.prefix sep x.
Proof.
  revert x. induction sep as [|c sep IH]; intros x Hl.
  - destruct x; [destruct t|]; reflexivity.
  - destruct x as [|d x]; cbn [String.length] in Hl; [lia|].
    rewrite append_cons. cbn [String.prefix].
    destruct (Ascii.ascii_dec c d); [|reflexivity]. apply IH. lia.
Qed.

Lemma first_after_free (sep pre : string) :
  first_after sep pre ->
  forall a b t, pre = a +:+ b -> b <> "" -> String.prefix sep (b +:+ sep +:+ t) = false.
Proof.
  unfold first_after. intros H a b t -> Hb. revert H.
  induction a as [|c a IH]; intros H.
  - rewrite append_nil_l in H. destruct b as [|c b]; [congruence|].
    rewrite <- append_assoc, prefix_longer
      by (rewrite string_length_append; lia).
    revert H. rewrite append_cons. cbn [String.index String.length].
    destruct (String.prefix sep _); [intros H; discriminate H | intros _; reflexivity].
  - apply IH. revert H. rewrite !append_cons. cbn [String.index String.length].
    destruct (String.prefix sep (String c ((a +:+ b) +:+ sep))); [intros H; discriminate H|].
    destruct (String.index 0 sep ((a +:+ b) +:+ sep)) as [n|]; [|intros H; discriminate H].
    intros [= ->]. reflexivity.
Qed.

Lemma index_of_first (sep pre t : string) :
  sep <> "" -> first_after sep pre ->
  String.index 0 sep (pre +:+ sep +:+ t) = Some (String.length pre).
Proof.
  intros Hs H. pose proof (first_after_free sep pre H) as Hf. clear H.
  induction pre as [|c pre IH].
  - rewrite append_nil_l. destruct sep as [|c sep]; [congruence|].
    rewrite append_cons. cbn [String.index]. rewrite <- append_cons, prefix_append. reflexivity.
  - rewrite append_cons. cbn [String.index String.length].
    rewrite <- append_cons, (Hf "" (String c pre) t) by (reflexivity || discriminate).
    rewrite IH; [reflexivity|].
    intros a b t' -> Hb. apply (Hf (String c a) b t'); [reflexivity | exact Hb].
Qed.

Lemma split_skip (sep a s : string) :
  split_from sep (String.length a) (a +:+ s) = split_from sep 0 s.
Proof.
  induction a as [|c a IH]; [reflexivity|].
  rewrite append_cons. cbn [String.length split_from]. exact IH.
Qed.

Lemma split_at_sep (c : Ascii.ascii) (sep' t : string) :
  py_split (String c sep') (String c sep' +:+ t) = "" :: py_split (String c sep') t.
Proof.
  unfold py_split. rewrite append_cons. cbn [split_from].
  rewrite <- append_cons, prefix_append. cbn [String.length].
  replace (S (String.length sep') - 1)%nat with (String.length sep') by lia.
  rewrite split_skip. destruct (split_from (String c sep') 0 t). reflexivity.
Qed.

Lemma split_free (sep h t : string) :
  (forall a b, h = a +:+ b -> b <> "" -> String.prefix sep (b +:+ t) = false) ->
  py_split sep (h +:+ t) =
    match py_split sep t with
    | piece :: pieces => (h +:+ piece) :: pieces
    | [] => []
    end.
Proof.
  unfold py_split. induction h as [|c h IH]; intros H.
  - rewrite append_nil_l. destruct (split_from sep 0 t). reflexivity.
  - rewrite append_cons. cbn [split_from].
    rewrite <- append_cons, (H "" (String c h)) by (reflexivity || discriminate).
    assert (IH' := IH (fun a b E Hb => H (String c a) b (f_equal (String c) E) Hb)).
    destruct (split_from sep 0 (h +:+ t)) as [p ps].
    destruct (split_from sep 0 t) as [q qs]. injection IH' as -> ->. reflexivity.
Qed.

(** The pieces around the first separator. *)
Lemma split_first_sep (sep pre t : string) :
  sep <> "" -> first_after sep pre ->
  py_split sep (pre +:+ sep +:+ t) = pre :: py_split sep t.
Proof.
  intros Hs H. rewrite split_free.
  - destruct sep as [|c sep]; [congruence|]. rewrite split_at_sep, append_nil_r. reflexivity.
  - intros a b E Hb. apply (first_after_free sep pre H a b t E Hb).
Qed.

Lemma split_nonempty (sep s : string) : exists piece pieces, py_split sep s = piece :: pieces.
Proof. unfold py_split. destruct (split_from sep 0 s). eauto. Qed.

Lemma split_two (sep s : string) :
  sep <> "" -> py_in sep s = true ->
  exists piece after pieces, py_split sep s = piece :: after :: pieces.
Proof.
  intros Hs. unfold py_in, py_split. induction s as [|c s IH].
  - cbn [String.index]. destruct sep; [congruence | discriminate].
  - cbn [String.index split_from]. destruct (String.prefix sep (String c s)).
    + intros _. destruct (split_from sep (String.length sep - 1) s) as [p ps].
      do 3 eexists. reflexivity.
    + destruct (String.index 0 sep s); [|discriminate]. intros _.
      destruct (IH eq_refl) as (p & a & ps & E).
      destruct (split_from sep 0 s) as [p' ps']. injection E as -> ->.
      do 3 eexists. reflexivity.
Qed.

Lemma split_none (sep s : string) : py_in sep s = false -> py_split sep s = [s].
Proof.
  unfold py_in, py_split. induction s as [|c s IH]; [reflexivity|].
  cbn [String.index split_from]. destruct (String.prefix sep (String c s)); [discriminate|].
  destruct (String.index 0 sep s); [discriminate|]. intros _.
  specialize (IH eq_refl). destruct (split_from sep 0 s) as [p ps].
  injection IH as -> ->. reflexivity.
Qed.

Lemma prefix_shorter (s : string) :
  String.prefix "```json" s = true -> String.prefix "```" s = true.
Proof.
  destruct s as [|c1 [|c2 [|c3 s]]]; cbn [String.prefix];
    repeat (match goal with
            | |- context [Ascii.ascii_dec ?a ?b] => destruct (Ascii.ascii_dec a b)
            end; cbn [String.prefix]);
    intros H; try discriminate H; try reflexivity; destruct s; reflexivity.
Qed.

(** A fence that begins in [b] and ends within [b] followed by a fence
    lies in [b] alone, or [b] is too short to hold one. *)
Lemma prefix_fence_alone (b : string) :
  String.prefix "```" (b +:+ "```") = false -> String.prefix "```" b = false.
Proof.
  destruct b as [|c1 [|c2 [|c3 b]]]; rewrite ?append_cons, ?append_nil_l;
    cbn [String.prefix];
    repeat (match goal with
            | |- context [Ascii.ascii_dec ?a ?b] => destruct (Ascii.ascii_dec a b)
            end; cbn [String.prefix]);
    intros H; try discriminate H; try reflexivity.
  destruct b; rewrite ?append_cons, ?append_nil_l in H; cbn [String.prefix] in H;
    discriminate H.
Qed.

Lemma no_fence_no_json_fence (s : string) : py_in "```" s = false -> py_in "```json" s = false.
Proof.
  unfold py_in. induction s as [|c s IH]; [reflexivity|].
  cbn [String.index].
  destruct (String.prefix "```" (String c s)) eqn:E3; [discriminate|].
  destruct (String.prefix "```json" (String c s)) eqn:Ej.
  { apply prefix_shorter in Ej. congruence. }
  destruct (String.index 0 "```" s); [discriminate|]. intros _.
  specialize (IH eq_refl). destruct (String.index 0 "```json" s); [discriminate | reflexivity].
Qed.

(** What follows the opening fence: the body up to the end of the text,
    or the body and a closing fence. *)
Lemma inside_of_body (body rest : string) :
  (rest = "" /\ py_in "```" body = false) \/
  (exists post, rest = "```" +:+ post /\ first_after "```" body) ->
  py_split "```" (body +:+ rest) !! 0%nat = Some body.
Proof.
  intros [(-> & Hn) | (post & -> & Hf)].
  - rewrite append_nil_r, (split_none _ _ Hn). reflexivity.
  - rewrite (split_first_sep "```" body post ltac:(discriminate) Hf). reflexivity.
Qed.

Section FenceFacts.
Variable strip : string -> string.

Lemma extract_json_unfenced (response_text : string) :
  py_in "```" response_text = false ->
  extract_json strip response_text = Some response_text.
Proof.
  intros H. unfold extract_json. rewrite (no_fence_no_json_fence _ H), H. reflexivity.
Qed.

Lemma extract_json_defined (response_text : string) :
  is_Some (extract_json strip response_text).
Proof.
  unfold extract_json.
  destruct (py_in "```json" response_text) eqn:Ej.
  - destruct (split_two "```json" response_text ltac:(discriminate) Ej) as (p & a & ps & ->).
    cbn [lookup list_lookup mbind option_bind].
    destruct (split_nonempty "```" a) as (q & qs & ->). cbn. eauto.
  - destruct (py_in "```" response_text) eqn:Ef; [|eauto].
    destruct (split_two "```" response_text ltac:(discriminate) Ef) as (p & a & ps & ->).
    cbn [lookup list_lookup mbind option_bind].
    destruct (split_nonempty "```" a) as (q & qs & ->). cbn. eauto.
Qed.

Lemma extract_json_fenced (pre body rest : string) :
  first_after "```json" pre ->
  py_in "```json" (body +:+ rest) = false ->
  (rest = "" /\ py_in "```" body = false) \/
    (exists post, rest = "```" +:+ post /\ first_after "```" body) ->
  extract_json strip (pre +:+ "```json" +:+ body +:+ rest) = Some (strip body).
Proof.
  intros Hp Hn Hc. unfold extract_json.
  assert (Hin : py_in "```json" (pre +:+ "```json" +:+ body +:+ rest) = true).
  { unfold py_in. rewrite (index_of_first "```json" pre _ ltac:(discriminate) Hp). reflexivity. }
  rewrite Hin, (split_first_sep "```json" pre _ ltac:(discriminate) Hp), (split_none _ _ Hn).
  cbn [lookup list_lookup mbind option_bind]. rewrite (inside_of_body body rest Hc).
  reflexivity.
Qed.

Lemma extract_json_plain_fence (pre body rest : string) :
  py_in "```json" (pre +:+ "```" +:+ body +:+ rest) = false ->
  first_after "```" pre ->
  (rest = "" /\ py_in "```" body = false) \/
    (exists post, rest = "```" +:+ post /\ first_after "```" body) ->
  extract_json strip (pre +:+ "```" +:+ body +:+ rest) = Some (strip body).
Proof.
  intros Hj Hp Hc. unfold extract_json. rewrite Hj.
  assert (Hin : py_in "```" (pre +:+ "```" +:+ body +:+ rest) = true).
  { unfold py_in. rewrite (index_of_first "```" pre _ ltac:(discriminate) Hp). reflexivity. }
  rewrite Hin, (split_first_sep "```" pre _ ltac:(discriminate) Hp).
  destruct (split_nonempty "```" (body +:+ rest)) as (q & qs & E).
  pose proof (inside_of_body body rest Hc) as Hb. rewrite E in Hb |- *.
  cbn [lookup list_lookup] in Hb. injection Hb as ->.
  cbn [lookup list_lookup mbind option_bind].
  assert (Hq : py_split "```" body !! 0%nat = Some body).
  { destruct Hc as [(-> & Hn) | (post & -> & Hf)].
    - rewrite (split_none _ _ Hn). reflexivity.
    - rewrite <- (append_nil_r body) at 1.
      rewrite split_free;
        [change (py_split "```" "") with [""]; cbv beta iota; rewrite append_nil_r; reflexivity|].
      intros a b -> Hb. rewrite append_nil_r.
      pose proof (first_after_free "```" _ Hf a b "" eq_refl Hb) as H.
      rewrite append_nil_r in H.
      exact (prefix_fence_alone b H). }
  rewrite Hq. reflexivity.
Qed.
End FenceFacts.

(** X18: the extraction never fails.  For every answer the text handed to
    [json.loads] is defined: the pieces taken with the indices 1 and 0
    always exist, so no [IndexError] is raised; an answer without a fence
    is handed over as it is. *)
Theorem extract_json_never_fails (strip : string -> string) (response_text : string) :
  is_Some (extract_json strip response_text) /\
  (py_in "```" response_text = false ->
   extract_json strip response_text = Some response_text).
Proof.
  split; [apply extract_json_defined | apply extract_json_unfenced].
Qed.

Lemma extract_json_never_fails_witness :
  py_in "```" "[1, 2]" = false /\
  is_Some (extract_json (fun s => s) "[1, 2]") /\
  extract_json (fun s => s) "[1, 2]" = Some "[1, 2]".
Proof.
  split; [reflexivity|].
  split; [exact (proj1 (extract_json_never_fails (fun s => s) "[1, 2]"))|].
  exact (proj2 (extract_json_never_fails (fun s => s) "[1, 2]") eq_refl).
Defined.

(** X19: what is taken out of a fenced answer.  When the first fence is
    one marked [json] and no second such fence follows, or when there is no
    such fence at all and the text has a plain fence, the text handed to
    [json.loads] is the stripped text between the first fence and the next
    fence, or the end of the answer when the fence is not closed; what
    precedes the first fence and what follows the closing one is dropped. *)
Theorem extract_json_takes_first_block (strip : string -> string)
    (opening pre body rest : string) :
  (opening = "```json" /\ py_in "```json" (body +:+ rest) = false) \/
    (opening = "```" /\ py_in "```json" (pre +:+ opening +:+ body +:+ rest) = false) ->
  first_after opening pre ->
  (rest = "" /\ py_in "```" body = false) \/
    (exists post, rest = "```" +:+ post /\ first_after "```" body) ->
  extract_json strip (pre +:+ opening +:+ body +:+ rest) = Some (strip body).
Proof.
  intros [(-> & Hn) | (-> & Hj)] Hp Hc.
  - apply extract_json_fenced; assumption.
  - apply extract_json_plain_fence; assumption.
Qed.

Lemma extract_json_takes_first_block_witness :
  (("```json" = "```json" /\ py_in "```json" (" [1, 2] " +:+ "``` bye") = false) \/
   ("```json" = "```" /\
    py_in "```json" ("Here: " +:+ "```json" +:+ " [1, 2] " +:+ "``` bye") = false)) /\
  first_after "```json" "Here: " /\
  ((("``` bye" = "" /\ py_in "```" " [1, 2] " = false)) \/
   (exists post, "``` bye" = "```" +:+ post /\ first_after "```" " [1, 2] ")) /\
  extract_json (fun s => s) ("Here: " +:+ "```json" +:+ " [1, 2] " +:+ "``` bye")
    = Some " [1, 2] ".
Proof.
  assert (H1 : ("```json" = "```json" /\ py_in "```json" (" [1, 2] " +:+ "``` bye") = false) \/
               ("```json" = "```" /\
                py_in "```json" ("Here: " +:+ "```json" +:+ " [1, 2] " +:+ "``` bye") = false))
    by (left; split; reflexivity).
  assert (H2 : first_after "```json" "Here: ") by reflexivity.
  assert (H3 : ("``` bye" = "" /\ py_in "```" " [1, 2] " = false) \/
               (exists post, "``` bye" = "```" +:+ post /\ first_after "```" " [1, 2] "))
    by (right; exists " bye"; split; reflexivity).
  split; [exact H1|]. split; [exact H2|]. split; [exact H3|].
  exact (extract_json_takes_first_block (fun s => s) "```json" "Here: " " [1, 2] " "``` bye"
           H1 H2 H3).
Defined.

(** ** Saturation of the strength score *)

Lemma at_least_exponent (b w : Z) (q : positive) (e : Z) :
  0 < w -> normal53 q -> (e < 0 -> w * 2 ^ (- e) <= Zpos q) -> -52 <= e.
Proof.
  intros Hw [_ Hq] H. destruct (Z_lt_le_dec e (-52)) as [Hlt|]; [|lia]. exfalso.
  specialize (H ltac:(lia)).
  assert (2 ^ 53 <= 2 ^ (- e)) by (apply Z.pow_le_mono_r; lia). nia.
Qed.

(** Rounding does not go below a bound that the exact value reaches. *)
Lemma bra_at_least (m : positive) (e w : Z) (l : location) :
  let d := Zpos (digits2_pos m) in
  53 <= d -> -1074 <= d + e - 53 -> d + e <= 1023 -> 0 < w ->
  (e < 0 -> w * 2 ^ (- e) <= Zpos m) ->
  exists (q : positive) (E : Z),
    binary_round_aux prec emax false (Zpos m) e l = S754_finite false q E /\
    normal53 q /\ e + (d - 53) <= E <= e + (d - 53) + 1 /\
    (E < 0 -> w * 2 ^ (- E) <= Zpos q).
Proof.
  intros d H1 H2 H3 Hw Hv.
  destruct (bra_value false m e l H1 H2 H3) as (q & k & E & Hk & Hq & Hb). fold d in E, Hb.
  exists q, (e + (d - 53) + k). split; [exact E|]. split; [exact Hq|]. split; [lia|].
  intros HE. specialize (Hv ltac:(lia)).
  set (n := d - 53) in *. assert (Hn : 0 <= n) by (unfold n; lia).
  pose proof (pow2_pos n Hn) as HN. pose proof (pow2_pos k ltac:(lia)) as HK.
  pose proof (pow2_pos (- (e + n + k)) ltac:(lia)) as HT.
  assert (Ee : 2 ^ (- e) = 2 ^ (- (e + n + k)) * 2 ^ k * 2 ^ n).
  { rewrite <- !Z.pow_add_r by lia. f_equal. lia. }
  rewrite Ee in Hv.
  assert (Hf : w * 2 ^ (- (e + n + k)) * 2 ^ k <= Zpos m / 2 ^ n).
  { apply Z.div_le_lower_bound; [lia|]. lia. }
  set (T := 2 ^ (- (e + n + k))) in *. set (K := 2 ^ k) in *. nia.
Qed.

Lemma normal53_digits (q : positive) : normal53 q -> Zpos (digits2_pos q) = 53.
Proof.
  intros [Hl Hu]. apply Z.le_antisymm.
  - apply digits_upper; lia.
  - apply (digits_lower q 52); lia.
Qed.

(** A mantissa of 53 digits with nothing to round off is kept. *)
Lemma bra_exact53 (m : positive) (e : Z) :
  normal53 m -> -1074 <= e <= 970 ->
  binary_round_aux prec emax false (Zpos m) e loc_Exact = S754_finite false m e.
Proof.
  intros Hm He. pose proof (normal53_digits m Hm) as Hd.
  assert (Hs : shr_fexp prec emax (Zpos m) e loc_Exact
               = (shr_record_of_loc (Zpos m) loc_Exact, e)).
  { unfold shr_fexp, shr.
    assert (Hf : fexp prec emax (Zdigits2 (Zpos m) + e) - e = 0).
    { unfold fexp, SpecFloat.emin, prec, emax. cbn [Zdigits2]. rewrite Hd. lia. }
    rewrite Hf. reflexivity. }
  unfold binary_round_aux. rewrite Hs.
  cbn [shr_record_of_loc shr_m loc_of_shr_record round_nearest_even].
  rewrite Hs. cbn [shr_record_of_loc shr_m].
  replace (e <=? emax - prec) with true; [reflexivity|].
  symmetry. apply Z.leb_le. unfold emax, prec. lia.
Qed.

(** An [int] below [2^53] is converted without rounding. *)
Lemma float_of_Z_exact (z : Z) :
  0 < z < 2 ^ 53 ->
  exists q e, float_of_Z z = S754_finite false q e /\ normal53 q /\ -52 <= e <= 0 /\
              Zpos q = z * 2 ^ (- e).
Proof.
  intros Hz. destruct z as [|p|p]; try lia.
  unfold float_of_Z, binary_normalize, binary_round.
  set (d := Zpos (digits2_pos p)).
  destruct (digits_bounds p) as [Hl Hu]. fold d in Hl, Hu.
  assert (Hd : 0 < d <= 53).
  { split; [unfold d; lia|]. apply digits_upper; lia. }
  assert (Hf : fexp prec emax (d + 0) = d - 53).
  { unfold fexp, SpecFloat.emin, prec, emax. lia. }
  cbn [Zdigits2]. fold d. rewrite Hf. unfold shl_align.
  destruct (d - 53 - 0) as [|k|k] eqn:Ek; try lia.
  - assert (Hn : normal53 p).
    { unfold normal53. replace d with 53 in Hl, Hu by lia. cbn in Hl. lia. }
    rewrite bra_exact53 by (assumption || lia).
    exists p, 0. split; [reflexivity|]. split; [exact Hn|]. split; [lia|]. cbn. lia.
  - assert (Hv := iter_xO_val p k). unfold shift_pos.
    assert (Hk : Zpos k = 53 - d) by lia.
    assert (E1 : 2 ^ (d - 1) * 2 ^ Zpos k = 2 ^ 52).
    { rewrite <- Z.pow_add_r by lia. f_equal. lia. }
    assert (E2 : 2 ^ d * 2 ^ Zpos k = 2 ^ 53).
    { rewrite <- Z.pow_add_r by lia. f_equal. lia. }
    pose proof (pow2_pos (Zpos k) ltac:(lia)) as Hp.
    assert (Hn : normal53 (Pos.iter xO p k)) by (unfold normal53; rewrite Hv; nia).
    rewrite bra_exact53 by (assumption || lia).
    exists (Pos.iter xO p k), (d - 53). split; [reflexivity|]. split; [exact Hn|].
    split; [lia|]. rewrite Hv. f_equal. f_equal. lia.
Qed.

(** The quotient of two normal doubles, the first at least the second. *)
Lemma fdiv_ge_one (qa qb : positive) (ea eb : Z) :
  normal53 qa -> normal53 qb -> -300 <= ea <= 300 -> -300 <= eb <= 300 ->
  eb < ea \/ (eb = ea /\ Zpos qb <= Zpos qa) ->
  at_least 600 1 (PFloat (fdiv (S754_finite false qa ea) (S754_finite false qb eb))).
Proof.
  intros Ha Hb Hea Heb Hord. unfold fdiv, SFdiv, SFdiv_core_binary.
  cbn [Zdigits2]. rewrite (normal53_digits qa Ha), (normal53_digits qb Hb).
  assert (He : Z.min (fexp prec emax (53 + ea - (53 + eb))) (ea - eb) = ea - eb - 53).
  { unfold fexp, SpecFloat.emin, prec, emax. lia. }
  rewrite He. replace (ea - eb - (ea - eb - 53)) with 53 by lia.
  change (Z.shiftl (Zpos qa) 53) with (Zpos qa * 2 ^ 53) || rewrite Z.shiftl_mul_pow2 by lia.
  unfold normal53 in Ha, Hb.
  pose proof (Z.div_eucl_eq (Zpos qa * 2 ^ 53) (Zpos qb) ltac:(lia)) as Hdiv.
  pose proof (Z.mod_pos_bound (Zpos qa * 2 ^ 53) (Zpos qb) ltac:(lia)) as Hmod.
  unfold Z.modulo in Hmod.
  destruct (Z.div_eucl (Zpos qa * 2 ^ 53) (Zpos qb)) as [Q R].
  assert (HQl : 2 ^ 52 <= Q).
  { assert (2 ^ 105 = 2 ^ 52 * 2 ^ 53) by reflexivity. nia. }
  assert (HQu : Q < 2 ^ 54).
  { assert (2 ^ 106 = 2 ^ 52 * 2 ^ 54) by reflexivity.
    assert (2 ^ 106 = 2 ^ 53 * 2 ^ 53) by reflexivity. nia. }
  destruct Q as [|Qp|Qp]; try lia.
  assert (D53 : 53 <= Zpos (digits2_pos Qp)) by (apply (digits_lower Qp 52); lia).
  assert (D54 : Zpos (digits2_pos Qp) <= 54) by (apply digits_upper; lia).
  destruct (bra_at_least Qp (ea - eb - 53) 1 (new_location (Zpos qb) R))
    as (q & E & Er & Hq & HE & Hv); try lia.
  { intros Hneg. rewrite Z.mul_1_l.
    destruct Hord as [Hlt | [-> Hle]].
    - assert (2 ^ (- (ea - eb - 53)) <= 2 ^ 52) by (apply Z.pow_le_mono_r; lia). lia.
    - replace (- (ea - ea - 53)) with 53 by lia. nia. }
  cbn [xorb]. rewrite Er. exists q, E. split; [reflexivity|]. split; [exact Hq|].
  split; [lia | exact Hv].
Qed.

Lemma plain_float (x : pynum) :
  plain_metric x -> num_gt x (PInt 0) = true ->
  exists q e, to_float x = Ok (S754_finite false q e) /\ score_float x = S754_finite false q e /\
              normal53 q /\ -300 <= e <= 300.
Proof.
  destruct x as [z|f]; cbn [plain_metric].
  - intros Hz Hgt. apply num_gt_int_0 in Hgt.
    assert (H53 : 2 ^ 48 <= 2 ^ 53) by (apply Z.pow_le_mono_r; lia).
    destruct (float_of_Z_exact z ltac:(lia)) as (q & e & E & Hq & He & _).
    exists q, e. cbn [to_float score_float].
    rewrite float_of_int_ok
      by (pose proof dbl_overflow_big;
          assert (2 ^ 48 <= 2 ^ 64) by (apply Z.pow_le_mono_r; lia); lia).
    rewrite E. split; [reflexivity|]. split; [reflexivity|]. split; [exact Hq | lia].
  - intros (q & e & -> & Hq & He) _. exists q, e.
    split; [reflexivity|]. split; [reflexivity|]. split; [exact Hq | lia].
Qed.

Lemma SFcompare_finite_swap (qa qb : positive) (ea eb : Z) :
  match SFcompare (S754_finite false qa ea) (S754_finite false qb eb) with
  | Some (Gt | Eq) => True
  | _ => False
  end ->
  match SFcompare (S754_finite false qb eb) (S754_finite false qa ea) with
  | Some (Lt | Eq) => True
  | _ => False
  end.
Proof.
  cbn [SFcompare].
  change (Pos.compare_cont Eq qa qb) with (Pos.compare qa qb).
  change (Pos.compare_cont Eq qb qa) with (Pos.compare qb qa).
  destruct (Z.compare_spec ea eb), (Z.compare_spec eb ea); try lia; try tauto;
    destruct (Pos.compare_spec qa qb), (Pos.compare_spec qb qa); try lia; tauto.
Qed.

Lemma num_le_small (y c : pynum) :
  plain_metric y -> plain_metric c ->
  num_le y c = true ->
  (exists a b, y = PInt a /\ c = PInt b /\ a <= b) \/
  match SFcompare (score_float y) (score_float c) with
  | Some (Lt | Eq) => True
  | _ => False
  end.
Proof.
  destruct y as [a|g]; destruct c as [b|f]; cbn [plain_metric score_float];
    intros Hy Hc; unfold num_le, num_compare.
  - intros H. left. exists a, b. repeat split.
    destruct (Z.compare_spec a b); try discriminate; lia.
  - rewrite cmp_int_float_small by lia. intros H. right.
    destruct (SFcompare _ _) as [[| |]|]; try discriminate; exact I.
  - rewrite cmp_int_float_small by lia. intros H. right.
    destruct Hy as (q & e & -> & _).
    destruct (Z.eq_dec b 0) as [->|Hb].
    { rewrite float_of_Z_0 in H. cbn in H. discriminate. }
    assert (H53 : 2 ^ 48 <= 2 ^ 53) by (apply Z.pow_le_mono_r; lia).
    destruct (float_of_Z_exact b ltac:(lia)) as (qb & eb & Eb & _).
    rewrite Eb in H |- *.
    apply SFcompare_finite_swap. revert H.
    destruct (SFcompare (S754_finite false qb eb) (S754_finite false q e)) as [[| |]|];
      cbn; intros H; try discriminate H; exact I.
  - intros H. right. destruct (SFcompare g f) as [[| |]|]; try discriminate; exact I.
Qed.

(** The ratio of a metric to a positive metric that it reaches. *)
Lemma ratio_ge_one (y c : pynum) :
  outmatched y c -> exists r, py_truediv c y = Ok r /\ at_least 600 1 r.
Proof.
  intros (Hy & Hc & Hgt & Hle).
  assert (Hmixed :
    match SFcompare (score_float y) (score_float c) with
    | Some (Lt | Eq) => True
    | _ => False
    end ->
    exists qa ea qb eb,
      to_float c = Ok (S754_finite false qa ea) /\
      to_float y = Ok (S754_finite false qb eb) /\
      at_least 600 1 (PFloat (fdiv (S754_finite false qa ea) (S754_finite false qb eb)))).
  { intros Hcmp.
    assert (Hcgt : num_gt c (PInt 0) = true).
    { destruct c as [b|f]; [|destruct Hc as (q & e & -> & _); apply num_gt_float_0; eauto].
      apply num_gt_int_0. destruct (Z_le_gt_dec b 0) as [Hb|]; [|lia]. exfalso.
      cbn in Hc. assert (b = 0) by lia. subst b. cbn [score_float] in Hcmp.
      rewrite float_of_Z_0 in Hcmp.
      destruct (plain_float y Hy Hgt) as (qb & eb & _ & Sy & _). rewrite Sy in Hcmp.
      cbn in Hcmp. exact Hcmp. }
    destruct (plain_float y Hy Hgt) as (qb & eb & Ty & Sy & Hqb & Heb).
    destruct (plain_float c Hc Hcgt) as (qa & ea & Tc & Sc & Hqa & Hea).
    rewrite Sy, Sc in Hcmp.
    assert (Hord : eb < ea \/ (eb = ea /\ Zpos qb <= Zpos qa)).
    { revert Hcmp. cbn [SFcompare]. destruct (Z.compare_spec eb ea) as [->| |]; try tauto.
      intros H. right. split; [reflexivity|].
      change (Pos.compare_cont Eq qb qa) with (Pos.compare qb qa) in H.
      destruct (Pos.compare_spec qb qa); try tauto; lia. }
    exists qa, ea, qb, eb. split; [exact Tc|]. split; [exact Ty|].
    apply fdiv_ge_one; assumption. }
  destruct y as [a|g]; destruct c as [b|f].
  - apply num_gt_int_0 in Hgt. cbn in Hy, Hc.
    assert (Hab : a <= b).
    { unfold num_le, num_compare in Hle. destruct (Z.compare_spec a b); try discriminate; lia. }
    destruct (int_truediv_spec b a Hgt Hab) as (q & e & E & Hq & He & Hv).
    { assert (2 ^ 48 <= 2 ^ 63) by (apply Z.pow_le_mono_r; lia). nia. }
    exists (PFloat (S754_finite false q e)). cbn [py_truediv]. rewrite E.
    split; [reflexivity|]. exists q, e. split; [reflexivity|]. split; [exact Hq|].
    split; [lia|]. intros Hneg. apply (Hv 1); lia.
  - destruct (num_le_small _ _ Hy Hc Hle) as [(a' & b' & _ & Eb & _) | Hcmp]; [discriminate|].
    destruct (Hmixed Hcmp) as (qa & ea & qb & eb & Tc & Ty & Hr).
    eexists. cbn [py_truediv]. rewrite Tc, Ty. cbn [mbind result_bind is_zero].
    split; [reflexivity | exact Hr].
  - destruct (num_le_small _ _ Hy Hc Hle) as [(a' & b' & Ea & _) | Hcmp]; [discriminate|].
    destruct (Hmixed Hcmp) as (qa & ea & qb & eb & Tc & Ty & Hr).
    eexists. cbn [py_truediv]. rewrite Tc, Ty. cbn [mbind result_bind is_zero].
    split; [reflexivity | exact Hr].
  - destruct (num_le_small _ _ Hy Hc Hle) as [(a' & b' & Ea & _) | Hcmp]; [discriminate|].
    destruct (Hmixed Hcmp) as (qa & ea & qb & eb & Tc & Ty & Hr).
    eexists. cbn [py_truediv]. rewrite Tc, Ty. cbn [mbind result_bind is_zero].
    split; [reflexivity | exact Hr].
Qed.

(** A product with a weight keeps a lower bound. *)
Lemma mul_weight_at_least (b wa w : Z) (r : pynum) :
  0 < wa <= 2 ^ 52 -> 0 < w < 2 ^ 48 -> b <= 900 ->
  at_least b wa r ->
  exists a, py_mul r (PInt w) = Ok a /\ at_least (b + 54) (wa * w) a.
Proof.
  intros Hwa Hw Hb (q & e & -> & Hq & He & Hv).
  pose proof (at_least_exponent b wa q e ltac:(lia) Hq Hv) as Hlo.
  assert (H53 : 2 ^ 48 <= 2 ^ 53) by (apply Z.pow_le_mono_r; lia).
  destruct (float_of_Z_exact w ltac:(lia)) as (qw & ew & Ew & Hqw & Hew & Vw).
  cbn [py_mul to_float].
  rewrite float_of_int_ok
    by (pose proof dbl_overflow_big;
        assert (2 ^ 48 <= 2 ^ 64) by (apply Z.pow_le_mono_r; lia); lia).
  cbn [mbind result_bind]. rewrite Ew. unfold fmul, SFmul. cbn [xorb].
  set (P := (q * qw)%positive).
  assert (HP : Zpos P = Zpos q * Zpos qw) by (unfold P; lia).
  unfold normal53 in Hq, Hqw.
  assert (HPl : 2 ^ 104 <= Zpos P) by (rewrite HP; change (2 ^ 104) with (2 ^ 52 * 2 ^ 52); nia).
  assert (HPu : Zpos P < 2 ^ 106) by (rewrite HP; change (2 ^ 106) with (2 ^ 53 * 2 ^ 53); nia).
  assert (Dl : 105 <= Zpos (digits2_pos P)) by (apply (digits_lower P 104); lia).
  assert (Du : Zpos (digits2_pos P) <= 106) by (apply digits_upper; lia).
  destruct (bra_at_least P (e + ew) (wa * w) loc_Exact) as (q' & E' & Er & Hq' & HE' & Hv');
    try lia.
  { intros Hneg. rewrite HP, Vw.
    pose proof (pow2_pos (- ew) ltac:(lia)) as Hpw.
    destruct (Z_lt_le_dec e 0) as [Hen|Hep].
    - specialize (Hv Hen). replace (- (e + ew)) with (- e + - ew) by lia.
      rewrite Z.pow_add_r by lia.
      set (A := 2 ^ (- e)) in *. set (B := 2 ^ (- ew)) in *.
      replace (wa * w * (A * B)) with (wa * A * (w * B)) by ring.
      apply Z.mul_le_mono_nonneg_r; lia.
    - assert (Hle : 2 ^ (- (e + ew)) <= 2 ^ (- ew)) by (apply Z.pow_le_mono_r; lia).
      pose proof (pow2_pos (- (e + ew)) ltac:(lia)) as Hp2.
      set (A := 2 ^ (- (e + ew))) in *. set (B := 2 ^ (- ew)) in *.
      replace (wa * w * A) with (wa * (w * A)) by ring.
      apply Z.mul_le_mono_nonneg; [lia | lia | | ].
      + apply Z.mul_nonneg_nonneg; lia.
      + apply Z.mul_le_mono_nonneg_l; lia. }
  rewrite Er. eexists. split; [reflexivity|]. exists q', E'.
  split; [reflexivity|]. split; [exact Hq'|]. split; [lia | exact Hv'].
Qed.

Lemma shl_align_val (m : positive) (e ez : Z) :
  ez <= e -> Zpos (fst (shl_align m e ez)) = Zpos m * 2 ^ (e - ez).
Proof.
  intros H. unfold shl_align. destruct (ez - e) as [|p|p] eqn:E; try lia.
  - replace (e - ez) with 0 by lia. cbn. lia.
  - cbn [fst]. unfold shift_pos. rewrite iter_xO_val. f_equal. f_equal. lia.
Qed.

Lemma scaled_bound (w q e ez : Z) :
  0 < w <= 2 ^ 52 -> 2 ^ 52 <= q -> ez <= e -> ez < 0 ->
  (e < 0 -> w * 2 ^ (- e) <= q) ->
  w * 2 ^ (- ez) <= q * 2 ^ (e - ez).
Proof.
  intros Hw Hq He Hz Hv.
  pose proof (pow2_pos (e - ez) ltac:(lia)) as Hp.
  destruct (Z_lt_le_dec e 0) as [Hn|Hp0].
  - specialize (Hv Hn). replace (- ez) with (- e + (e - ez)) by lia.
    rewrite Z.pow_add_r by lia. rewrite Z.mul_assoc.
    apply Z.mul_le_mono_nonneg_r; lia.
  - assert (Hle : 2 ^ (- ez) <= 2 ^ (e - ez)) by (apply Z.pow_le_mono_r; lia).
    pose proof (pow2_pos (- ez) ltac:(lia)) as Hp2.
    apply Z.mul_le_mono_nonneg; lia.
Qed.

(** A sum keeps the sum of the lower bounds. *)
Lemma add_at_least (b wa wb : Z) (x y : pynum) :
  0 < wa <= 2 ^ 52 -> 0 < wb <= 2 ^ 52 -> b <= 960 ->
  at_least b wa x -> at_least b wb y ->
  exists c, py_add x y = Ok c /\ at_least (b + 2) (wa + wb) c.
Proof.
  intros Hwa Hwb Hb (qa & ea & -> & Hqa & Hea & Hva) (qb & eb & -> & Hqb & Heb & Hvb).
  pose proof (at_least_exponent b wa qa ea ltac:(lia) Hqa Hva) as Hla.
  pose proof (at_least_exponent b wb qb eb ltac:(lia) Hqb Hvb) as Hlb.
  cbn [py_add to_float mbind result_bind]. unfold fadd, SFadd. cbn [cond_Zopp].
  set (ez := Z.min ea eb).
  rewrite (shl_align_val qa ea ez) by (unfold ez; lia).
  rewrite (shl_align_val qb eb ez) by (unfold ez; lia).
  unfold normal53 in Hqa, Hqb.
  pose proof (pow2_pos (ea - ez) ltac:(unfold ez; lia)) as Hpa.
  pose proof (pow2_pos (eb - ez) ltac:(unfold ez; lia)) as Hpb.
  set (M := Zpos qa * 2 ^ (ea - ez) + Zpos qb * 2 ^ (eb - ez)).
  assert (HMl : 2 ^ 52 < M) by (unfold M; nia).
  set (mx := Z.max ea eb).
  assert (HMu : M < 2 ^ (54 + (mx - ez))).
  { assert (Ha : 2 ^ (ea - ez) <= 2 ^ (mx - ez)) by (apply Z.pow_le_mono_r; unfold mx, ez; lia).
    assert (Hb' : 2 ^ (eb - ez) <= 2 ^ (mx - ez)) by (apply Z.pow_le_mono_r; unfold mx, ez; lia).
    rewrite Z.pow_add_r by (unfold mx, ez; lia). change (2 ^ 54) with (2 * 2 ^ 53).
    unfold M. nia. }
  destruct M as [|Mp|Mp] eqn:EM; try lia.
  cbn [binary_normalize]. unfold binary_round.
  assert (D53 : 53 <= Zpos (digits2_pos Mp)) by (apply (digits_lower Mp 52); lia).
  assert (Dup : Zpos (digits2_pos Mp) <= 54 + (mx - ez)).
  { apply digits_upper; [unfold mx, ez; lia | lia]. }
  assert (Hf : shl_align Mp ez (fexp prec emax (Zpos (digits2_pos Mp) + ez)) = (Mp, ez)).
  { unfold shl_align.
    assert (0 <= fexp prec emax (Zpos (digits2_pos Mp) + ez) - ez)
      by (unfold fexp, SpecFloat.emin, prec, emax; lia).
    destruct (fexp prec emax (Zpos (digits2_pos Mp) + ez) - ez); try lia; reflexivity. }
  cbn [Zdigits2]. rewrite Hf.
  destruct (bra_at_least Mp ez (wa + wb) loc_Exact) as (q' & E' & Er & Hq' & HE' & Hv');
    try (unfold mx, ez in *; lia).
  { intros Hneg. rewrite <- EM. unfold M.
    pose proof (pow2_pos (- ez) ltac:(lia)) as Hpz.
    assert (Ha : wa * 2 ^ (- ez) <= Zpos qa * 2 ^ (ea - ez))
      by (apply scaled_bound; [lia | lia | unfold ez; lia | lia | exact Hva]).
    assert (Hb' : wb * 2 ^ (- ez) <= Zpos qb * 2 ^ (eb - ez))
      by (apply scaled_bound; [lia | lia | unfold ez; lia | lia | exact Hvb]).
    lia. }
  rewrite Er. eexists. split; [reflexivity|]. exists q', E'.
  split; [reflexivity|]. split; [exact Hq'|]. split; [unfold mx, ez in *; lia | exact Hv'].
Qed.

(** A double of value at least 100 is not below the [int] 100. *)
Lemma at_least_100_clamped (b : Z) (x : pynum) :
  at_least b 100 x -> py_min (PInt 100) x = PInt 100.
Proof.
  intros (q & e & -> & Hq & _ & Hv). unfold py_min.
  rewrite num_lt_float_int by exact small_100. rewrite float_of_Z_100.
  unfold SFltb. cbn [SFcompare].
  unfold normal53 in Hq.
  destruct (Z.compare_spec (-46) e) as [<- | Hlt | Hgt]; [|reflexivity|].
  - specialize (Hv ltac:(lia)). change (2 ^ (- -46)) with (2 ^ 46) in Hv.
    change (Pos.compare_cont Eq 7036874417766400 q)
      with (Z.compare (Zpos 7036874417766400) (Zpos q)).
    change (100 * 2 ^ 46) with (Zpos 7036874417766400) in Hv.
    destruct (Z.compare_spec (Zpos 7036874417766400) (Zpos q)) as [| |Hc]; try reflexivity.
    exfalso. clear Hq. apply (Z.lt_irrefl (Zpos q)). eapply Z.lt_le_trans; eassumption.
  - exfalso. specialize (Hv ltac:(lia)).
    assert (H47 : 2 ^ 47 <= 2 ^ (- e)) by (apply Z.pow_le_mono_r; lia).
    assert (H53 : 2 ^ 53 < 100 * 2 ^ 47) by reflexivity.
    set (T := 2 ^ (- e)) in *. set (T47 := 2 ^ 47) in *. set (T53 := 2 ^ 53) in *. lia.
Qed.

(** The three ratios of an outmatched domain give the score 100. *)
Lemma outmatched_strength (you : own_metrics) (metrics : domain_metrics) :
  outmatched (your_pos_1 you) (get0 (pos_1 metrics)) ->
  outmatched (your_etv you) (get0 (etv metrics)) ->
  outmatched (your_keywords you) (get0 (keywords metrics)) ->
  raw_strength you metrics = Ok (PInt 100).
Proof.
  intros H1 H2 H3. unfold raw_strength, pos_1_ratio, etv_ratio, keywords_ratio.
  assert (G1 := proj1 (proj2 (proj2 H1))). assert (G2 := proj1 (proj2 (proj2 H2))).
  assert (G3 := proj1 (proj2 (proj2 H3))). rewrite G1, G2, G3.
  destruct (ratio_ge_one _ _ H1) as (r1 & -> & A1).
  destruct (ratio_ge_one _ _ H2) as (r2 & -> & A2).
  destruct (ratio_ge_one _ _ H3) as (r3 & -> & A3).
  cbn [mbind result_bind]. unfold weighted_score.
  assert (P52 : 0 < 1 <= 2 ^ 52) by (split; [lia | apply Z.leb_le; reflexivity]).
  assert (P48 : forall w, 0 < w <= 100 -> 0 < w < 2 ^ 48).
  { intros w Hw. assert (100 < 2 ^ 48) by (apply Z.ltb_lt; reflexivity). lia. }
  destruct (mul_weight_at_least 600 1 50 r1 P52 (P48 50 ltac:(lia)) ltac:(lia) A1)
    as (a & -> & Aa).
  destruct (mul_weight_at_least 600 1 30 r2 P52 (P48 30 ltac:(lia)) ltac:(lia) A2)
    as (b & -> & Ab).
  cbn [mbind result_bind].
  assert (Q52 : forall w, 0 < w <= 100 -> 0 < w <= 2 ^ 52).
  { intros w Hw. assert (100 < 2 ^ 52) by (apply Z.ltb_lt; reflexivity). lia. }
  destruct (add_at_least 654 50 30 a b (Q52 50 ltac:(lia)) (Q52 30 ltac:(lia)) ltac:(lia) Aa Ab)
    as (ab & -> & Aab).
  destruct (mul_weight_at_least 600 1 20 r3 P52 (P48 20 ltac:(lia)) ltac:(lia) A3)
    as (c & -> & Ac).
  cbn [mbind result_bind].
  assert (Ac' : at_least 656 20 c).
  { destruct Ac as (q & e & E & Hq & He & Hv). exists q, e. repeat split; try assumption.
    - apply Hq. - apply Hq. - lia. }
  destruct (add_at_least 656 80 20 ab c (Q52 80 ltac:(lia)) (Q52 20 ltac:(lia)) ltac:(lia)
              Aab Ac') as (abc & -> & Aabc).
  cbn [mbind result_bind]. f_equal. apply (at_least_100_clamped _ _ Aabc).
Qed.

(** X20: the score saturates at parity.  When each of your metrics is
    positive and the competitor's metric is at least as large (counts
    below [2^48], doubles of everyday size, in any mixture of [int] and
    [float]), every ratio is at least 1 and the weighted sum at least 100,
    also after the roundings of the floating-point operations: the score is
    the [int] 100, it is stored as 100, and the label is DOMINANT.  A
    competitor whose metrics equal yours is a case of this. *)
Theorem at_least_as_strong_is_dominant (you : own_metrics) (metrics : domain_metrics) :
  outmatched (your_pos_1 you) (get0 (pos_1 metrics)) ->
  outmatched (your_etv you) (get0 (etv metrics)) ->
  outmatched (your_keywords you) (get0 (keywords metrics)) ->
  raw_strength you metrics = Ok (PInt 100) /\
  forall (dict : gmap string domain_metrics) r d,
    domain r = Some d -> d <> "" -> dict !! d = Some metrics ->
    exists c,
      analyze_result you dict r = Ok (Some c) /\
      c_domain c = d /\
      strength_score c = PInt 100 /\
      difficulty c = "DOMINANT - Very difficult to outrank".
Proof.
  intros H1 H2 H3. pose proof (outmatched_strength you metrics H1 H2 H3) as E.
  split; [exact E|]. intros dict r d Hd Hne Hm. unfold analyze_result.
  rewrite Hd. destruct (String.eqb_spec d ""); [congruence|]. cbn [negb].
  rewrite Hm, E. cbn [mbind result_bind]. eexists. split; [reflexivity|].
  cbn. auto.
Qed.

Lemma at_least_as_strong_is_dominant_witness :
  outmatched (your_pos_1 (read_own_metrics example_own)) (get0 (pos_1 strong_metrics)) /\
  outmatched (your_etv (read_own_metrics example_own)) (get0 (etv strong_metrics)) /\
  outmatched (your_keywords (read_own_metrics example_own)) (get0 (keywords strong_metrics)) /\
  raw_strength (read_own_metrics example_own) strong_metrics = Ok (PInt 100) /\
  forall (dict : gmap string domain_metrics) r d,
    domain r = Some d -> d <> "" -> dict !! d = Some strong_metrics ->
    exists c,
      analyze_result (read_own_metrics example_own) dict r = Ok (Some c) /\
      c_domain c = d /\
      strength_score c = PInt 100 /\
      difficulty c = "DOMINANT - Very difficult to outrank".
Proof.
  assert (P : forall z, 0 <= z < 100000 -> plain_metric (PInt z)).
  { intros z Hz. cbn. assert (100000 < 2 ^ 48) by (apply Z.ltb_lt; reflexivity). lia. }
  assert (H1 : outmatched (your_pos_1 (read_own_metrics example_own))
                          (get0 (pos_1 strong_metrics))).
  { split; [apply P; cbn; lia|]. split; [apply P; cbn; lia|]. split; reflexivity. }
  assert (H2 : outmatched (your_etv (read_own_metrics example_own))
                          (get0 (etv strong_metrics))).
  { split; [apply P; cbn; lia|]. split; [|split; reflexivity].
    cbn. exists 5497558138880000%positive, (-38). split; [reflexivity|].
    split; [|lia]. unfold normal53. split; [apply Z.leb_le | apply Z.ltb_lt]; reflexivity. }
  assert (H3 : outmatched (your_keywords (read_own_metrics example_own))
                          (get0 (keywords strong_metrics))).
  { split; [apply P; cbn; lia|]. split; [apply P; cbn; lia|]. split; reflexivity. }
  split; [exact H1|]. split; [exact H2|]. split; [exact H3|].
  exact (at_least_as_strong_is_dominant (read_own_metrics example_own) strong_metrics H1 H2 H3).
Defined.

(** ** The verdict and the five weakest competitors *)

Lemma top_5_is_take (cs : list competitor) : top_5 cs = take 5 cs.
Proof.
  unfold top_5. destruct (Nat.leb_spec 5 (length cs)) as [H|H]; [reflexivity|].
  symmetry. apply firstn_all2. lia.
Qed.

(** The overall score is a function of the first five stored scores. *)
Lemma overall_score_of_scores (cs cs' : list competitor) :
  map strength_score (take 5 cs) = map strength_score (take 5 cs') ->
  overall_score_of cs = overall_score_of cs'.
Proof.
  unfold overall_score_of. rewrite !top_5_is_take. intros H.
  assert (Hl : length (take 5 cs) = length (take 5 cs')).
  { rewrite <- (length_map strength_score (take 5 cs)), H. apply length_map. }
  destruct (take 5 cs) as [|c t]; destruct (take 5 cs') as [|c' t']; try discriminate Hl;
    [reflexivity|].
  rewrite H, Hl. reflexivity.
Qed.

(** What the returned assessment says about its competitor list. *)
Lemma calculate_inv fetch (your_domain_metrics : domain_metrics)
    (dict : gmap string domain_metrics) (serp_results : serp) (a : assessment) :
  calculate_competition_assessment fetch your_domain_metrics dict serp_results = Ok a ->
  exists o,
    overall_score_of (competitor_analysis a) = Ok o /\
    overall_score a = py_round1 o /\
    verdict a = fst (verdict_of o) /\
    target_position a = snd (verdict_of o) /\
    recommendations a = strategy_of o ++ easiest_line (competitor_analysis a).
Proof.
  unfold calculate_competition_assessment.
  destruct (estimate_content_length fetch serp_results) as [p|]; cbn [mbind result_bind];
    [|intros H; discriminate H].
  destruct (analyze_results _ dict _) as [cs|]; cbn [mbind result_bind];
    [|intros H; discriminate H].
  destruct (overall_score_of (sort_by_strength cs)) as [o|] eqn:Eo; cbn [mbind result_bind];
    [|intros H; discriminate H].
  intros [= <-]. exists o. cbn. auto.
Qed.

(** X21: only the five lowest scores count.  Two assessments whose
    sorted competitor lists begin with the same five stored scores (or with
    the same scores altogether, when there are fewer) report the same
    overall score, verdict, target position and strategy lines: however
    many stronger competitors follow, and however strong they are, they
    change nothing in the verdict. *)
Theorem verdict_ignores_all_but_five_weakest
    fetch1 (ydm1 : domain_metrics) (dict1 : gmap string domain_metrics) (serp1 : serp)
    fetch2 (ydm2 : domain_metrics) (dict2 : gmap string domain_metrics) (serp2 : serp)
    (a1 a2 : assessment) :
  calculate_competition_assessment fetch1 ydm1 dict1 serp1 = Ok a1 ->
  calculate_competition_assessment fetch2 ydm2 dict2 serp2 = Ok a2 ->
  map strength_score (take 5 (competitor_analysis a1))
    = map strength_score (take 5 (competitor_analysis a2)) ->
  overall_score a1 = overall_score a2 /\
  verdict a1 = verdict a2 /\
  target_position a1 = target_position a2 /\
  take (length (recommendations a1) - length (easiest_line (competitor_analysis a1)))
       (recommendations a1)
    = take (length (recommendations a2) - length (easiest_line (competitor_analysis a2)))
           (recommendations a2).
Proof.
  intros E1 E2 H.
  destruct (calculate_inv _ _ _ _ _ E1) as (o1 & O1 & S1 & V1 & T1 & R1).
  destruct (calculate_inv _ _ _ _ _ E2) as (o2 & O2 & S2 & V2 & T2 & R2).
  rewrite (overall_score_of_scores _ _ H) in O1. rewrite O1 in O2. injection O2 as <-.
  rewrite S1, S2, V1, V2, T1, T2, R1, R2, !length_app.
  repeat (split; [reflexivity|]).
  rewrite !Nat.add_sub, !take_app_length. reflexivity.
Qed.

Lemma verdict_ignores_all_but_five_weakest_witness :
  exists a1 a2,
    calculate_competition_assessment (fun _ => None) example_own example_dict
      (crowded_serp "a.example") = Ok a1 /\
    calculate_competition_assessment (fun _ => None) example_own example_dict
      (crowded_serp "d.example") = Ok a2 /\
    map strength_score (competitor_analysis a1)
      <> map strength_score (competitor_analysis a2) /\
    map strength_score (take 5 (competitor_analysis a1))
      = map strength_score (take 5 (competitor_analysis a2)) /\
    overall_score a1 = overall_score a2 /\
    verdict a1 = verdict a2 /\
    target_position a1 = target_position a2 /\
    take (length (recommendations a1) - length (easiest_line (competitor_analysis a1)))
         (recommendations a1)
      = take (length (recommendations a2) - length (easiest_line (competitor_analysis a2)))
             (recommendations a2).
Proof.
  pose (none := fun _ : string => @None Z).
  let r := eval vm_compute in
      (calculate_competition_assessment (fun _ => None) example_own example_dict
         (crowded_serp "a.example")) in
  match r with
  | Ok ?a =>
      assert (E1 : calculate_competition_assessment none example_own example_dict
                     (crowded_serp "a.example") = Ok a) by (vm_compute; reflexivity)
  end.
  let r := eval vm_compute in
      (calculate_competition_assessment (fun _ => None) example_own example_dict
         (crowded_serp "d.example")) in
  match r with
  | Ok ?a =>
      assert (E2 : calculate_competition_assessment none example_own example_dict
                     (crowded_serp "d.example") = Ok a) by (vm_compute; reflexivity)
  end.
  eexists. eexists.
  split; [exact E1|]. split; [exact E2|].
  split; [vm_compute; intros H; discriminate H|].
  split; [vm_compute; reflexivity|].
  apply (verdict_ignores_all_but_five_weakest _ _ _ _ _ _ _ _ _ _ E1 E2).
  vm_compute. reflexivity.
Defined.
